(** * The ECST VMware console (ecst-vmware.py), embedded in Rocq

    The console is a menu-driven Python program: it reads operator lines,
    prints menus and summaries, reads [config.json] and starts PowerShell
    as a child process.  The embedding keeps that shape:

    - a Python string is a [string] of its code points, which covers the
      code points below 256; [strip], [upper] and [lower] are Python's on
      ASCII text, and the properties that rest on them are stated for
      ASCII lines; an f-string is a list of pieces, so that a value
      formatted with [{...}] stays the value;
    - a loaded JSON document is a [json] tree, and subscripting, [len],
      iteration and [join] raise what Python raises;
    - effects are explicit: a computation takes the [World] (pending
      operator input, the files, the colour switch) and returns an
      outcome, the new world and the events it produced, in order;
    - the collaborators the program does not contain (the JSON codec of
      the Python library, the child processes, the install directory) are
      the fields of the class [Env]. *)

From Stdlib Require Import String Ascii List ZArith Bool Lia.
From Stdlib Require Import Decimal DecimalString DecimalPos DecimalN.
From Stdlib Require DecimalFacts.
Import ListNotations.
Local Open Scope string_scope.
Local Open Scope list_scope.

(** ** Text *)

Definition nl : string := String (ascii_of_nat 10) EmptyString.
Definition dq : string := String (ascii_of_nat 34) EmptyString.

(** Python's [str.isspace] on the ASCII range: tab to carriage return,
    the four separators 0x1c-0x1f and the blank.  The blanks outside ASCII
    (U+0085, U+00A0 and beyond) are not among them: [strip] below is
    [str.strip] on ASCII text only. *)
Definition is_space (c : ascii) : bool :=
  let n := nat_of_ascii c in
  ((9 <=? n) && (n <=? 13) || (28 <=? n) && (n <=? 32))%nat.

Fixpoint lstrip (s : string) : string :=
  match s with
  | EmptyString => EmptyString
  | String c s' => if is_space c then lstrip s' else s
  end.

Fixpoint rstrip (s : string) : string :=
  match s with
  | EmptyString => EmptyString
  | String c s' =>
      match rstrip s' with
      | EmptyString => if is_space c then EmptyString else String c EmptyString
      | r => String c r
      end
  end.

Definition strip (s : string) : string := rstrip (lstrip s).

(** [str.upper] and [str.lower] on ASCII text: the letters a-z and A-Z; the
    case mappings of other characters are not modelled. *)
Definition upper_ascii (c : ascii) : ascii :=
  let n := nat_of_ascii c in
  if ((97 <=? n) && (n <=? 122))%nat then ascii_of_nat (n - 32) else c.

Definition lower_ascii (c : ascii) : ascii :=
  let n := nat_of_ascii c in
  if ((65 <=? n) && (n <=? 90))%nat then ascii_of_nat (n + 32) else c.

Fixpoint map_string (f : ascii -> ascii) (s : string) : string :=
  match s with
  | EmptyString => EmptyString
  | String c s' => String (f c) (map_string f s')
  end.

Definition upper : string -> string := map_string upper_ascii.
Definition lower : string -> string := map_string lower_ascii.

(** [not s] for a Python string. *)
Definition is_empty (s : string) : bool :=
  match s with EmptyString => true | _ => false end.

(** ['=' * width]. *)
Fixpoint repeat_string (s : string) (n : nat) : string :=
  match n with
  | O => EmptyString
  | S n' => s ++ repeat_string s n'
  end.

(** [f"{s:20}"]: a string padded with blanks on the right up to the width. *)
Definition ljust (s : string) (width : nat) : string :=
  s ++ repeat_string " " (width - String.length s).

(** [sep.join(parts)]. *)
Fixpoint join (sep : string) (parts : list string) : string :=
  match parts with
  | [] => EmptyString
  | [p] => p
  | p :: rest => p ++ sep ++ join sep rest
  end.

(** ** Dictionaries kept in insertion order *)

Fixpoint dict_get {V : Type} (d : list (string * V)) (k : string) : option V :=
  match d with
  | [] => None
  | (k', v) :: d' => if String.eqb k k' then Some v else dict_get d' k
  end.

(** [k in d]. *)
Definition dict_mem {V : Type} (k : string) (d : list (string * V)) : bool :=
  match dict_get d k with Some _ => true | None => false end.

(** ** JSON documents as Python holds them after [json.load] *)

Set Warnings "-register-all".

Inductive json : Type :=
| JNull
| JBool (b : bool)
| JInt (n : Z)
| JFloat (bits : Z)          (* a binary64, by its 64 bits *)
| JStr (s : string)
| JArr (xs : list json)
| JObj (kvs : list (string * json)).

Inductive exn : Type :=
| KeyboardInterrupt
| EOFError
| KeyError (k : string)
| TypeError
| FileNotFoundError
| UnicodeDecodeError
| RecursionError.

(** How a call ends: it returns, the process exits ([sys.exit]), an
    exception travels up, or a bounded loop of the model ran out of
    steps. *)
Inductive outcome (A : Type) : Type :=
| Ret (a : A)
| Exit (code : Z)
| Raise (e : exn)
| NoFuel.
Arguments Ret {A} a.
Arguments Exit {A} code.
Arguments Raise {A} e.
Arguments NoFuel {A}.

(** [v[k]] with a string key. *)
Definition py_getitem (v : json) (k : string) : outcome json :=
  match v with
  | JObj kvs =>
      match dict_get kvs k with
      | Some x => Ret x
      | None => Raise (KeyError k)
      end
  | _ => Raise TypeError
  end.

(** Truth value of a loaded value. *)
Definition py_truth (v : json) : bool :=
  match v with
  | JNull => false
  | JBool b => b
  | JInt n => negb (n =? 0)%Z
  | JFloat bits => negb (Z.land bits (Z.ones 63) =? 0)%Z
  | JStr s => negb (is_empty s)
  | JArr xs => match xs with [] => false | _ => true end
  | JObj kvs => match kvs with [] => false | _ => true end
  end.

Definition py_len (v : json) : outcome Z :=
  match v with
  | JStr s => Ret (Z.of_nat (String.length s))
  | JArr xs => Ret (Z.of_nat (List.length xs))
  | JObj kvs => Ret (Z.of_nat (List.length kvs))
  | _ => Raise TypeError
  end.

Fixpoint chars (s : string) : list json :=
  match s with
  | EmptyString => []
  | String c s' => JStr (String c EmptyString) :: chars s'
  end.

(** The items a [for] loop visits. *)
Definition py_iter (v : json) : outcome (list json) :=
  match v with
  | JArr xs => Ret xs
  | JStr s => Ret (chars s)
  | JObj kvs => Ret (map (fun kv => JStr (fst kv)) kvs)
  | _ => Raise TypeError
  end.

Fixpoint all_strings (xs : list json) : option (list string) :=
  match xs with
  | [] => Some []
  | JStr s :: xs' => option_map (cons s) (all_strings xs')
  | _ :: _ => None
  end.

(** [sep.join(v)]: every item must be a string. *)
Definition py_join (sep : string) (v : json) : outcome string :=
  match py_iter v with
  | Ret xs =>
      match all_strings xs with
      | Some parts => Ret (join sep parts)
      | None => Raise TypeError
      end
  | Exit c => Exit c
  | Raise e => Raise e
  | NoFuel => NoFuel
  end.

(** ** Events, worlds and computations *)

Inductive color : Type :=
| HEADER | BLUE | CYAN | GREEN | YELLOW | RED | ENDC | BOLD | UNDERLINE.

(** A piece of formatted text: literal bytes, a value formatted by
    [{...}], or one of the escape codes of class [Colors] (empty once
    [Colors.disable] has run). *)
Inductive piece : Type :=
| Lit (s : string)
| Fmt (v : json)
| Col (c : color).

Definition text : Type := list piece.

(** One line of operator input, or Ctrl-C at the prompt. *)
Inductive key : Type :=
| Line (s : string)
| CtrlC.

Inductive event : Type :=
| Clear                                      (* os.system('cls' / 'clear') *)
| Print (t : text)                           (* print(t) *)
| Asked (prompt : text) (reply : option key) (* input(prompt); None at end of input *)
| Run (cmd : list text) (cwd : string).      (* subprocess.run(cmd, cwd=cwd) *)

Definition files : Type := string -> option string.

Record World : Type := mkWorld {
  stdin : list key;
  fs : files;
  colors : bool
}.

Record res (A : Type) : Type := mkRes {
  out : outcome A;
  world : World;
  log : list event
}.
Arguments mkRes {A} out world log.
Arguments out {A} r.
Arguments world {A} r.
Arguments log {A} r.

Definition M (A : Type) : Type := World -> res A.

Definition ret {A : Type} (a : A) : M A := fun w => mkRes (Ret a) w [].

Definition bind {A B : Type} (m : M A) (k : A -> M B) : M B := fun w =>
  let r := m w in
  match out r with
  | Ret a => let r' := k a (world r) in mkRes (out r') (world r') (log r ++ log r')
  | Exit c => mkRes (Exit c) (world r) (log r)
  | Raise e => mkRes (Raise e) (world r) (log r)
  | NoFuel => mkRes NoFuel (world r) (log r)
  end.

Declare Scope console_scope.
Delimit Scope console_scope with console.
Notation "x <- m ;; k" := (bind m (fun x => k))
  (at level 61, m at next level, right associativity) : console_scope.
Notation "m ;; k" := (bind m (fun _ => k))
  (at level 61, right associativity) : console_scope.
Local Open Scope console_scope.

(** A pure Python operation placed in a computation. *)
Definition lift {A : Type} (o : outcome A) : M A := fun w => mkRes o w [].

Definition emit (e : event) : M unit := fun w => mkRes (Ret tt) w [e].

Definition sys_exit {A : Type} (code : Z) : M A := lift (Exit code).

Definition raise {A : Type} (e : exn) : M A := lift (Raise e).

(** [try: m  except KeyboardInterrupt: handler]. *)
Definition except_KeyboardInterrupt {A : Type} (m : M A) (handler : M A) : M A :=
  fun w =>
    let r := m w in
    match out r with
    | Raise KeyboardInterrupt =>
        let r' := handler (world r) in
        mkRes (out r') (world r') (log r ++ log r')
    | _ => r
    end.

(** [for x in xs: body x]. *)
Fixpoint for_each {A : Type} (xs : list A) (body : A -> M unit) : M unit :=
  match xs with
  | [] => ret tt
  | x :: xs' => body x ;; for_each xs' body
  end.

(** What a pass through the body of [while True] asks for next. *)
Inductive ctl : Type := Continue | Break.

(** [while True: body], cut after [fuel] passes. *)
Fixpoint while_true (fuel : nat) (body : M ctl) : M unit :=
  match fuel with
  | O => lift NoFuel
  | S n =>
      c <- body ;;
      match c with
      | Break => ret tt
      | Continue => while_true n body
      end
  end.

(** ** The collaborators outside the program *)

(** What [json.load] gives for the content of a file. *)
Inductive parse_result : Type :=
| Parsed (d : json)
| DecodeError (msg : string)       (* json.JSONDecodeError, with its message *)
| Failed (e : exn).                (* another exception of f.read() or json.load:
                                      UnicodeDecodeError, RecursionError *)

Class Env : Type := {
  (** [Path(__file__).parent.resolve()], as text, and the separator [/] puts
      between a directory and a name. *)
  SCRIPT_DIR : string;
  path_sep : string;
  (** [os.name]. *)
  os_name : string;
  (** What reading a file of this content and [json.load] on it give. *)
  json_loads : string -> parse_result;
  (** The text [json.dump(config, f, indent=2)] writes; [None] when the
      encoder raises. *)
  json_dumps : json -> option string;
  (** [subprocess.run(cmd, ...).returncode]; [None] when the program cannot be
      started. *)
  spawn : list text -> option Z
}.

(** ** Configuration (source lines 27-56) *)

Record Template : Type := mkTemplate {
  tpl_name : string;
  tpl_template : string;
  tpl_description : string
}.

Record Size : Type := mkSize {
  cpu : Z;
  memory_gb : Z;
  disk_gb : Z
}.

Record OsType : Type := mkOsType {
  ot_name : string;
  ot_guest_id : string;
  ot_description : string
}.

Definition VM_TEMPLATES : list (string * Template) :=
  [ ("1", mkTemplate "Splunk" "template-splunk-enterprise" "Splunk Enterprise Server");
    ("2", mkTemplate "Cribl" "template-cribl-stream" "Cribl Stream/Edge");
    ("3", mkTemplate "Forescout" "template-forescout" "Forescout CounterACT");
    ("4", mkTemplate "Windows Server" "template-windows-2022" "Windows Server 2022");
    ("5", mkTemplate "RHEL 9" "template-rhel9" "Red Hat Enterprise Linux 9");
    ("6", mkTemplate "Ubuntu 22.04" "template-ubuntu-2204" "Ubuntu Server 22.04 LTS") ].

Definition VM_SIZES : list (string * Size) :=
  [ ("Small", mkSize 2 4 50);
    ("Medium", mkSize 4 8 100);
    ("Large", mkSize 8 16 200);
    ("XLarge", mkSize 16 32 500) ].

Definition OS_TYPES : list (string * OsType) :=
  [ ("1", mkOsType "RHEL" "rhel9_64Guest" "Red Hat Enterprise Linux");
    ("2", mkOsType "Ubuntu" "ubuntu64Guest" "Ubuntu Linux");
    ("3", mkOsType "Windows" "windows2019srv_64Guest" "Windows Server");
    ("4", mkOsType "CentOS" "centos9_64Guest" "CentOS Stream");
    ("5", mkOsType "Debian" "debian11_64Guest" "Debian Linux") ].

Definition path_div `{Env} (dir name : string) : string := dir ++ path_sep ++ name.
Notation "p / q" := (path_div p q) : console_scope.

Definition set_stdin (keys : list key) (w : World) : World :=
  mkWorld keys (fs w) (colors w).

Definition set_fs (f : files) (w : World) : World :=
  mkWorld (stdin w) f (colors w).

Definition set_colors (b : bool) (w : World) : World :=
  mkWorld (stdin w) (fs w) b.

(** The files after [path] has been opened for writing and [content]
    written. *)
Definition write_file (path content : string) (f : files) : files :=
  fun p => if String.eqb p path then Some content else f p.

(** ** The JSON codec of the Python library, on documents without floats

    [dumps] follows [json.dump(obj, f, indent=2)] (the pure-Python encoder,
    [ensure_ascii] on) and [loads] follows [json.load] (decoder and scanner
    of the library) on text whose characters are code points below 256:
    ASCII text as it is, and a byte above 127 read as the code point of
    that number.
    Outside this fragment the model declines: a number with a fraction or
    an exponent, [NaN], the infinities and an escape [\uXXXX] above 00ff are
    read as malformed, and a document holding a float is not written.  The
    messages of [JSONDecodeError] are not reproduced, and the interpreter's
    bound on the number of digits of an integer is not applied. *)
Module PyJson.
Local Open Scope string_scope.

Definition dquote : ascii := ascii_of_nat 34.
Definition backslash : ascii := ascii_of_nat 92.

(** *** Encoder *)

Definition hex_digit (n : nat) : ascii :=
  if (n <? 10)%nat then ascii_of_nat (48 + n) else ascii_of_nat (87 + n).

(** [ESCAPE_ASCII] and [ESCAPE_DCT] of [json.encoder]. *)
Definition escape (c : ascii) : string :=
  let n := nat_of_ascii c in
  if (n =? 34)%nat then String backslash (String dquote EmptyString)
  else if (n =? 92)%nat then String backslash (String backslash EmptyString)
  else if ((32 <=? n) && (n <=? 126))%nat then String c EmptyString
  else if (n =? 8)%nat then String backslash "b"
  else if (n =? 12)%nat then String backslash "f"
  else if (n =? 10)%nat then String backslash "n"
  else if (n =? 13)%nat then String backslash "r"
  else if (n =? 9)%nat then String backslash "t"
  else String backslash
         (String "u" (String "0" (String "0"
            (String (hex_digit (n / 16)) (String (hex_digit (n mod 16)) EmptyString))))).

Fixpoint escape_string (s : string) : string :=
  match s with
  | EmptyString => EmptyString
  | String c s' => escape c ++ escape_string s'
  end.

Definition encode_string (s : string) : string :=
  String dquote (escape_string s ++ String dquote EmptyString).

(** [int.__repr__]. *)
Definition encode_int (n : Z) : string :=
  match n with
  | Z0 => "0"
  | Zpos p => DecimalString.NilEmpty.string_of_uint (Pos.to_uint p)
  | Zneg p => String "-" (DecimalString.NilEmpty.string_of_uint (Pos.to_uint p))
  end.

(** ['\n' + indent * level] with an indent of two blanks. *)
Definition newline_indent (level : nat) : string :=
  nl ++ repeat_string "  " level.

(** The items of a list after the first, each behind a separator, and the
    closing bracket on a line at the outer level. *)
Definition encode_items (enc : json -> string) (level : nat) : list json -> string :=
  fix items (ys : list json) : string :=
    match ys with
    | [] => newline_indent level ++ "]"
    | y :: ys' => "," ++ newline_indent (S level) ++ enc y ++ items ys'
    end.

Definition encode_members (enc : json -> string) (level : nat)
  : list (string * json) -> string :=
  fix items (ys : list (string * json)) : string :=
    match ys with
    | [] => newline_indent level ++ "}"
    | (k, y) :: ys' =>
        "," ++ newline_indent (S level) ++ encode_string k ++ ": " ++ enc y ++ items ys'
    end.

(** [_iterencode] with [_indent] of two blanks, at nesting [level]. *)
Fixpoint encode (level : nat) (v : json) : string :=
  match v with
  | JNull => "null"
  | JBool true => "true"
  | JBool false => "false"
  | JInt n => encode_int n
  | JFloat _ => EmptyString          (* outside the fragment, see [dumps] *)
  | JStr s => encode_string s
  | JArr [] => "[]"
  | JArr (x :: xs) =>
      "[" ++ newline_indent (S level) ++ encode (S level) x
      ++ encode_items (encode (S level)) level xs
  | JObj [] => "{}"
  | JObj ((k, x) :: kvs) =>
      "{" ++ newline_indent (S level) ++ encode_string k ++ ": " ++ encode (S level) x
      ++ encode_members (encode (S level)) level kvs
  end.

Fixpoint float_free (v : json) : bool :=
  match v with
  | JFloat _ => false
  | JArr xs => forallb float_free xs
  | JObj kvs => forallb (fun kv => float_free (snd kv)) kvs
  | _ => true
  end.

Definition dumps (v : json) : option string :=
  if float_free v then Some (encode 0 v) else None.

(** *** Decoder *)

(** [WHITESPACE] of [json.decoder]: blank, tab, line feed, carriage return. *)
Definition is_ws (c : ascii) : bool :=
  let n := nat_of_ascii c in
  ((n =? 32) || (n =? 9) || (n =? 10) || (n =? 13))%nat.

Fixpoint skip_ws (s : string) : string :=
  match s with
  | EmptyString => EmptyString
  | String c s' => if is_ws c then skip_ws s' else s
  end.

Definition hex_value (c : ascii) : option nat :=
  let n := nat_of_ascii c in
  if ((48 <=? n) && (n <=? 57))%nat then Some (n - 48)
  else if ((97 <=? n) && (n <=? 102))%nat then Some (n - 87)
  else if ((65 <=? n) && (n <=? 70))%nat then Some (n - 55)
  else None.

(** [BACKSLASH] of [json.decoder]. *)
Definition unescape (c : ascii) : option ascii :=
  let n := nat_of_ascii c in
  if (n =? 34)%nat then Some dquote
  else if (n =? 92)%nat then Some backslash
  else if (n =? 47)%nat then Some "/"%char
  else if (n =? 98)%nat then Some (ascii_of_nat 8)
  else if (n =? 102)%nat then Some (ascii_of_nat 12)
  else if (n =? 110)%nat then Some (ascii_of_nat 10)
  else if (n =? 114)%nat then Some (ascii_of_nat 13)
  else if (n =? 116)%nat then Some (ascii_of_nat 9)
  else None.

Definition cons_char (c : ascii) (r : option (string * string)) : option (string * string) :=
  match r with
  | Some (str, rest) => Some (String c str, rest)
  | None => None
  end.

(** [py_scanstring] in strict mode, from the character after the opening
    quote: the string and the text after its closing quote. *)
Fixpoint scanstring (s : string) : option (string * string) :=
  match s with
  | EmptyString => None
  | String c rest =>
      if Ascii.eqb c dquote then Some (EmptyString, rest)
      else if Ascii.eqb c backslash then
        match rest with
        | EmptyString => None
        | String e rest1 =>
            if Ascii.eqb e "u" then
              match rest1 with
              | String h1 (String h2 (String h3 (String h4 rest2))) =>
                  match hex_value h1, hex_value h2, hex_value h3, hex_value h4 with
                  | Some a, Some b, Some c', Some d =>
                      if ((a =? 0) && (b =? 0))%nat
                      then cons_char (ascii_of_nat (16 * c' + d)) (scanstring rest2)
                      else None
                  | _, _, _, _ => None
                  end
              | _ => None
              end
            else
              match unescape e with
              | Some ch => cons_char ch (scanstring rest1)
              | None => None
              end
        end
      else if (nat_of_ascii c <? 32)%nat then None
      else cons_char c (scanstring rest)
  end.

Definition digit_of (c : ascii) : option (Decimal.uint -> Decimal.uint) :=
  let n := nat_of_ascii c in
  if (n =? 48)%nat then Some Decimal.D0
  else if (n =? 49)%nat then Some Decimal.D1
  else if (n =? 50)%nat then Some Decimal.D2
  else if (n =? 51)%nat then Some Decimal.D3
  else if (n =? 52)%nat then Some Decimal.D4
  else if (n =? 53)%nat then Some Decimal.D5
  else if (n =? 54)%nat then Some Decimal.D6
  else if (n =? 55)%nat then Some Decimal.D7
  else if (n =? 56)%nat then Some Decimal.D8
  else if (n =? 57)%nat then Some Decimal.D9
  else None.

(** The longest run of digits at the head of the text. *)
Fixpoint read_digits (s : string) : Decimal.uint * string :=
  match s with
  | EmptyString => (Decimal.Nil, EmptyString)
  | String c rest =>
      match digit_of c with
      | Some d => let (u, r) := read_digits rest in (d u, r)
      | None => (Decimal.Nil, s)
      end
  end.

(** The integer part of [NUMBER_RE]: a zero, or a digit from 1 to 9 and the
    digits after it. *)
Definition scan_natural (s : string) : option (N * string) :=
  match s with
  | EmptyString => None
  | String c rest =>
      match digit_of c with
      | None => None
      | Some _ =>
          if Ascii.eqb c "0" then Some (0%N, rest)
          else let (u, r) := read_digits s in Some (N.of_uint u, r)
      end
  end.

(** An optional minus sign and the integer part, read as [int] does. *)
Definition scan_int (s : string) : option (Z * string) :=
  match s with
  | String "-" rest =>
      match scan_natural rest with
      | Some (n, r) => Some (Z.opp (Z.of_N n), r)
      | None => None
      end
  | _ =>
      match scan_natural s with
      | Some (n, r) => Some (Z.of_N n, r)
      | None => None
      end
  end.

(** [dict(pairs)]: a key met again keeps its place and takes the new value. *)
Fixpoint dict_set (d : list (string * json)) (k : string) (v : json) : list (string * json) :=
  match d with
  | [] => [(k, v)]
  | (k', v') :: d' => if String.eqb k k' then (k', v) :: d' else (k', v') :: dict_set d' k v
  end.

Definition dict_of_pairs (pairs : list (string * json)) : list (string * json) :=
  fold_left (fun d kv => dict_set d (fst kv) (snd kv)) pairs [].

(** [string[idx:idx + n] == literal], for the rest of a literal after its
    first letter: the text after it. *)
Fixpoint strip_prefix (literal s : string) : option string :=
  match literal with
  | EmptyString => Some s
  | String a literal' =>
      match s with
      | EmptyString => None
      | String b s' => if Ascii.eqb a b then strip_prefix literal' s' else None
      end
  end.

(** [scan_once], [JSONArray] and [JSONObject], bounded by [fuel] nested
    calls. [parse_elements] starts at a value of an array, [parse_members]
    after the opening quote of a key. *)
Fixpoint parse_value (fuel : nat) (s : string) {struct fuel} : option (json * string) :=
  match fuel with
  | O => None
  | S fuel' =>
      match s with
      | EmptyString => None
      | String c rest =>
          if Ascii.eqb c dquote then
            match scanstring rest with
            | Some (str, r) => Some (JStr str, r)
            | None => None
            end
          else if Ascii.eqb c "{" then
            match skip_ws rest with
            | EmptyString => None
            | String c1 r1 =>
                if Ascii.eqb c1 "}" then Some (JObj [], r1)
                else if Ascii.eqb c1 dquote then
                  match parse_members fuel' r1 with
                  | Some (pairs, r2) => Some (JObj (dict_of_pairs pairs), r2)
                  | None => None
                  end
                else None
            end
          else if Ascii.eqb c "[" then
            match skip_ws rest with
            | EmptyString => None
            | String c1 r1 =>
                if Ascii.eqb c1 "]" then Some (JArr [], r1)
                else
                  match parse_elements fuel' (String c1 r1) with
                  | Some (xs, r2) => Some (JArr xs, r2)
                  | None => None
                  end
            end
          else if Ascii.eqb c "n" then
            match strip_prefix "ull" rest with
            | Some r => Some (JNull, r)
            | None => None
            end
          else if Ascii.eqb c "t" then
            match strip_prefix "rue" rest with
            | Some r => Some (JBool true, r)
            | None => None
            end
          else if Ascii.eqb c "f" then
            match strip_prefix "alse" rest with
            | Some r => Some (JBool false, r)
            | None => None
            end
          else
            match scan_int s with
            | Some (n, r) => Some (JInt n, r)
            | None => None
            end
      end
  end
with parse_elements (fuel : nat) (s : string) {struct fuel} : option (list json * string) :=
  match fuel with
  | O => None
  | S fuel' =>
      match parse_value fuel' s with
      | None => None
      | Some (v, r) =>
          match skip_ws r with
          | EmptyString => None
          | String c r1 =>
              if Ascii.eqb c "]" then Some ([v], r1)
              else if Ascii.eqb c "," then
                match parse_elements fuel' (skip_ws r1) with
                | Some (vs, r2) => Some (v :: vs, r2)
                | None => None
                end
              else None
          end
      end
  end
with parse_members (fuel : nat) (s : string) {struct fuel}
  : option (list (string * json) * string) :=
  match fuel with
  | O => None
  | S fuel' =>
      match scanstring s with
      | None => None
      | Some (k, r) =>
          match skip_ws r with
          | EmptyString => None
          | String c r1 =>
              if Ascii.eqb c ":" then
                match parse_value fuel' (skip_ws r1) with
                | None => None
                | Some (v, r2) =>
                    match skip_ws r2 with
                    | EmptyString => None
                    | String c2 r3 =>
                        if Ascii.eqb c2 "}" then Some ([(k, v)], r3)
                        else if Ascii.eqb c2 "," then
                          match skip_ws r3 with
                          | EmptyString => None
                          | String c3 r4 =>
                              if Ascii.eqb c3 dquote then
                                match parse_members fuel' r4 with
                                | Some (ps, r5) => Some ((k, v) :: ps, r5)
                                | None => None
                                end
                              else None
                          end
                        else None
                    end
                end
              else None
          end
      end
  end.

(** [JSONDecoder.decode]: blanks, one value, blanks, the end of the text.
    That a [JSONDecodeError] is raised is kept; its message is shortened to
    one of two kinds, without the position. *)
Definition loads (s : string) : parse_result :=
  match parse_value (S (String.length s)) (skip_ws s) with
  | Some (v, r) =>
      match skip_ws r with
      | EmptyString => Parsed v
      | _ => DecodeError "Extra data"
      end
  | None => DecodeError "Expecting value"
  end.

End PyJson.

Section Console.
Context `{Env}.

Definition CONFIG_FILE : string := SCRIPT_DIR / "config.json".
Definition MODULES_DIR : string := SCRIPT_DIR / "modules".

(** ** Utility functions (source lines 108-218) *)

(** [Colors.disable()]. *)
Definition Colors_disable : M unit := fun w => mkRes (Ret tt) (set_colors false w) [].

Definition clear_screen : M unit := emit Clear.

Definition print (t : text) : M unit := emit (Print t).

Definition rule (c : string) (n : nat) : text :=
  [Col CYAN; Lit (repeat_string c n); Col ENDC].

Definition print_header (title : string) : M unit :=
  print [] ;;
  print (rule "=" 60) ;;
  print [Col BOLD; Col CYAN; Lit "  "; Lit title; Col ENDC] ;;
  print (rule "=" 60) ;;
  print [].

Definition print_success (message : text) : M unit :=
  print ([Col GREEN; Lit "[SUCCESS]"; Col ENDC; Lit " "] ++ message).

Definition print_error (message : text) : M unit :=
  print ([Col RED; Lit "[ERROR]"; Col ENDC; Lit " "] ++ message).

Definition print_warning (message : text) : M unit :=
  print ([Col YELLOW; Lit "[WARNING]"; Col ENDC; Lit " "] ++ message).

Definition print_info (message : text) : M unit :=
  print ([Col CYAN; Lit "[INFO]"; Col ENDC; Lit " "] ++ message).

(** [input(prompt)]: the next line of the operator; [EOFError] when there is
    none, [KeyboardInterrupt] on Ctrl-C. *)
Definition input (prompt : text) : M string := fun w =>
  match stdin w with
  | [] => mkRes (Raise EOFError) w [Asked prompt None]
  | Line s :: rest => mkRes (Ret s) (set_stdin rest w) [Asked prompt (Some (Line s))]
  | CtrlC :: rest =>
      mkRes (Raise KeyboardInterrupt) (set_stdin rest w) [Asked prompt (Some CtrlC)]
  end.

(** [get_input(prompt, default)]; a call without default passes the empty
    string, as the source's signature does. *)
Definition get_input (prompt default : string) : M string :=
  if negb (is_empty default) then
    raw <- input [Lit prompt; Lit " ["; Lit default; Lit "]: "] ;;
    let user_input := strip raw in
    ret (if negb (is_empty user_input) then user_input else default)
  else
    raw <- input [Lit prompt; Lit ": "] ;;
    ret (strip raw).

Definition confirm_prompt (message : string) : text :=
  [Col YELLOW; Lit message; Lit " (y/n): "; Col ENDC].

(** [response in ('y', 'yes')]. *)
Definition is_yes (response : string) : bool :=
  String.eqb response "y" || String.eqb response "yes".

Definition confirm_action (message : string) : M bool :=
  raw <- input (confirm_prompt message) ;;
  let response := lower (strip raw) in
  ret (is_yes response).

(** Source lines 162-172: [FileNotFoundError] and [json.JSONDecodeError]
    are caught and end the process with status 1; any other exception of
    reading the file goes up to the caller. *)
Definition load_config : M json := fun w =>
  match fs w CONFIG_FILE with
  | None =>
      (print_error [Lit "Configuration file not found: "; Lit CONFIG_FILE] ;;
       sys_exit 1) w
  | Some content =>
      match json_loads content with
      | Parsed d => ret d w
      | DecodeError e =>
          (print_error [Lit "Invalid JSON in configuration file: "; Lit e] ;;
           sys_exit 1) w
      | Failed e => raise e w
      end
  end.

(** [open(CONFIG_FILE, 'w')] empties the file before [json.dump] runs; when
    the encoder raises, what was written so far is taken to be nothing. *)
Definition save_config (config : json) : M unit := fun w =>
  match json_dumps config with
  | Some content => mkRes (Ret tt) (set_fs (write_file CONFIG_FILE content (fs w)) w) []
  | None => mkRes (Raise TypeError) (set_fs (write_file CONFIG_FILE "" (fs w)) w) []
  end.

(** [subprocess.run(cmd, capture_output=False, text=True, cwd=str(SCRIPT_DIR))],
    read for its [returncode].  The child shares the console: what a script
    reads there ([Get-Credential], [Read-Host]) is not followed, and the
    pending input is left as it was. *)
Definition subprocess_run (cmd : list text) : M Z := fun w =>
  match spawn cmd with
  | Some returncode => mkRes (Ret returncode) w [Run cmd SCRIPT_DIR]
  | None => mkRes (Raise FileNotFoundError) w [Run cmd SCRIPT_DIR]
  end.

Definition run_powershell (script : string) (params : list (string * string)) : M Z :=
  let cmd :=
    [[Lit "powershell.exe"]; [Lit "-ExecutionPolicy"]; [Lit "Bypass"]; [Lit "-File"];
     [Lit script]]
    ++ flat_map (fun kv => [[Lit "-"; Lit (fst kv)]; [Lit (snd kv)]]) params in
  print_info [Lit "Executing: "; Lit script] ;;
  print (rule "─" 50) ;;
  result <- subprocess_run cmd ;;
  print (rule "─" 50) ;;
  ret result.

Definition run_powershell_command (command : text) : M Z :=
  let cmd :=
    [[Lit "powershell.exe"]; [Lit "-ExecutionPolicy"]; [Lit "Bypass"]; [Lit "-Command"];
     command] in
  print_info [Lit "Executing PowerShell command..."] ;;
  print (rule "─" 50) ;;
  result <- subprocess_run cmd ;;
  print (rule "─" 50) ;;
  ret result.

(** [v[k1][k2]...], one subscript after the other. *)
Fixpoint get (v : json) (path : list string) : M json :=
  match path with
  | [] => ret v
  | k :: path' => x <- lift (py_getitem v k) ;; get x path'
  end.

(** [Path.exists()]. *)
Definition path_exists (p : string) : M bool := fun w =>
  mkRes (Ret (match fs w p with Some _ => true | None => false end)) w [].

Definition press_enter : text := [Lit (nl ++ "Press Enter to continue...")].

(** ** Menu display functions (source lines 225-314) *)

Definition display_main_menu : M unit :=
  clear_screen ;;
  print_header "ECST VMware Automation Tool" ;;
  config <- load_config ;;
  v <- get config ["environment"; "name"] ;;
  print [Lit "  Environment: "; Col GREEN; Fmt v; Col ENDC] ;;
  v <- get config ["vcenter"; "server"] ;;
  print [Lit "  vCenter:     "; Col CYAN; Fmt v; Col ENDC] ;;
  v <- get config ["datacenter"; "name"] ;;
  print [Lit "  Datacenter:  "; Col CYAN; Fmt v; Col ENDC] ;;
  v <- get config ["cluster"; "name"] ;;
  print [Lit "  Cluster:     "; Col CYAN; Fmt v; Col ENDC] ;;
  print [] ;;
  print [Col BOLD; Lit "Main Menu:"; Col ENDC] ;;
  print [] ;;
  print [Lit "  1. Deploy vCenter (VCSA)"] ;;
  print [Lit "  2. Deploy Infrastructure (Full)"] ;;
  print [Lit "  3. Deploy Datacenter"] ;;
  print [Lit "  4. Deploy Cluster"] ;;
  print [Lit "  5. Configure Infrastructure"] ;;
  print [Lit "  6. Deploy Virtual Machine"] ;;
  print [] ;;
  print [Lit "  C. Configuration Management"] ;;
  print [Lit "  S. Show Current Status"] ;;
  print [Lit "  Q. Quit"] ;;
  print [].

Definition display_configure_menu : M unit :=
  clear_screen ;;
  print_header "Configure Infrastructure" ;;
  print [Col BOLD; Lit "Configuration Options:"; Col ENDC] ;;
  print [] ;;
  print [Lit "  1. Configure vSAN"] ;;
  print [Lit "  2. Configure vDS (Distributed Switch)"] ;;
  print [Lit "  3. Configure vMotion"] ;;
  print [Lit "  4. Configure NTP/DNS/Syslog"] ;;
  print [Lit "  5. Configure Security Settings"] ;;
  print [Lit "  6. Configure All (Full)"] ;;
  print [] ;;
  print [Lit "  B. Back to Main Menu"] ;;
  print [].

Definition display_vm_menu : M unit :=
  clear_screen ;;
  print_header "Deploy Virtual Machine" ;;
  print [Col BOLD; Lit "VM Deployment Options:"; Col ENDC] ;;
  print [] ;;
  print [Lit "  1. Deploy VM from Template"] ;;
  print [Lit "  2. Deploy Standard Virtual Machine"] ;;
  print [] ;;
  print [Lit "  B. Back to Main Menu"] ;;
  print [].

Definition display_template_menu : M unit :=
  clear_screen ;;
  print_header "Deploy VM from Template" ;;
  print [Col BOLD; Lit "Available Templates:"; Col ENDC] ;;
  print [] ;;
  for_each VM_TEMPLATES (fun kv =>
    let key := fst kv in
    let template := snd kv in
    print [Lit "  "; Lit key; Lit ". "; Lit (ljust (tpl_name template) 20); Lit " - ";
           Lit (tpl_description template)]) ;;
  print [] ;;
  print [Lit "  B. Back to VM Menu"] ;;
  print [].

Definition display_config_management_menu : M unit :=
  clear_screen ;;
  print_header "Configuration Management" ;;
  print [Col BOLD; Lit "Configuration Options:"; Col ENDC] ;;
  print [] ;;
  print [Lit "  1. View Current Configuration"] ;;
  print [Lit "  2. Edit vCenter Settings"] ;;
  print [Lit "  3. Edit Datacenter/Cluster Settings"] ;;
  print [Lit "  4. Edit ESXi Host List"] ;;
  print [Lit "  5. Edit Network Settings"] ;;
  print [Lit "  6. Edit Storage (vSAN) Settings"] ;;
  print [Lit "  7. Reload Configuration"] ;;
  print [] ;;
  print [Lit "  B. Back to Main Menu"] ;;
  print [].

(** ** Deployment functions (source lines 321-463) *)

(** The tail every operation shares: the exit status read, one report, and
    the wait for the operator. *)
Definition report (returncode : Z) (success failure : text) : M unit :=
  (if (returncode =? 0)%Z then print_success success
   else print_error (failure ++ [Fmt (JInt returncode)])) ;;
  _ <- input press_enter ;;
  ret tt.

Definition deploy_vcenter : M unit :=
  print_header "Deploy vCenter Server Appliance (VCSA)" ;;
  config <- load_config ;;
  vcsa_config <- get config ["vcenter"; "vcsa"] ;;
  print [Lit "VCSA Deployment Configuration:"] ;;
  v <- get vcsa_config ["targetEsxiHost"] ;;
  print [Lit "  Target ESXi Host: "; Fmt v] ;;
  v <- get vcsa_config ["hostname"] ;;
  print [Lit "  VCSA Hostname:    "; Fmt v] ;;
  v <- get vcsa_config ["ip"] ;;
  print [Lit "  VCSA IP:          "; Fmt v] ;;
  v <- get vcsa_config ["deploymentSize"] ;;
  print [Lit "  Deployment Size:  "; Fmt v] ;;
  v <- get vcsa_config ["ssoDomain"] ;;
  print [Lit "  SSO Domain:       "; Fmt v] ;;
  print [] ;;
  ok <- confirm_action "Do you want to proceed with VCSA deployment?" ;;
  if negb ok then print_warning [Lit "VCSA deployment cancelled."]
  else
    let script_path := SCRIPT_DIR / "Deploy-VCSA.ps1" in
    found <- path_exists script_path ;;
    if negb found then print_error [Lit "Script not found: "; Lit script_path]
    else
      result <- run_powershell script_path [("ConfigPath", CONFIG_FILE)] ;;
      report result
        [Lit "VCSA deployment preparation completed!"]
        [Lit "VCSA deployment failed with exit code: "].

Definition deploy_infrastructure : M unit :=
  print_header "Deploy Full Infrastructure" ;;
  config <- load_config ;;
  print [Lit "This will deploy the following components:"] ;;
  v <- get config ["datacenter"; "name"] ;;
  print [Lit "  • Datacenter: "; Fmt v] ;;
  v <- get config ["cluster"; "name"] ;;
  print [Lit "  • Cluster:    "; Fmt v] ;;
  hosts <- get config ["esxiHosts"] ;;
  n <- lift (py_len hosts) ;;
  print [Lit "  • Hosts:      "; Fmt (JInt n); Lit " ESXi hosts"] ;;
  v <- get config ["networking"; "vds"; "name"] ;;
  print [Lit "  • VDS:        "; Fmt v] ;;
  v <- get config ["storage"; "vsan"; "enabled"] ;;
  print [Lit "  • vSAN:       "; Lit (if py_truth v then "Enabled" else "Disabled")] ;;
  print [] ;;
  ok <- confirm_action "Do you want to proceed with full infrastructure deployment?" ;;
  if negb ok then print_warning [Lit "Infrastructure deployment cancelled."]
  else
    let script_path := SCRIPT_DIR / "Deploy-Infrastructure.ps1" in
    found <- path_exists script_path ;;
    if negb found then print_error [Lit "Script not found: "; Lit script_path]
    else
      result <- run_powershell script_path [("ConfigPath", CONFIG_FILE)] ;;
      report result
        [Lit "Infrastructure deployment completed!"]
        [Lit "Infrastructure deployment failed with exit code: "].

(** The script of [deploy_datacenter] (source lines 402-413). *)
Definition deploy_datacenter_ps_command : text :=
  [Lit nl;
   Lit "    . '"; Lit (MODULES_DIR / "01-Connect.ps1"); Lit "'"; Lit nl;
   Lit "    . '"; Lit (MODULES_DIR / "02-Datacenter.ps1"); Lit "'"; Lit nl;
   Lit "    "; Lit nl;
   Lit "    $config = Get-Content '"; Lit CONFIG_FILE; Lit "' -Raw | ConvertFrom-Json"; Lit nl;
   Lit "    $cred = Get-Credential -Message "; Lit dq; Lit "Enter vCenter Administrator Credentials"; Lit dq; Lit nl;
   Lit "    "; Lit nl;
   Lit "    Connect-VCenterServer -Server $config.vcenter.server -Credential $cred"; Lit nl;
   Lit "    New-VsphereDatacenter -Config $config"; Lit nl;
   Lit "    "; Lit nl;
   Lit "    Disconnect-VIServer -Server * -Force -Confirm:$false"; Lit nl;
   Lit "    "].

Definition deploy_datacenter : M unit :=
  print_header "Deploy Datacenter" ;;
  config <- load_config ;;
  dc_name <- get config ["datacenter"; "name"] ;;
  print [Lit "Datacenter to create: "; Fmt dc_name] ;;
  print [] ;;
  ok <- confirm_action "Create this datacenter?" ;;
  if negb ok then print_warning [Lit "Datacenter creation cancelled."]
  else
    result <- run_powershell_command deploy_datacenter_ps_command ;;
    report result
      [Lit "Datacenter created successfully!"]
      [Lit "Datacenter creation failed with exit code: "].

(** The script of [deploy_cluster] (source lines 443-454). *)
Definition deploy_cluster_ps_command : text :=
  [Lit nl;
   Lit "    . '"; Lit (MODULES_DIR / "01-Connect.ps1"); Lit "'"; Lit nl;
   Lit "    . '"; Lit (MODULES_DIR / "02-Datacenter.ps1"); Lit "'"; Lit nl;
   Lit "    "; Lit nl;
   Lit "    $config = Get-Content '"; Lit CONFIG_FILE; Lit "' -Raw | ConvertFrom-Json"; Lit nl;
   Lit "    $cred = Get-Credential -Message "; Lit dq; Lit "Enter vCenter Administrator Credentials"; Lit dq; Lit nl;
   Lit "    "; Lit nl;
   Lit "    Connect-VCenterServer -Server $config.vcenter.server -Credential $cred"; Lit nl;
   Lit "    New-VsphereCluster -Config $config"; Lit nl;
   Lit "    "; Lit nl;
   Lit "    Disconnect-VIServer -Server * -Force -Confirm:$false"; Lit nl;
   Lit "    "].

Definition deploy_cluster : M unit :=
  print_header "Deploy Cluster" ;;
  config <- load_config ;;
  cluster_config <- get config ["cluster"] ;;
  print [Lit "Cluster Configuration:"] ;;
  v <- get cluster_config ["name"] ;;
  print [Lit "  Name:          "; Fmt v] ;;
  v <- get cluster_config ["ha"; "enabled"] ;;
  print [Lit "  HA Enabled:    "; Fmt v] ;;
  v <- get cluster_config ["drs"; "enabled"] ;;
  print [Lit "  DRS Enabled:   "; Fmt v] ;;
  v <- get cluster_config ["drs"; "automationLevel"] ;;
  print [Lit "  DRS Level:     "; Fmt v] ;;
  print [] ;;
  ok <- confirm_action "Create this cluster?" ;;
  if negb ok then print_warning [Lit "Cluster creation cancelled."]
  else
    result <- run_powershell_command deploy_cluster_ps_command ;;
    report result
      [Lit "Cluster created successfully!"]
      [Lit "Cluster creation failed with exit code: "].

(** ** Configuration functions (source lines 470-721) *)

(** The script of [configure_vsan] (source lines 488-500). *)
Definition configure_vsan_ps_command : text :=
  [Lit nl;
   Lit "    . '"; Lit (MODULES_DIR / "01-Connect.ps1"); Lit "'"; Lit nl;
   Lit "    . '"; Lit (MODULES_DIR / "05-Storage.ps1"); Lit "'"; Lit nl;
   Lit "    "; Lit nl;
   Lit "    $config = Get-Content '"; Lit CONFIG_FILE; Lit "' -Raw | ConvertFrom-Json"; Lit nl;
   Lit "    $cred = Get-Credential -Message "; Lit dq; Lit "Enter vCenter Administrator Credentials"; Lit dq; Lit nl;
   Lit "    "; Lit nl;
   Lit "    Connect-VCenterServer -Server $config.vcenter.server -Credential $cred"; Lit nl;
   Lit "    Enable-VsanCluster -Config $config"; Lit nl;
   Lit "    Configure-VsanDiskGroups -Config $config -AutoClaim"; Lit nl;
   Lit "    "; Lit nl;
   Lit "    Disconnect-VIServer -Server * -Force -Confirm:$false"; Lit nl;
   Lit "    "].

Definition configure_vsan : M unit :=
  print_header "Configure vSAN" ;;
  config <- load_config ;;
  vsan_config <- get config ["storage"; "vsan"] ;;
  print [Lit "vSAN Configuration:"] ;;
  v <- get vsan_config ["enabled"] ;;
  print [Lit "  Enabled:      "; Fmt v] ;;
  v <- get vsan_config ["claimMode"] ;;
  print [Lit "  Claim Mode:   "; Fmt v] ;;
  v <- get vsan_config ["deduplicationEnabled"] ;;
  print [Lit "  Dedup:        "; Fmt v] ;;
  v <- get vsan_config ["compressionEnabled"] ;;
  print [Lit "  Compression:  "; Fmt v] ;;
  print [] ;;
  ok <- confirm_action "Configure vSAN with these settings?" ;;
  if negb ok then print_warning [Lit "vSAN configuration cancelled."]
  else
    result <- run_powershell_command configure_vsan_ps_command ;;
    report result
      [Lit "vSAN configured successfully!"]
      [Lit "vSAN configuration failed with exit code: "].

(** The script of [configure_vds] (source lines 535-548). *)
Definition configure_vds_ps_command : text :=
  [Lit nl;
   Lit "    . '"; Lit (MODULES_DIR / "01-Connect.ps1"); Lit "'"; Lit nl;
   Lit "    . '"; Lit (MODULES_DIR / "04-Networking.ps1"); Lit "'"; Lit nl;
   Lit "    "; Lit nl;
   Lit "    $config = Get-Content '"; Lit CONFIG_FILE; Lit "' -Raw | ConvertFrom-Json"; Lit nl;
   Lit "    $cred = Get-Credential -Message "; Lit dq; Lit "Enter vCenter Administrator Credentials"; Lit dq; Lit nl;
   Lit "    "; Lit nl;
   Lit "    Connect-VCenterServer -Server $config.vcenter.server -Credential $cred"; Lit nl;
   Lit "    New-VsphereVDS -Config $config"; Lit nl;
   Lit "    New-VspherePortGroups -Config $config"; Lit nl;
   Lit "    Add-HostsToVDS -Config $config"; Lit nl;
   Lit "    "; Lit nl;
   Lit "    Disconnect-VIServer -Server * -Force -Confirm:$false"; Lit nl;
   Lit "    "].

Definition configure_vds : M unit :=
  print_header "Configure Distributed Switch (VDS)" ;;
  config <- load_config ;;
  vds_config <- get config ["networking"; "vds"] ;;
  print [Lit "VDS Configuration:"] ;;
  v <- get vds_config ["name"] ;;
  print [Lit "  Name:           "; Fmt v] ;;
  v <- get vds_config ["version"] ;;
  print [Lit "  Version:        "; Fmt v] ;;
  v <- get vds_config ["mtu"] ;;
  print [Lit "  MTU:            "; Fmt v] ;;
  v <- get vds_config ["uplinks"] ;;
  print [Lit "  Uplinks:        "; Fmt v] ;;
  v <- get vds_config ["loadBalancing"] ;;
  print [Lit "  Load Balancing: "; Fmt v] ;;
  print [] ;;
  print [Lit "Port Groups:"] ;;
  port_groups <- get config ["networking"; "portGroups"] ;;
  items <- lift (py_iter port_groups) ;;
  for_each items (fun pg =>
    name <- get pg ["name"] ;;
    vlan <- get pg ["vlanId"] ;;
    type <- get pg ["type"] ;;
    print [Lit "  • "; Fmt name; Lit " (VLAN "; Fmt vlan; Lit ") - "; Fmt type]) ;;
  print [] ;;
  ok <- confirm_action "Configure VDS with these settings?" ;;
  if negb ok then print_warning [Lit "VDS configuration cancelled."]
  else
    result <- run_powershell_command configure_vds_ps_command ;;
    report result
      [Lit "VDS configured successfully!"]
      [Lit "VDS configuration failed with exit code: "].

(** The script of [configure_vmotion] (source lines 581-592). *)
Definition configure_vmotion_ps_command : text :=
  [Lit nl;
   Lit "    . '"; Lit (MODULES_DIR / "01-Connect.ps1"); Lit "'"; Lit nl;
   Lit "    . '"; Lit (MODULES_DIR / "04-Networking.ps1"); Lit "'"; Lit nl;
   Lit "    "; Lit nl;
   Lit "    $config = Get-Content '"; Lit CONFIG_FILE; Lit "' -Raw | ConvertFrom-Json"; Lit nl;
   Lit "    $cred = Get-Credential -Message "; Lit dq; Lit "Enter vCenter Administrator Credentials"; Lit dq; Lit nl;
   Lit "    "; Lit nl;
   Lit "    Connect-VCenterServer -Server $config.vcenter.server -Credential $cred"; Lit nl;
   Lit "    Configure-VMotionStack -Config $config"; Lit nl;
   Lit "    "; Lit nl;
   Lit "    Disconnect-VIServer -Server * -Force -Confirm:$false"; Lit nl;
   Lit "    "].

Definition configure_vmotion : M unit :=
  print_header "Configure vMotion" ;;
  config <- load_config ;;
  vmotion_config <- get config ["networking"; "vmotionTcpIpStack"] ;;
  print [Lit "vMotion Configuration:"] ;;
  v <- get vmotion_config ["enabled"] ;;
  print [Lit "  Enabled:     "; Fmt v] ;;
  v <- get vmotion_config ["gateway"] ;;
  print [Lit "  Gateway:     "; Fmt v] ;;
  v <- get vmotion_config ["subnetMask"] ;;
  print [Lit "  Subnet Mask: "; Fmt v] ;;
  print [] ;;
  print [Lit "Host vMotion IPs:"] ;;
  hosts <- get config ["esxiHosts"] ;;
  items <- lift (py_iter hosts) ;;
  for_each items (fun host =>
    hostname <- get host ["hostname"] ;;
    ip <- get host ["vmotionIp"] ;;
    print [Lit "  • "; Fmt hostname; Lit ": "; Fmt ip]) ;;
  print [] ;;
  ok <- confirm_action "Configure vMotion with these settings?" ;;
  if negb ok then print_warning [Lit "vMotion configuration cancelled."]
  else
    result <- run_powershell_command configure_vmotion_ps_command ;;
    report result
      [Lit "vMotion configured successfully!"]
      [Lit "vMotion configuration failed with exit code: "].

(** The script of [configure_services] (source lines 628-641). *)
Definition configure_services_ps_command : text :=
  [Lit nl;
   Lit "    . '"; Lit (MODULES_DIR / "01-Connect.ps1"); Lit "'"; Lit nl;
   Lit "    . '"; Lit (MODULES_DIR / "06-Configuration.ps1"); Lit "'"; Lit nl;
   Lit "    "; Lit nl;
   Lit "    $config = Get-Content '"; Lit CONFIG_FILE; Lit "' -Raw | ConvertFrom-Json"; Lit nl;
   Lit "    $cred = Get-Credential -Message "; Lit dq; Lit "Enter vCenter Administrator Credentials"; Lit dq; Lit nl;
   Lit "    "; Lit nl;
   Lit "    Connect-VCenterServer -Server $config.vcenter.server -Credential $cred"; Lit nl;
   Lit "    Set-HostNtpConfiguration -Config $config"; Lit nl;
   Lit "    Set-HostDnsConfiguration -Config $config"; Lit nl;
   Lit "    Set-HostSyslogConfiguration -Config $config"; Lit nl;
   Lit "    "; Lit nl;
   Lit "    Disconnect-VIServer -Server * -Force -Confirm:$false"; Lit nl;
   Lit "    "].

Definition configure_services : M unit :=
  print_header "Configure Host Services (NTP/DNS/Syslog)" ;;
  config <- load_config ;;
  print [Lit "NTP Configuration:"] ;;
  v <- get config ["services"; "ntp"; "servers"] ;;
  joined <- lift (py_join ", " v) ;;
  print [Lit "  Servers: "; Lit joined] ;;
  v <- get config ["services"; "ntp"; "policy"] ;;
  print [Lit "  Policy:  "; Fmt v] ;;
  print [] ;;
  print [Lit "DNS Configuration:"] ;;
  v <- get config ["services"; "dns"; "servers"] ;;
  joined <- lift (py_join ", " v) ;;
  print [Lit "  Servers: "; Lit joined] ;;
  v <- get config ["services"; "dns"; "searchDomains"] ;;
  joined <- lift (py_join ", " v) ;;
  print [Lit "  Search:  "; Lit joined] ;;
  print [] ;;
  print [Lit "Syslog Configuration:"] ;;
  v <- get config ["services"; "syslog"; "server"] ;;
  print [Lit "  Server:   "; Fmt v] ;;
  v <- get config ["services"; "syslog"; "port"] ;;
  print [Lit "  Port:     "; Fmt v] ;;
  v <- get config ["services"; "syslog"; "protocol"] ;;
  print [Lit "  Protocol: "; Fmt v] ;;
  print [] ;;
  ok <- confirm_action "Configure services with these settings?" ;;
  if negb ok then print_warning [Lit "Service configuration cancelled."]
  else
    result <- run_powershell_command configure_services_ps_command ;;
    report result
      [Lit "Host services configured successfully!"]
      [Lit "Service configuration failed with exit code: "].

(** The script of [configure_security] (source lines 671-682). *)
Definition configure_security_ps_command : text :=
  [Lit nl;
   Lit "    . '"; Lit (MODULES_DIR / "01-Connect.ps1"); Lit "'"; Lit nl;
   Lit "    . '"; Lit (MODULES_DIR / "06-Configuration.ps1"); Lit "'"; Lit nl;
   Lit "    "; Lit nl;
   Lit "    $config = Get-Content '"; Lit CONFIG_FILE; Lit "' -Raw | ConvertFrom-Json"; Lit nl;
   Lit "    $cred = Get-Credential -Message "; Lit dq; Lit "Enter vCenter Administrator Credentials"; Lit dq; Lit nl;
   Lit "    "; Lit nl;
   Lit "    Connect-VCenterServer -Server $config.vcenter.server -Credential $cred"; Lit nl;
   Lit "    Set-HostSecurityConfiguration -Config $config"; Lit nl;
   Lit "    "; Lit nl;
   Lit "    Disconnect-VIServer -Server * -Force -Confirm:$false"; Lit nl;
   Lit "    "].

Definition configure_security : M unit :=
  print_header "Configure Security Settings" ;;
  config <- load_config ;;
  security_config <- get config ["security"] ;;
  print [Lit "Security Configuration:"] ;;
  v <- get security_config ["lockdownMode"] ;;
  print [Lit "  Lockdown Mode:  "; Fmt v] ;;
  v <- get security_config ["sshEnabled"] ;;
  print [Lit "  SSH Enabled:    "; Fmt v] ;;
  v <- get security_config ["shellTimeout"] ;;
  print [Lit "  Shell Timeout:  "; Fmt v; Lit " seconds"] ;;
  v <- get security_config ["firewallRulesetsEnabled"] ;;
  joined <- lift (py_join ", " v) ;;
  print [Lit "  Firewall Rules: "; Lit joined] ;;
  print [] ;;
  ok <- confirm_action "Apply these security settings?" ;;
  if negb ok then print_warning [Lit "Security configuration cancelled."]
  else
    result <- run_powershell_command configure_security_ps_command ;;
    report result
      [Lit "Security settings applied successfully!"]
      [Lit "Security configuration failed with exit code: "].

Definition configure_all : M unit :=
  print_header "Configure All Infrastructure" ;;
  print [Lit "This will configure:"] ;;
  print [Lit "  • vSAN Storage"] ;;
  print [Lit "  • Distributed Switch (VDS)"] ;;
  print [Lit "  • vMotion Networking"] ;;
  print [Lit "  • NTP, DNS, Syslog Services"] ;;
  print [Lit "  • Security Settings"] ;;
  print [] ;;
  ok <- confirm_action "Proceed with full infrastructure configuration?" ;;
  if negb ok then print_warning [Lit "Full configuration cancelled."]
  else
    let script_path := SCRIPT_DIR / "Deploy-Infrastructure.ps1" in
    result <- run_powershell script_path
                [("ConfigPath", CONFIG_FILE); ("SkipVCSA", "$true")] ;;
    report result
      [Lit "Full infrastructure configuration completed!"]
      [Lit "Configuration failed with exit code: "].

(** ** VM deployment functions (source lines 728-983) *)

Definition print_sizes : M unit :=
  print [Lit (nl ++ "Available Sizes:")] ;;
  for_each VM_SIZES (fun kv =>
    let size := fst kv in
    let specs := snd kv in
    print [Lit "  • "; Lit size; Lit ": "; Fmt (JInt (cpu specs)); Lit " vCPU, ";
           Fmt (JInt (memory_gb specs)); Lit " GB RAM, "; Fmt (JInt (disk_gb specs));
           Lit " GB Disk"]).

(** The script of [deploy_vm_from_template] (source lines 790-848). *)
Definition deploy_vm_from_template_ps_command (server cluster_name : json) (template : Template) (vm_name tag_name : string) (size_specs : Size) : text :=
  [Lit nl;
   Lit "    $cred = Get-Credential -Message "; Lit dq; Lit "Enter vCenter Administrator Credentials"; Lit dq; Lit nl;
   Lit "    "; Lit nl;
   Lit "    Connect-VIServer -Server '"; Fmt server; Lit "' -Credential $cred"; Lit nl;
   Lit "    "; Lit nl;
   Lit "    # Get the template"; Lit nl;
   Lit "    $template = Get-Template -Name '"; Lit (tpl_template template); Lit "' -ErrorAction Stop"; Lit nl;
   Lit "    "; Lit nl;
   Lit "    # Get the cluster"; Lit nl;
   Lit "    $cluster = Get-Cluster -Name '"; Fmt cluster_name; Lit "' -ErrorAction Stop"; Lit nl;
   Lit "    "; Lit nl;
   Lit "    # Get datastore (vSAN or first available)"; Lit nl;
   Lit "    $datastore = Get-Datastore -Location $cluster | Where-Object { $_.Type -eq 'vsan' } | Select-Object -First 1"; Lit nl;
   Lit "    if (-not $datastore) {"; Lit nl;
   Lit "        $datastore = Get-Datastore -Location $cluster | Select-Object -First 1"; Lit nl;
   Lit "    }"; Lit nl;
   Lit "    "; Lit nl;
   Lit "    # Get port group for VM network"; Lit nl;
   Lit "    $portGroup = Get-VDPortgroup -Name 'PG-VMTraffic' -ErrorAction SilentlyContinue"; Lit nl;
   Lit "    if (-not $portGroup) {"; Lit nl;
   Lit "        $portGroup = Get-VirtualPortGroup | Select-Object -First 1"; Lit nl;
   Lit "    }"; Lit nl;
   Lit "    "; Lit nl;
   Lit "    # Create VM from template"; Lit nl;
   Lit "    Write-Host "; Lit dq; Lit "Creating VM from template..."; Lit dq; Lit nl;
   Lit "    $vm = New-VM -Name '"; Lit vm_name; Lit "' `"; Lit nl;
   Lit "        -Template $template `"; Lit nl;
   Lit "        -ResourcePool $cluster `"; Lit nl;
   Lit "        -Datastore $datastore `"; Lit nl;
   Lit "        -ErrorAction Stop"; Lit nl;
   Lit "    "; Lit nl;
   Lit "    # Configure VM resources"; Lit nl;
   Lit "    Write-Host "; Lit dq; Lit "Configuring VM resources..."; Lit dq; Lit nl;
   Lit "    Set-VM -VM $vm `"; Lit nl;
   Lit "        -NumCpu "; Fmt (JInt (cpu size_specs)); Lit " `"; Lit nl;
   Lit "        -MemoryGB "; Fmt (JInt (memory_gb size_specs)); Lit " `"; Lit nl;
   Lit "        -Confirm:$false"; Lit nl;
   Lit "    "; Lit nl;
   Lit "    # Configure network adapter"; Lit nl;
   Lit "    $adapter = Get-NetworkAdapter -VM $vm"; Lit nl;
   Lit "    Set-NetworkAdapter -NetworkAdapter $adapter -Portgroup $portGroup -Confirm:$false"; Lit nl;
   Lit "    "; Lit nl;
   Lit "    # Tag the VM"; Lit nl;
   Lit "    $tag = Get-Tag -Name '"; Lit tag_name; Lit "' -ErrorAction SilentlyContinue"; Lit nl;
   Lit "    if ($tag) {"; Lit nl;
   Lit "        New-TagAssignment -Tag $tag -Entity $vm"; Lit nl;
   Lit "    }"; Lit nl;
   Lit "    "; Lit nl;
   Lit "    Write-Host "; Lit dq; Lit "VM '"; Lit vm_name; Lit "' created successfully!"; Lit dq; Lit " -ForegroundColor Green"; Lit nl;
   Lit "    "; Lit nl;
   Lit "    # Optionally power on"; Lit nl;
   Lit "    $powerOn = Read-Host "; Lit dq; Lit "Power on the VM? (y/n)"; Lit dq; Lit nl;
   Lit "    if ($powerOn -eq 'y') {"; Lit nl;
   Lit "        Start-VM -VM $vm -Confirm:$false"; Lit nl;
   Lit "        Write-Host "; Lit dq; Lit "VM powered on."; Lit dq; Lit " -ForegroundColor Green"; Lit nl;
   Lit "    }"; Lit nl;
   Lit "    "; Lit nl;
   Lit "    Disconnect-VIServer -Server * -Force -Confirm:$false"; Lit nl;
   Lit "    "].

Definition deploy_vm_from_template : M unit :=
  display_template_menu ;;
  raw <- get_input "Select template" "" ;;
  let choice := upper raw in
  if String.eqb choice "B" then ret tt
  else
    match dict_get VM_TEMPLATES choice with
    | None =>
        print_error [Lit "Invalid template selection."] ;;
        _ <- input press_enter ;;
        ret tt
    | Some template =>
        print [] ;;
        print [Lit "Selected Template: "; Col GREEN; Lit (tpl_name template); Col ENDC] ;;
        print [Lit "Template Name:     "; Lit (tpl_template template)] ;;
        print [] ;;
        vm_name <- get_input "Enter VM Name (e.g., splunk-prod-01)" "" ;;
        if is_empty vm_name then print_error [Lit "VM name is required."]
        else
          print_sizes ;;
          vm_size <- get_input "Enter Size" "Medium" ;;
          match dict_get VM_SIZES vm_size with
          | None => print_error [Lit "Invalid size selection."]
          | Some size_specs =>
              ip_address <- get_input "Enter IP Address (e.g., 192.168.1.100)" "" ;;
              netmask <- get_input "Enter Subnet Mask" "255.255.255.0" ;;
              gateway <- get_input "Enter Gateway" "192.168.1.1" ;;
              tag_name <- get_input "Enter Tag Name (e.g., Production-App)" "" ;;
              print [] ;;
              print_header "VM Deployment Summary" ;;
              print [Lit "  VM Name:    "; Lit vm_name] ;;
              print [Lit "  Template:   "; Lit (tpl_name template)] ;;
              print [Lit "  Size:       "; Lit vm_size; Lit " ("; Fmt (JInt (cpu size_specs));
                     Lit " vCPU, "; Fmt (JInt (memory_gb size_specs)); Lit " GB RAM)"] ;;
              print [Lit "  IP Address: "; Lit ip_address] ;;
              print [Lit "  Tag:        "; Lit tag_name] ;;
              print [] ;;
              ok <- confirm_action "Deploy this VM?" ;;
              if negb ok then print_warning [Lit "VM deployment cancelled."]
              else
                config <- load_config ;;
                server <- get config ["vcenter"; "server"] ;;
                cluster_name <- get config ["cluster"; "name"] ;;
                result <- run_powershell_command
                            (deploy_vm_from_template_ps_command server cluster_name
                               template vm_name tag_name size_specs) ;;
                report result
                  [Lit "VM '"; Lit vm_name; Lit "' deployed from template!"]
                  [Lit "VM deployment failed with exit code: "]
          end
    end.

(** The script of [deploy_standard_vm] (source lines 918-974). *)
Definition deploy_standard_vm_ps_command (server cluster_name : json) (os_type : OsType) (vm_name tag_name : string) (size_specs : Size) : text :=
  [Lit nl;
   Lit "    $cred = Get-Credential -Message "; Lit dq; Lit "Enter vCenter Administrator Credentials"; Lit dq; Lit nl;
   Lit "    "; Lit nl;
   Lit "    Connect-VIServer -Server '"; Fmt server; Lit "' -Credential $cred"; Lit nl;
   Lit "    "; Lit nl;
   Lit "    # Get the cluster"; Lit nl;
   Lit "    $cluster = Get-Cluster -Name '"; Fmt cluster_name; Lit "' -ErrorAction Stop"; Lit nl;
   Lit "    "; Lit nl;
   Lit "    # Get datastore"; Lit nl;
   Lit "    $datastore = Get-Datastore -Location $cluster | Where-Object { $_.Type -eq 'vsan' } | Select-Object -First 1"; Lit nl;
   Lit "    if (-not $datastore) {"; Lit nl;
   Lit "        $datastore = Get-Datastore -Location $cluster | Sort-Object FreeSpaceGB -Descending | Select-Object -First 1"; Lit nl;
   Lit "    }"; Lit nl;
   Lit "    "; Lit nl;
   Lit "    # Get port group for VM network"; Lit nl;
   Lit "    $portGroup = Get-VDPortgroup -Name 'PG-VMTraffic' -ErrorAction SilentlyContinue"; Lit nl;
   Lit "    if (-not $portGroup) {"; Lit nl;
   Lit "        $portGroup = Get-VirtualPortGroup | Where-Object { $_.Name -like '*VM*' } | Select-Object -First 1"; Lit nl;
   Lit "    }"; Lit nl;
   Lit "    "; Lit nl;
   Lit "    # Create new VM"; Lit nl;
   Lit "    Write-Host "; Lit dq; Lit "Creating VM '"; Lit vm_name; Lit "'..."; Lit dq; Lit nl;
   Lit "    $vm = New-VM -Name '"; Lit vm_name; Lit "' `"; Lit nl;
   Lit "        -ResourcePool $cluster `"; Lit nl;
   Lit "        -Datastore $datastore `"; Lit nl;
   Lit "        -NumCpu "; Fmt (JInt (cpu size_specs)); Lit " `"; Lit nl;
   Lit "        -MemoryGB "; Fmt (JInt (memory_gb size_specs)); Lit " `"; Lit nl;
   Lit "        -DiskGB "; Fmt (JInt (disk_gb size_specs)); Lit " `"; Lit nl;
   Lit "        -DiskStorageFormat Thin `"; Lit nl;
   Lit "        -GuestId '"; Lit (ot_guest_id os_type); Lit "' `"; Lit nl;
   Lit "        -NetworkName $portGroup.Name `"; Lit nl;
   Lit "        -ErrorAction Stop"; Lit nl;
   Lit "    "; Lit nl;
   Lit "    Write-Host "; Lit dq; Lit "VM created successfully!"; Lit dq; Lit " -ForegroundColor Green"; Lit nl;
   Lit "    "; Lit nl;
   Lit "    # Tag the VM"; Lit nl;
   Lit "    $tag = Get-Tag -Name '"; Lit tag_name; Lit "' -ErrorAction SilentlyContinue"; Lit nl;
   Lit "    if ($tag) {"; Lit nl;
   Lit "        New-TagAssignment -Tag $tag -Entity $vm"; Lit nl;
   Lit "        Write-Host "; Lit dq; Lit "Tag assigned: "; Lit tag_name; Lit dq; Lit " -ForegroundColor Green"; Lit nl;
   Lit "    } else {"; Lit nl;
   Lit "        Write-Host "; Lit dq; Lit "Note: Tag '"; Lit tag_name; Lit "' not found, skipping tag assignment"; Lit dq; Lit " -ForegroundColor Yellow"; Lit nl;
   Lit "    }"; Lit nl;
   Lit "    "; Lit nl;
   Lit "    Write-Host "; Lit dq; Lit dq; Lit nl;
   Lit "    Write-Host "; Lit dq; Lit "VM Summary:"; Lit dq; Lit " -ForegroundColor Cyan"; Lit nl;
   Lit "    $vm | Select-Object Name, NumCpu, MemoryGB, @{N='DiskGB';E={($_ | Get-HardDisk | Measure-Object -Property CapacityGB -Sum).Sum}}, PowerState | Format-Table"; Lit nl;
   Lit "    "; Lit nl;
   Lit "    # Optionally power on"; Lit nl;
   Lit "    $powerOn = Read-Host "; Lit dq; Lit "Power on the VM? (y/n)"; Lit dq; Lit nl;
   Lit "    if ($powerOn -eq 'y') {"; Lit nl;
   Lit "        Start-VM -VM $vm -Confirm:$false"; Lit nl;
   Lit "        Write-Host "; Lit dq; Lit "VM powered on."; Lit dq; Lit " -ForegroundColor Green"; Lit nl;
   Lit "    }"; Lit nl;
   Lit "    "; Lit nl;
   Lit "    Disconnect-VIServer -Server * -Force -Confirm:$false"; Lit nl;
   Lit "    "].

Definition deploy_standard_vm : M unit :=
  print_header "Deploy Standard Virtual Machine" ;;
  vm_name <- get_input "Enter VM Name (e.g., rhel-web-01)" "" ;;
  if is_empty vm_name then print_error [Lit "VM name is required."]
  else
    print [Lit (nl ++ "Available OS Types:")] ;;
    for_each OS_TYPES (fun kv =>
      let key := fst kv in
      let os_type := snd kv in
      print [Lit "  "; Lit key; Lit ". "; Lit (ljust (ot_name os_type) 10); Lit " - ";
             Lit (ot_description os_type)]) ;;
    os_choice <- get_input "Select OS Type" "1" ;;
    match dict_get OS_TYPES os_choice with
    | None => print_error [Lit "Invalid OS type selection."]
    | Some os_type =>
        print_sizes ;;
        vm_size <- get_input "Enter Size" "Small" ;;
        match dict_get VM_SIZES vm_size with
        | None => print_error [Lit "Invalid size selection."]
        | Some size_specs =>
            ip_address <- get_input "Enter IP Address (e.g., 192.168.1.100)" "" ;;
            tag_name <- get_input "Enter Tag Name (e.g., WebApp-Linux)" "" ;;
            print [] ;;
            print_header "VM Deployment Summary" ;;
            print [Lit "  VM Name:    "; Lit vm_name] ;;
            print [Lit "  OS Type:    "; Lit (ot_name os_type); Lit " (";
                   Lit (ot_description os_type); Lit ")"] ;;
            print [Lit "  Size:       "; Lit vm_size] ;;
            print [Lit "  vCPU:       "; Fmt (JInt (cpu size_specs))] ;;
            print [Lit "  Memory:     "; Fmt (JInt (memory_gb size_specs)); Lit " GB"] ;;
            print [Lit "  Disk:       "; Fmt (JInt (disk_gb size_specs)); Lit " GB"] ;;
            print [Lit "  IP Address: "; Lit ip_address] ;;
            print [Lit "  Tag:        "; Lit tag_name] ;;
            print [] ;;
            ok <- confirm_action "Create this VM?" ;;
            if negb ok then print_warning [Lit "VM creation cancelled."]
            else
              config <- load_config ;;
              server <- get config ["vcenter"; "server"] ;;
              cluster_name <- get config ["cluster"; "name"] ;;
              result <- run_powershell_command
                          (deploy_standard_vm_ps_command server cluster_name
                             os_type vm_name tag_name size_specs) ;;
              report result
                [Lit "Standard VM '"; Lit vm_name; Lit "' created successfully!"]
                [Lit "VM creation failed with exit code: "]
        end
    end.

(** ** Status and configuration management (source lines 990-1054) *)

(** The script of [show_status] (source lines 996-1029). *)
Definition show_status_ps_command : text :=
  [Lit nl;
   Lit "    $config = Get-Content '"; Lit CONFIG_FILE; Lit "' -Raw | ConvertFrom-Json"; Lit nl;
   Lit "    $cred = Get-Credential -Message "; Lit dq; Lit "Enter vCenter Administrator Credentials"; Lit dq; Lit nl;
   Lit "    "; Lit nl;
   Lit "    try {"; Lit nl;
   Lit "        Connect-VIServer -Server $config.vcenter.server -Credential $cred -ErrorAction Stop"; Lit nl;
   Lit "        "; Lit nl;
   Lit "        Write-Host "; Lit dq; Lit dq; Lit nl;
   Lit "        Write-Host "; Lit dq; Lit "=== vCenter Connection ==="; Lit dq; Lit " -ForegroundColor Cyan"; Lit nl;
   Lit "        Write-Host "; Lit dq; Lit "Server:  $($global:DefaultVIServer.Name)"; Lit dq; Lit nl;
   Lit "        Write-Host "; Lit dq; Lit "Version: $($global:DefaultVIServer.Version)"; Lit dq; Lit nl;
   Lit "        "; Lit nl;
   Lit "        Write-Host "; Lit dq; Lit dq; Lit nl;
   Lit "        Write-Host "; Lit dq; Lit "=== Datacenter ==="; Lit dq; Lit " -ForegroundColor Cyan"; Lit nl;
   Lit "        Get-Datacenter | Format-Table Name, @{N='Clusters';E={($_ | Get-Cluster).Count}}, @{N='Hosts';E={($_ | Get-VMHost).Count}}, @{N='VMs';E={($_ | Get-VM).Count}}"; Lit nl;
   Lit "        "; Lit nl;
   Lit "        Write-Host "; Lit dq; Lit "=== Clusters ==="; Lit dq; Lit " -ForegroundColor Cyan"; Lit nl;
   Lit "        Get-Cluster | Format-Table Name, HAEnabled, DrsEnabled, @{N='Hosts';E={($_ | Get-VMHost).Count}}, @{N='VMs';E={($_ | Get-VM).Count}}"; Lit nl;
   Lit "        "; Lit nl;
   Lit "        Write-Host "; Lit dq; Lit "=== ESXi Hosts ==="; Lit dq; Lit " -ForegroundColor Cyan"; Lit nl;
   Lit "        Get-VMHost | Format-Table Name, ConnectionState, PowerState, Version, @{N='CPU(GHz)';E={[math]::Round($_.CpuTotalMhz/1000,1)}}, @{N='Mem(GB)';E={[math]::Round($_.MemoryTotalGB,0)}}"; Lit nl;
   Lit "        "; Lit nl;
   Lit "        Write-Host "; Lit dq; Lit "=== Datastores ==="; Lit dq; Lit " -ForegroundColor Cyan"; Lit nl;
   Lit "        Get-Datastore | Format-Table Name, Type, @{N='Capacity(GB)';E={[math]::Round($_.CapacityGB,0)}}, @{N='Free(GB)';E={[math]::Round($_.FreeSpaceGB,0)}}, @{N='Used%';E={[math]::Round((1-($_.FreeSpaceGB/$_.CapacityGB))*100,0)}}"; Lit nl;
   Lit "        "; Lit nl;
   Lit "        Write-Host "; Lit dq; Lit "=== VDS ==="; Lit dq; Lit " -ForegroundColor Cyan"; Lit nl;
   Lit "        Get-VDSwitch | Format-Table Name, Version, Mtu, @{N='Hosts';E={($_ | Get-VMHost).Count}}, @{N='PortGroups';E={($_ | Get-VDPortgroup).Count}}"; Lit nl;
   Lit "        "; Lit nl;
   Lit "        Disconnect-VIServer -Server * -Force -Confirm:$false"; Lit nl;
   Lit "    }"; Lit nl;
   Lit "    catch {"; Lit nl;
   Lit "        Write-Host "; Lit dq; Lit "Error: $($_.Exception.Message)"; Lit dq; Lit " -ForegroundColor Red"; Lit nl;
   Lit "    }"; Lit nl;
   Lit "    "].
Definition show_status : M unit :=
  print_header "Infrastructure Status" ;;
  config <- load_config ;;
  result <- run_powershell_command show_status_ps_command ;;
  _ <- input press_enter ;;
  ret tt.

Definition view_configuration : M unit :=
  print_header "Current Configuration" ;;
  config <- load_config ;;
  match json_dumps config with
  | Some rendered => print [Lit rendered]
  | None => raise TypeError
  end ;;
  _ <- input press_enter ;;
  ret tt.

Definition reload_configuration : M unit :=
  print_info [Lit "Reloading configuration..."] ;;
  config <- load_config ;;
  print_success [Lit "Configuration reloaded successfully!"] ;;
  v <- get config ["environment"; "name"] ;;
  print [Lit "  Environment: "; Fmt v] ;;
  v <- get config ["vcenter"; "server"] ;;
  print [Lit "  vCenter:     "; Fmt v] ;;
  _ <- input press_enter ;;
  ret tt.

(** ** Menu handlers (source lines 1061-1173) *)

Definition invalid_option : M ctl :=
  print_error [Lit "Invalid option. Please try again."] ;;
  _ <- input press_enter ;;
  ret Continue.

(** One pass through the body of the loop of [handle_configure_menu]. *)
Definition configure_menu_pass : M ctl :=
  display_configure_menu ;;
  raw <- get_input "Select option" "" ;;
  let choice := upper raw in
  if choice =? "1" then configure_vsan ;; ret Continue
  else if choice =? "2" then configure_vds ;; ret Continue
  else if choice =? "3" then configure_vmotion ;; ret Continue
  else if choice =? "4" then configure_services ;; ret Continue
  else if choice =? "5" then configure_security ;; ret Continue
  else if choice =? "6" then configure_all ;; ret Continue
  else if choice =? "B" then ret Break
  else invalid_option.

Definition handle_configure_menu (fuel : nat) : M unit :=
  while_true fuel configure_menu_pass.

Definition vm_menu_pass : M ctl :=
  display_vm_menu ;;
  raw <- get_input "Select option" "" ;;
  let choice := upper raw in
  if choice =? "1" then deploy_vm_from_template ;; ret Continue
  else if choice =? "2" then deploy_standard_vm ;; ret Continue
  else if choice =? "B" then ret Break
  else invalid_option.

Definition handle_vm_menu (fuel : nat) : M unit :=
  while_true fuel vm_menu_pass.

Definition config_management_menu_pass : M ctl :=
  display_config_management_menu ;;
  raw <- get_input "Select option" "" ;;
  let choice := upper raw in
  if choice =? "1" then view_configuration ;; ret Continue
  else if choice =? "7" then reload_configuration ;; ret Continue
  else if choice =? "B" then ret Break
  else if existsb (String.eqb choice) ["2"; "3"; "4"; "5"; "6"] then
    print_warning [Lit "Configuration editing is not yet implemented."] ;;
    print_info [Lit "Please edit config.json directly for now."] ;;
    _ <- input press_enter ;;
    ret Continue
  else invalid_option.

Definition handle_config_management_menu (fuel : nat) : M unit :=
  while_true fuel config_management_menu_pass.

(** The body of the [try] in the loop of [main]; the submenus run inside it. *)
Definition main_menu_pass (fuel : nat) : M ctl :=
  display_main_menu ;;
  raw <- get_input "Select option" "" ;;
  let choice := upper raw in
  if choice =? "1" then deploy_vcenter ;; ret Continue
  else if choice =? "2" then deploy_infrastructure ;; ret Continue
  else if choice =? "3" then deploy_datacenter ;; ret Continue
  else if choice =? "4" then deploy_cluster ;; ret Continue
  else if choice =? "5" then handle_configure_menu fuel ;; ret Continue
  else if choice =? "6" then handle_vm_menu fuel ;; ret Continue
  else if choice =? "C" then handle_config_management_menu fuel ;; ret Continue
  else if choice =? "S" then show_status ;; ret Continue
  else if choice =? "Q" then
    print [] ;;
    print_info [Lit "Thank you for using ECST VMware Automation Tool!"] ;;
    print [] ;;
    sys_exit 0
  else invalid_option.

(** The [except KeyboardInterrupt] clause of that loop. *)
Definition on_interrupt : M ctl :=
  print [] ;;
  print_warning [Lit "Operation cancelled by user."] ;;
  ok <- confirm_action "Do you want to exit?" ;;
  if ok then sys_exit 0 else ret Continue.

Definition main (fuel : nat) : M unit :=
  (if negb (os_name =? "nt") then
     Colors_disable ;;
     print_warning [Lit "This tool is designed for Windows with PowerShell."] ;;
     print_warning [Lit "Some features may not work correctly on other platforms."]
   else ret tt) ;;
  found <- path_exists CONFIG_FILE ;;
  if negb found then
    print_error [Lit "Configuration file not found: "; Lit CONFIG_FILE] ;;
    print_info [Lit "Please create a config.json file before running this tool."] ;;
    sys_exit 1
  else
    while_true fuel (except_KeyboardInterrupt (main_menu_pass fuel) on_interrupt).

End Console.

(** * The vocabulary of the properties *)

(** ** Kinds of events *)

(** An event that is no call of [subprocess.run]: no start of the backend.
    (The screen cleared through [os.system] is such an event.) *)
Definition no_run (e : event) : bool :=
  match e with Run _ _ => false | _ => true end.

Definition is_run (e : event) : bool := negb (no_run e).

(** The calls of [subprocess.run], in order. *)
Definition runs (l : list event) : list event := filter is_run l.

(** An error message. *)
Definition is_error (e : event) : bool :=
  match e with
  | Print (Col RED :: Lit "[ERROR]" :: _) => true
  | _ => false
  end.

(** ** ASCII lines *)

(** ASCII text: the lines for which [strip], [upper] and [lower] are
    Python's. *)
Fixpoint plain_ascii (s : string) : bool :=
  match s with
  | EmptyString => true
  | String c s' => (nat_of_ascii c <? 128)%nat && plain_ascii s'
  end.

Definition ascii_key (k : key) : bool :=
  match k with
  | Line s => plain_ascii s
  | CtrlC => true
  end.

(** Every line the operator has still to type is ASCII. *)
Definition ascii_input (w : World) : bool := forallb ascii_key (stdin w).

(** A prompt written by [confirm_action]: no other prompt starts with the
    yellow escape. *)
Definition is_confirm (e : event) : bool :=
  match e with Asked (Col YELLOW :: _) _ => true | _ => false end.

(** An answer to a confirmation prompt that [confirm_action] reads as no. *)
Definition declined (e : event) : bool :=
  match e with
  | Asked (Col YELLOW :: _) (Some (Line s)) => negb (is_yes (lower (strip s)))
  | _ => false
  end.

(** The text of a prompt made of literal pieces only. *)
Fixpoint lit_text (t : text) : option string :=
  match t with
  | [] => Some EmptyString
  | Lit s :: t' => option_map (append s) (lit_text t')
  | _ :: _ => None
  end.

(** A line typed at the prompt that reads [prompt], and that [bad] holds of. *)
Definition answered (prompt : string) (bad : string -> bool) (e : event) : bool :=
  match e with
  | Asked p (Some (Line s)) =>
      match lit_text p with
      | Some q => String.eqb q prompt && bad s
      | None => false
      end
  | _ => false
  end.

(** Neither a process nor an event of [T]. *)
Definition calm (T : event -> bool) (e : event) : bool := no_run e && negb (T e).

Definition never (T : event -> bool) (e : event) : bool := negb (T e).

(** [P] holds of what [print] and [clear_screen] produce. *)
Class Plain (P : event -> bool) : Prop := {
  plain_clear : P Clear = true;
  plain_print : forall t, P (Print t) = true
}.

(** [T] holds of prompts only. *)
Class Trigger (T : event -> bool) : Prop := {
  trigger_clear : T Clear = false;
  trigger_print : forall t, T (Print t) = false;
  trigger_run : forall cmd cwd, T (Run cmd cwd) = false
}.

(** Every event of [m], on every world, satisfies [P]. *)
Definition quiet {A : Type} (P : event -> bool) (m : M A) : Prop :=
  forall w, forallb P (log (m w)) = true.

(** ** The lines of the four message printers *)

Definition success_line (message : text) : text :=
  [Col GREEN; Lit "[SUCCESS]"; Col ENDC; Lit " "] ++ message.

Definition error_line (message : text) : text :=
  [Col RED; Lit "[ERROR]"; Col ENDC; Lit " "] ++ message.

Definition warning_line (message : text) : text :=
  [Col YELLOW; Lit "[WARNING]"; Col ENDC; Lit " "] ++ message.

Definition info_line (message : text) : text :=
  [Col CYAN; Lit "[INFO]"; Col ENDC; Lit " "] ++ message.

(** ** Guards *)

(** Once an event of [T] is among the events of [m], [m] has started no
    process, has printed [c], and ends as [Q] says. *)
Definition guard (T : event -> bool) (c : text) (Q : outcome unit -> Prop) (m : M unit)
  : Prop :=
  forall w, existsb T (log (m w)) = true ->
    forallb no_run (log (m w)) = true /\ In (Print c) (log (m w)) /\ Q (out (m w)).

(** The operation went back to the function that called it. *)
Definition back_to_caller (o : outcome unit) : Prop := o = Ret tt.

(** The operation went back to its caller, or the operator left the prompt
    that follows the message with Ctrl-C or the end of input. *)
Definition back_or_left (o : outcome unit) : Prop :=
  o = Ret tt \/ o = Raise KeyboardInterrupt \/ o = Raise EOFError.

(** ** The operations behind the confirmation gate *)

Inductive operation : Type :=
| DeployVCSA | DeployInfrastructure | DeployDatacenter | DeployCluster
| ConfigureVsan | ConfigureVds | ConfigureVmotion | ConfigureServices
| ConfigureSecurity | ConfigureAll
| DeployTemplateVM | DeployStandardVM.

(** The question each operation puts to [confirm_action]. *)
Definition question (op : operation) : string :=
  match op with
  | DeployVCSA => "Do you want to proceed with VCSA deployment?"
  | DeployInfrastructure => "Do you want to proceed with full infrastructure deployment?"
  | DeployDatacenter => "Create this datacenter?"
  | DeployCluster => "Create this cluster?"
  | ConfigureVsan => "Configure vSAN with these settings?"
  | ConfigureVds => "Configure VDS with these settings?"
  | ConfigureVmotion => "Configure vMotion with these settings?"
  | ConfigureServices => "Configure services with these settings?"
  | ConfigureSecurity => "Apply these security settings?"
  | ConfigureAll => "Proceed with full infrastructure configuration?"
  | DeployTemplateVM => "Deploy this VM?"
  | DeployStandardVM => "Create this VM?"
  end.

(** The message each operation prints when the answer is no. *)
Definition cancellation (op : operation) : string :=
  match op with
  | DeployVCSA => "VCSA deployment cancelled."
  | DeployInfrastructure => "Infrastructure deployment cancelled."
  | DeployDatacenter => "Datacenter creation cancelled."
  | DeployCluster => "Cluster creation cancelled."
  | ConfigureVsan => "vSAN configuration cancelled."
  | ConfigureVds => "VDS configuration cancelled."
  | ConfigureVmotion => "vMotion configuration cancelled."
  | ConfigureServices => "Service configuration cancelled."
  | ConfigureSecurity => "Security configuration cancelled."
  | ConfigureAll => "Full configuration cancelled."
  | DeployTemplateVM => "VM deployment cancelled."
  | DeployStandardVM => "VM creation cancelled."
  end.

Definition perform `{Env} (op : operation) : M unit :=
  match op with
  | DeployVCSA => deploy_vcenter
  | DeployInfrastructure => deploy_infrastructure
  | DeployDatacenter => deploy_datacenter
  | DeployCluster => deploy_cluster
  | ConfigureVsan => configure_vsan
  | ConfigureVds => configure_vds
  | ConfigureVmotion => configure_vmotion
  | ConfigureServices => configure_services
  | ConfigureSecurity => configure_security
  | ConfigureAll => configure_all
  | DeployTemplateVM => deploy_vm_from_template
  | DeployStandardVM => deploy_standard_vm
  end.

(** ** A laboratory installation, for concrete runs *)

Definition lab_config : json :=
  JObj
    [ ("environment", JObj [("name", JStr "lab")]);
      ("vcenter",
       JObj [ ("server", JStr "vcsa.lab.local");
              ("vcsa",
               JObj [ ("targetEsxiHost", JStr "esx01.lab.local");
                      ("hostname", JStr "vcsa.lab.local");
                      ("ip", JStr "10.0.0.10");
                      ("deploymentSize", JStr "small");
                      ("ssoDomain", JStr "vsphere.local") ]) ]);
      ("datacenter", JObj [("name", JStr "DC1")]);
      ("cluster",
       JObj [ ("name", JStr "CL1");
              ("ha", JObj [("enabled", JBool true)]);
              ("drs", JObj [("enabled", JBool true);
                            ("automationLevel", JStr "FullyAutomated")]) ]);
      ("esxiHosts",
       JArr [ JObj [("hostname", JStr "esx01.lab.local"); ("vmotionIp", JStr "10.0.1.11")] ]);
      ("networking",
       JObj [ ("vds", JObj [ ("name", JStr "VDS1"); ("version", JStr "8.0.0");
                             ("mtu", JInt 9000); ("uplinks", JInt 2);
                             ("loadBalancing", JStr "LoadBalanceSrcId") ]);
              ("portGroups",
               JArr [ JObj [("name", JStr "PG-VMTraffic"); ("vlanId", JInt 100);
                            ("type", JStr "vm")] ]);
              ("vmotionTcpIpStack",
               JObj [ ("enabled", JBool true); ("gateway", JStr "10.0.1.1");
                      ("subnetMask", JStr "255.255.255.0") ]) ]);
      ("storage",
       JObj [ ("vsan", JObj [ ("enabled", JBool true); ("claimMode", JStr "Automatic");
                              ("deduplicationEnabled", JBool false);
                              ("compressionEnabled", JBool false) ]) ]);
      ("services",
       JObj [ ("ntp", JObj [("servers", JArr [JStr "pool.ntp.org"]); ("policy", JStr "on")]);
              ("dns", JObj [("servers", JArr [JStr "10.0.0.2"]);
                            ("searchDomains", JArr [JStr "lab.local"])]);
              ("syslog", JObj [("server", JStr "10.0.0.3"); ("port", JInt 514);
                               ("protocol", JStr "udp")]) ]);
      ("security",
       JObj [ ("lockdownMode", JStr "normal"); ("sshEnabled", JBool false);
              ("shellTimeout", JInt 900);
              ("firewallRulesetsEnabled", JArr [JStr "sshServer"; JStr "ntpClient"]) ]) ].

(** The installation: Windows, the Python codec, a backend whose every
    run ends with [status]. *)
Definition lab (status : Z) : Env := {|
  SCRIPT_DIR := "C:\ecst";
  path_sep := "\";
  os_name := "nt";
  json_loads := PyJson.loads;
  json_dumps := PyJson.dumps;
  spawn := fun _ => Some status
|}.

Definition lab_files : files :=
  write_file "C:\ecst\config.json" (PyJson.encode 0 lab_config)
    (write_file "C:\ecst\Deploy-VCSA.ps1" "# Deploy-VCSA"
       (write_file "C:\ecst\Deploy-Infrastructure.ps1" "# Deploy-Infrastructure"
          (fun _ => None))).

(** The lab with the operator's lines still to come. *)
Definition lab_world (lines : list string) : World :=
  mkWorld (map Line lines) lab_files true.

(** An installation off Windows whose files are read as ASCII text: a
    file with a byte above 127 is no text there, and reading it raises
    [UnicodeDecodeError]. *)
Definition lab_ascii : Env := {|
  SCRIPT_DIR := "/opt/ecst";
  path_sep := "/";
  os_name := "posix";
  json_loads := fun content =>
    if plain_ascii content then PyJson.loads content else Failed UnicodeDecodeError;
  json_dumps := PyJson.dumps;
  spawn := fun _ => None
|}.

(** A configuration file that holds a byte above 127 (an e acute in
    Latin-1), and that installation with the file. *)
Definition latin1_config : string :=
  "{" ++ dq ++ "name" ++ dq ++ ": " ++ dq ++ "caf" ++ String (ascii_of_nat 233) dq ++ "}".

Definition latin1_world (lines : list string) : World :=
  mkWorld (map Line lines)
    (write_file "/opt/ecst/config.json" latin1_config (fun _ => None)) true.

(** A configuration file written by hand, on one line, and the document
    it holds. *)
Definition compact_config : string :=
  "{" ++ dq ++ "vds" ++ dq ++ ": {" ++ dq ++ "mtu" ++ dq ++ ":9000, "
      ++ dq ++ "uplinks" ++ dq ++ ": [2, -1, true, null]}}".

Definition compact_document : json :=
  JObj [("vds", JObj [("mtu", JInt 9000);
                      ("uplinks", JArr [JInt 2; JInt (-1); JBool true; JNull])])].

Definition compact_world : World :=
  mkWorld [] (write_file "C:\ecst\config.json" compact_config (fun _ => None)) true.

(** ** The fields the two VM deployments check *)

(** What [get_input] returns for a typed line. *)
Definition entered (default line : string) : string :=
  if negb (is_empty default) then
    (if negb (is_empty (strip line)) then strip line else default)
  else strip line.

Inductive check : Type :=
| TemplateChoice | TemplateVmName | TemplateSize
| StandardVmName | StandardOsType | StandardSize.

Definition check_operation (c : check) : operation :=
  match c with
  | TemplateChoice | TemplateVmName | TemplateSize => DeployTemplateVM
  | StandardVmName | StandardOsType | StandardSize => DeployStandardVM
  end.

(** The prompt of the field, as [get_input] passes it to [input]. *)
Definition check_prompt (c : check) : text :=
  match c with
  | TemplateChoice => [Lit "Select template"; Lit ": "]
  | TemplateVmName => [Lit "Enter VM Name (e.g., splunk-prod-01)"; Lit ": "]
  | TemplateSize => [Lit "Enter Size"; Lit " ["; Lit "Medium"; Lit "]: "]
  | StandardVmName => [Lit "Enter VM Name (e.g., rhel-web-01)"; Lit ": "]
  | StandardOsType => [Lit "Select OS Type"; Lit " ["; Lit "1"; Lit "]: "]
  | StandardSize => [Lit "Enter Size"; Lit " ["; Lit "Small"; Lit "]: "]
  end.

(** The typed lines the field does not accept. *)
Definition rejected (c : check) (line : string) : bool :=
  match c with
  | TemplateChoice =>
      negb (upper (strip line) =? "B") && negb (dict_mem (upper (strip line)) VM_TEMPLATES)
  | TemplateVmName | StandardVmName => is_empty (strip line)
  | TemplateSize => negb (dict_mem (entered "Medium" line) VM_SIZES)
  | StandardOsType => negb (dict_mem (entered "1" line) OS_TYPES)
  | StandardSize => negb (dict_mem (entered "Small" line) VM_SIZES)
  end.

Definition complaint (c : check) : string :=
  match c with
  | TemplateChoice => "Invalid template selection."
  | TemplateVmName | StandardVmName => "VM name is required."
  | TemplateSize | StandardSize => "Invalid size selection."
  | StandardOsType => "Invalid OS type selection."
  end.

(** How the operation ends after the complaint: only the template choice
    waits for the operator before it returns. *)
Definition check_end (c : check) : outcome unit -> Prop :=
  match c with
  | TemplateChoice => back_or_left
  | _ => back_to_caller
  end.

(** ** Reports of an exit status *)

(** The line that reports the exit status [returncode]: a success message
    for zero, otherwise an error message that ends with the status. *)
Definition reported (returncode : Z) (verdict : text) : Prop :=
  if (returncode =? 0)%Z then exists message, verdict = success_line message
  else exists message, verdict = error_line (message ++ [Fmt (JInt returncode)]).

(** A success or an error message. *)
Definition is_report (e : event) : bool :=
  match e with
  | Print (Col GREEN :: Lit "[SUCCESS]" :: _) => true
  | Print (Col RED :: Lit "[ERROR]" :: _) => true
  | _ => false
  end.

(** How [input("\nPress Enter to continue...")] ends an operation. *)
Definition acknowledged (reply : option key) : outcome unit :=
  match reply with
  | Some (Line _) => Ret tt
  | Some CtrlC => Raise KeyboardInterrupt
  | None => Raise EOFError
  end.

(** When [m] has run [cmd] and the process ended with a status, the events
    after the run are the rule, the report of that status and the wait for
    the operator, and no other process was started. *)
Definition reports `{Env} (m : M unit) : Prop :=
  forall w cmd cwd returncode,
    In (Run cmd cwd) (log (m w)) -> spawn cmd = Some returncode ->
    exists before verdict reply,
      log (m w) =
        before ++ [Run cmd cwd; Print (rule "─" 50); Print verdict; Asked press_enter reply]
      /\ forallb no_run before = true
      /\ reported returncode verdict
      /\ out (m w) = acknowledged reply.

(** ** Start-up and menus *)

(** The world in which the menu loop of [main] starts: off Windows the
    colours have been switched off. *)
Definition after_startup `{Env} (w : World) : World :=
  if negb (os_name =? "nt") then set_colors false w else w.

(** What [main] prints off Windows before anything else. *)
Definition platform_warnings `{Env} : list event :=
  if negb (os_name =? "nt") then
    [Print (warning_line [Lit "This tool is designed for Windows with PowerShell."]);
     Print (warning_line [Lit "Some features may not work correctly on other platforms."])]
  else [].

(** The title banner [print_header] prints. *)
Definition banner (title : string) : list event :=
  [Print []; Print (rule "=" 60);
   Print [Col BOLD; Col CYAN; Lit "  "; Lit title; Col ENDC];
   Print (rule "=" 60); Print []].

(** A line of the main menu: its heading or one of its entries. *)
Definition is_main_menu_line (e : event) : bool :=
  match e with
  | Print [Col BOLD; Lit "Main Menu:"; Col ENDC] => true
  | Print [Lit s] =>
      existsb (String.eqb s)
        ["  1. Deploy vCenter (VCSA)"; "  2. Deploy Infrastructure (Full)";
         "  3. Deploy Datacenter"; "  4. Deploy Cluster"; "  5. Configure Infrastructure";
         "  6. Deploy Virtual Machine"; "  C. Configuration Management";
         "  S. Show Current Status"; "  Q. Quit"]
  | _ => false
  end.

(** The world is left as it was. *)
Definition inert {A : Type} (m : M A) : Prop := forall w, world (m w) = w.

Inductive menu : Type :=
| MainMenu | ConfigureMenu | VmMenu | ConfigManagementMenu.

Definition display `{Env} (m : menu) : M unit :=
  match m with
  | MainMenu => display_main_menu
  | ConfigureMenu => display_configure_menu
  | VmMenu => display_vm_menu
  | ConfigManagementMenu => display_config_management_menu
  end.

(** One pass through the loop of the menu's handler ([main] for the main
    menu, with its [try]). *)
Definition menu_pass `{Env} (m : menu) (fuel : nat) : M ctl :=
  match m with
  | MainMenu => except_KeyboardInterrupt (main_menu_pass fuel) on_interrupt
  | ConfigureMenu => configure_menu_pass
  | VmMenu => vm_menu_pass
  | ConfigManagementMenu => config_management_menu_pass
  end.

(** The tokens the handler of the menu compares the choice with. *)
Definition tokens (m : menu) : list string :=
  match m with
  | MainMenu => ["1"; "2"; "3"; "4"; "5"; "6"; "C"; "S"; "Q"]
  | ConfigureMenu => ["1"; "2"; "3"; "4"; "5"; "6"; "B"]
  | VmMenu => ["1"; "2"; "B"]
  | ConfigManagementMenu => ["1"; "7"; "B"; "2"; "3"; "4"; "5"; "6"]
  end.

(** The main-menu token that opens a submenu. *)
Definition opening_token (m : menu) : string :=
  match m with
  | MainMenu => ""
  | ConfigureMenu => "5"
  | VmMenu => "6"
  | ConfigManagementMenu => "C"
  end.

(** What a pass prints and reads when the choice is no token of the menu
    and the operator then presses Enter. *)
Definition invalid_pass_log `{Env} (m : menu) (w : World) (line ack : string) : list event :=
  log (display m w)
  ++ [Asked [Lit "Select option"; Lit ": "] (Some (Line line));
      Print (error_line [Lit "Invalid option. Please try again."]);
      Asked press_enter (Some (Line ack))].

(** The handler function of a submenu. *)
Definition submenu_handler `{Env} (m : menu) (fuel : nat) : M unit :=
  match m with
  | MainMenu => ret tt
  | ConfigureMenu => handle_configure_menu fuel
  | VmMenu => handle_vm_menu fuel
  | ConfigManagementMenu => handle_config_management_menu fuel
  end.

(** ** Runs that start the same processes and end alike *)

Definition agree {A : Type} (r1 r2 : res A) : Prop :=
  runs (log r1) = runs (log r2) /\ out r1 = out r2.

(** ** Fields that accept a line *)

(** The prompt the operation puts next once the field has accepted a
    line, as the operator reads it. *)
Definition next_shown (c : check) : string :=
  match c with
  | TemplateChoice => "Enter VM Name (e.g., splunk-prod-01): "
  | TemplateVmName => "Enter Size [Medium]: "
  | TemplateSize => "Enter IP Address (e.g., 192.168.1.100): "
  | StandardVmName => "Select OS Type [1]: "
  | StandardOsType => "Enter Size [Small]: "
  | StandardSize => "Enter IP Address (e.g., 192.168.1.100): "
  end.

(** The typed lines with which the field lets the operation go on: those
    it does not reject, B apart at the template choice. *)
Definition accepted (c : check) (line : string) : bool :=
  negb (rejected c line)
  && match c with
     | TemplateChoice => negb (upper (strip line) =? "B")
     | _ => true
     end.

(** A prompt that reads [shown], whatever the reply. *)
Definition asked (shown : string) (e : event) : bool :=
  match e with
  | Asked p _ =>
      match lit_text p with
      | Some q => String.eqb q shown
      | None => false
      end
  | _ => false
  end.

(** Once an event of [T] is among the events of [m], so is one of [U]. *)
Definition leads (T U : event -> bool) (m : M unit) : Prop :=
  forall w, existsb T (log (m w)) = true -> existsb U (log (m w)) = true.

(** [m] produces an event of [U] on every world. *)
Definition asks {A : Type} (U : event -> bool) (m : M A) : Prop :=
  forall w, existsb U (log (m w)) = true.

(** [m] returns on every world. *)
Definition returns {A : Type} (m : M A) : Prop :=
  forall w, exists a, out (m w) = Ret a.

(** ** The documents of the JSON fragment *)

Module JsonFragment.
Import PyJson.
Local Open Scope string_scope.

(** The text goes on with something that is no digit. *)
Definition ends_number (rest : string) : Prop :=
  match rest with
  | EmptyString => True
  | String c _ => digit_of c = None
  end.

(** The characters a value can begin with. *)
Definition opens_value (c : ascii) : bool :=
  match digit_of c with
  | Some _ => true
  | None =>
      Ascii.eqb c dquote || Ascii.eqb c "{" || Ascii.eqb c "[" || Ascii.eqb c "n"
      || Ascii.eqb c "t" || Ascii.eqb c "f" || Ascii.eqb c "-"
  end.

(** No key twice. *)
Fixpoint distinct (keys : list string) : bool :=
  match keys with
  | [] => true
  | k :: keys' => negb (existsb (String.eqb k) keys') && distinct keys'
  end.

(** The documents of the fragment, as the decoder makes them: no float,
    and in an object no key twice. *)
Fixpoint well_formed (v : json) : bool :=
  match v with
  | JFloat _ => false
  | JArr xs => forallb well_formed xs
  | JObj kvs => distinct (map fst kvs) && forallb (fun kv => well_formed (snd kv)) kvs
  | _ => true
  end.

(** A document the decoder reads back from its encoding at any nesting
    level, whatever follows it. *)
Definition reads_back (v : json) : Prop :=
  well_formed v = true ->
  forall level fuel rest,
    ends_number rest ->
    (String.length (encode level v) < fuel)%nat ->
    parse_value fuel (encode level v ++ rest) = Some (v, rest).

End JsonFragment.

(** ** Laws every step of the console keeps *)

(** How a computation ended, its value set aside. *)
Inductive ending : Type :=
| Returned
| Exited (code : Z)
| Raised (e : exn)
| Starved.

Definition ending_of {A : Type} (o : outcome A) : ending :=
  match o with
  | Ret _ => Returned
  | Exit c => Exited c
  | Raise e => Raised e
  | NoFuel => Starved
  end.

(** A relation between the world a computation starts in, how it ends, the
    world it leaves and the events it produced. *)
Definition law : Type := World -> ending -> World -> list event -> Prop.

Definition obeys {A : Type} (R : law) (m : M A) : Prop :=
  forall w, R w (ending_of (out (m w))) (world (m w)) (log (m w)).

(** A law that the primitive steps keep and that passes through
    sequences. *)
Class Lawful (R : law) : Prop := {
  law_idle : forall w, R w Returned w [];
  law_raise : forall w e, R w (Raised e) w [];
  law_clear : forall w, R w Returned w [Clear];
  law_print : forall w t, R w Returned w [Print t];
  law_line : forall w p s rest,
      stdin w = Line s :: rest -> R w Returned (set_stdin rest w) [Asked p (Some (Line s))];
  law_interrupt : forall w p rest,
      stdin w = CtrlC :: rest ->
      R w (Raised KeyboardInterrupt) (set_stdin rest w) [Asked p (Some CtrlC)];
  law_eof : forall w p, stdin w = [] -> R w (Raised EOFError) w [Asked p None];
  law_colors : forall w b, R w Returned (set_colors b w) [];
  law_seq : forall w w1 w2 l1 l2 o,
      R w Returned w1 l1 -> R w1 o w2 l2 -> R w o w2 (l1 ++ l2)
}.

(** The law passes through the handler of [KeyboardInterrupt]. *)
Class Catching (R : law) : Prop :=
  law_caught : forall w w1 w2 l1 l2 o,
      R w (Raised KeyboardInterrupt) w1 l1 -> R w1 o w2 l2 -> R w o w2 (l1 ++ l2).

(** The law holds of a process started, whatever its command line. *)
Class Spawning (R : law) : Prop := {
  law_started : forall w cmd cwd, R w Returned w [Run cmd cwd];
  law_not_started : forall w cmd cwd, R w (Raised FileNotFoundError) w [Run cmd cwd]
}.

(** The law holds of [sys.exit] with nothing before it. *)
Class Exitable (R : law) : Prop :=
  law_exit : forall w c, R w (Exited c) w [].

(** The law holds of a loop of the model that ran out of passes. *)
Class Patient (R : law) : Prop :=
  law_starved : forall w, R w Starved w [].

(** The keys the prompts received, in order. *)
Fixpoint taken (l : list event) : list key :=
  match l with
  | [] => []
  | Asked _ (Some k) :: l' => k :: taken l'
  | _ :: l' => taken l'
  end.

(** No file is written, and what has gone from the input is what the
    prompts received. *)
Definition frame : law := fun w _ w' l =>
  fs w' = fs w /\ stdin w = taken l ++ stdin w'.

(** The input does not grow, and with fewer than [n] keys to come the
    computation does not run out of passes. *)
Definition lively (n : nat) : law := fun w o w' _ =>
  (List.length (stdin w') <= List.length (stdin w))%nat
  /\ ((List.length (stdin w) < n)%nat -> o <> Starved).

(** A computation that returns has read a key. *)
Definition consuming {A : Type} (m : M A) : Prop :=
  forall w a, out (m w) = Ret a ->
    (List.length (stdin (world (m w))) < List.length (stdin w))%nat.

(** The values a computation can return. *)
Definition yields {A : Type} (P : A -> Prop) (m : M A) : Prop :=
  forall w a, out (m w) = Ret a -> P a.

(** The events right before the process exits with status [code]: for 1, a
    configuration error (with the hint that follows it at start-up); for
    0, the farewell, or a yes to the question asked after Ctrl-C. *)
Definition farewell `{Env} (code : Z) (tail : list event) : Prop :=
  (code = 1%Z
   /\ (tail = [Print (error_line [Lit "Configuration file not found: "; Lit CONFIG_FILE])]
       \/ tail = [Print (error_line [Lit "Configuration file not found: "; Lit CONFIG_FILE]);
                  Print (info_line
                           [Lit "Please create a config.json file before running this tool."])]
       \/ exists msg,
            tail = [Print (error_line [Lit "Invalid JSON in configuration file: "; Lit msg])]))
  \/ (code = 0%Z
      /\ (tail = [Print [];
                  Print (info_line [Lit "Thank you for using ECST VMware Automation Tool!"]);
                  Print []]
          \/ exists s,
               is_yes (lower (strip s)) = true
               /\ tail = [Print []; Print (warning_line [Lit "Operation cancelled by user."]);
                          Asked (confirm_prompt "Do you want to exit?") (Some (Line s))])).

Definition last_words `{Env} (code : Z) (l : list event) : Prop :=
  exists before tail, l = before ++ tail /\ farewell code tail.

(** An exit comes right after its last words. *)
Definition parting `{Env} : law := fun _ o _ l =>
  forall c, o = Exited c -> last_words c l.

(** A call of [subprocess.run] that starts PowerShell with the execution
    policy bypassed, on a script file or an inline command, in the install
    directory. *)
Definition powershell_call `{Env} (e : event) : bool :=
  match e with
  | Run ([Lit "powershell.exe"] :: [Lit "-ExecutionPolicy"] :: [Lit "Bypass"]
         :: [Lit mode] :: _ :: _) cwd =>
      (String.eqb mode "-File" || String.eqb mode "-Command") && String.eqb cwd SCRIPT_DIR
  | _ => false
  end.

(** An event that is no call of [subprocess.run], or is such a call of
    PowerShell. *)
Definition powershell_if_run `{Env} (e : event) : bool :=
  no_run e || powershell_call e.

(** A prompt that received Ctrl-C is the last event, and
    [KeyboardInterrupt] goes up from it. *)
Definition interrupting : law := fun _ o _ l =>
  forall p, In (Asked p (Some CtrlC)) l ->
    o = Raised KeyboardInterrupt /\ exists before, l = before ++ [Asked p (Some CtrlC)].

(** ** Ctrl-C and the end of input *)

(** What the handler of [main] adds to the events of an interrupted pass. *)
Definition interrupted (l : list event) (reply : option key) : list event :=
  l ++ [Print []; Print (warning_line [Lit "Operation cancelled by user."]);
        Asked (confirm_prompt "Do you want to exit?") reply].

(** How a pass of the main loop ends once [KeyboardInterrupt] has come up
    to it, by the next key. *)
Definition after_interrupt (w1 : World) (l1 : list event) : res ctl :=
  match stdin w1 with
  | Line s :: rest =>
      mkRes (if is_yes (lower (strip s)) then Exit 0 else Ret Continue)
            (set_stdin rest w1) (interrupted l1 (Some (Line s)))
  | CtrlC :: rest =>
      mkRes (Raise KeyboardInterrupt) (set_stdin rest w1) (interrupted l1 (Some CtrlC))
  | [] => mkRes (Raise EOFError) w1 (interrupted l1 None)
  end.

(** ** Lookups in the configuration *)

(** [v[k1][k2]...] as a value: the pure part of [get]. *)
Fixpoint lookup (v : json) (path : list string) : outcome json :=
  match path with
  | [] => Ret v
  | k :: path' =>
      match py_getitem v k with
      | Ret x => lookup x path'
      | Exit c => Exit c
      | Raise e => Raise e
      | NoFuel => NoFuel
      end
  end.

(** The exception of the first lookup that fails, if one does. *)
Fixpoint first_failure (v : json) (paths : list (list string)) : option exn :=
  match paths with
  | [] => None
  | p :: paths' =>
      match lookup v p with
      | Raise e => Some e
      | _ => first_failure v paths'
      end
  end.

(** The fields [display_main_menu] shows, in the order it reads them. *)
Definition main_menu_fields : list (list string) :=
  [["environment"; "name"]; ["vcenter"; "server"]; ["datacenter"; "name"];
   ["cluster"; "name"]].

(** A prompt, whatever it reads. *)
Definition is_prompt (e : event) : bool :=
  match e with Asked _ _ => true | _ => false end.

(** ** Operations and the files they need *)

(** While the files satisfy [Pre], no call of [subprocess.run] is made
    and no file is written. *)
Definition under (Pre : files -> Prop) : law := fun w _ w' l =>
  Pre (fs w) -> forallb no_run l = true /\ fs w' = fs w.

(** The configuration file cannot be loaded: it is missing, its text is
    not JSON, or reading it raises. *)
Definition unreadable `{Env} (f : files) : Prop :=
  match f CONFIG_FILE with
  | None => True
  | Some content =>
      match json_loads content with
      | Parsed _ => False
      | DecodeError _ => True
      | Failed _ => True
      end
  end.

(** How [load_config] ends on such files: with exit status 1 after its
    error message, or with the exception it does not catch. *)
Definition load_failure `{Env} (f : files) : ending :=
  match f CONFIG_FILE with
  | None => Exited 1
  | Some content =>
      match json_loads content with
      | Failed e => Raised e
      | _ => Exited 1
      end
  end.

(** The script file an operation looks for before it runs it. *)
Definition checked_script `{Env} (op : operation) : option string :=
  match op with
  | DeployVCSA => Some (SCRIPT_DIR / "Deploy-VCSA.ps1")
  | DeployInfrastructure => Some (SCRIPT_DIR / "Deploy-Infrastructure.ps1")
  | _ => None
  end.

(** The operations that load the configuration before anything else. *)
Definition loads_first (op : operation) : bool :=
  match op with
  | ConfigureAll | DeployTemplateVM | DeployStandardVM => false
  | _ => true
  end.

(** A yes to a confirmation prompt. *)
Definition confirmed (e : event) : bool :=
  match e with
  | Asked (Col YELLOW :: _) (Some (Line s)) => is_yes (lower (strip s))
  | _ => false
  end.

(** [guard], for the worlds that satisfy [Pre]. *)
Definition guard_where (Pre : World -> Prop) (T : event -> bool) (c : text)
           (Q : outcome unit -> Prop) (m : M unit) : Prop :=
  forall w, Pre w -> existsb T (log (m w)) = true ->
    forallb no_run (log (m w)) = true /\ In (Print c) (log (m w)) /\ Q (out (m w)).

(** The command line of [configure_all]. *)
Definition configure_all_command `{Env} : list text :=
  [[Lit "powershell.exe"]; [Lit "-ExecutionPolicy"]; [Lit "Bypass"]; [Lit "-File"];
   [Lit (SCRIPT_DIR / "Deploy-Infrastructure.ps1")];
   [Lit "-"; Lit "ConfigPath"]; [Lit CONFIG_FILE];
   [Lit "-"; Lit "SkipVCSA"]; [Lit "$true"]].

(** ** Blanks around what the operator types *)

(** A string of blanks only (Python's [str.isspace], or the empty string). *)
Fixpoint blank (s : string) : bool :=
  match s with
  | EmptyString => true
  | String c s' => is_space c && blank s'
  end.

(** The spellings [confirm_action] reads as yes. *)
Definition yes_words : list string :=
  ["y"; "Y"; "yes"; "yeS"; "yEs"; "yES"; "Yes"; "YeS"; "YEs"; "YES"].

(** ** A backend that cannot be started *)

(** When [m] has tried to run [cmd] and the program could not be started,
    the run is the last event of [m], no other process was started, and
    [m] ends with [FileNotFoundError]. *)
Definition stops_at_failed_start `{Env} (m : M unit) : Prop :=
  forall w cmd cwd,
    In (Run cmd cwd) (log (m w)) -> spawn cmd = None ->
    exists before,
      log (m w) = before ++ [Run cmd cwd]
      /\ forallb no_run before = true
      /\ out (m w) = Raise FileNotFoundError.

(** ** What a deployment hands to the backend *)

(** The pieces [part], in a row, somewhere in [t]. *)
Definition within (part t : text) : Prop :=
  exists before after, t = before ++ part ++ after.

(** The command line of an inline script. *)
Definition inline_command (script : text) : list text :=
  [[Lit "powershell.exe"]; [Lit "-ExecutionPolicy"]; [Lit "Bypass"]; [Lit "-Command"]; script].

(** ** More of the laboratory *)

(** The lab with the operator's keys, Ctrl-C among them, still to come. *)
Definition lab_keys (keys : list key) : World := mkWorld keys lab_files true.

(** An installation whose configuration is an empty object. *)
Definition bare_world : World :=
  mkWorld [] (write_file "C:\ecst\config.json" "{}" (fun _ => None)) true.

(** An installation with its configuration and no script file. *)
Definition scriptless_world (lines : list string) : World :=
  mkWorld (map Line lines)
    (write_file "C:\ecst\config.json" (PyJson.encode 0 lab_config) (fun _ => None)) true.

(** An installation without any file. *)
Definition empty_world (lines : list string) : World :=
  mkWorld (map Line lines) (fun _ => None) true.

(** An installation off Windows, where PowerShell cannot be started. *)
Definition stranded : Env := {|
  SCRIPT_DIR := "/opt/ecst";
  path_sep := "/";
  os_name := "posix";
  json_loads := PyJson.loads;
  json_dumps := PyJson.dumps;
  spawn := fun _ => None
|}.

Definition stranded_world (lines : list string) : World :=
  mkWorld (map Line lines)
    (write_file "/opt/ecst/config.json" (PyJson.encode 0 lab_config) (fun _ => None)) true.
(** * Properties *)

(** ** Computations that stay within a set of events *)

#[export] Instance Plain_no_run : Plain no_run.
Proof. split; reflexivity. Qed.

#[export] Instance Plain_calm (T : event -> bool) `{Trigger T} : Plain (calm T).
Proof.
  split; unfold calm; cbn; [rewrite trigger_clear | intros t; rewrite trigger_print];
    reflexivity.
Qed.

#[export] Instance Plain_never (T : event -> bool) `{Trigger T} : Plain (never T).
Proof.
  split; unfold never; [rewrite trigger_clear | intros t; rewrite trigger_print];
    reflexivity.
Qed.

#[export] Instance Trigger_declined : Trigger declined.
Proof. split; reflexivity. Qed.

#[export] Instance Trigger_is_confirm : Trigger is_confirm.
Proof. split; reflexivity. Qed.

#[export] Instance Trigger_answered prompt bad : Trigger (answered prompt bad).
Proof. split; reflexivity. Qed.

Section Quiet.
Context `{Env}.

Lemma quiet_ret {A : Type} P (a : A) : quiet P (ret a).
Proof. intros w. reflexivity. Qed.

Lemma quiet_lift {A : Type} P (o : outcome A) : quiet P (lift o).
Proof. intros w. reflexivity. Qed.

Lemma quiet_bind {A B : Type} P (m : M A) (k : A -> M B) :
  quiet P m -> (forall a, quiet P (k a)) -> quiet P (bind m k).
Proof.
  intros Hm Hk w. unfold bind. specialize (Hm w).
  destruct (out (m w)); cbn [log]; trivial.
  rewrite forallb_app, Hm. apply Hk.
Qed.

Lemma quiet_emit P (e : event) : P e = true -> quiet P (emit e).
Proof. intros E w. cbn. rewrite E. reflexivity. Qed.

Lemma quiet_print P `{Plain P} (t : text) : quiet P (print t).
Proof. apply quiet_emit, plain_print. Qed.

Lemma quiet_clear_screen P `{Plain P} : quiet P clear_screen.
Proof. apply quiet_emit, plain_clear. Qed.

Lemma quiet_input P (prompt : text) :
  (forall r, P (Asked prompt r) = true) -> quiet P (input prompt).
Proof.
  intros E w. unfold input. destruct (stdin w) as [ | [s | ] rest]; cbn; rewrite E; reflexivity.
Qed.

Lemma quiet_for_each {A : Type} P (xs : list A) (body : A -> M unit) :
  (forall x, quiet P (body x)) -> quiet P (for_each xs body).
Proof.
  intros Hb. induction xs as [ | x xs IH]; cbn [for_each].
  - apply quiet_ret.
  - apply quiet_bind; auto.
Qed.

Lemma quiet_get P (path : list string) : forall v, quiet P (get v path).
Proof.
  induction path as [ | k path IH]; intros v; cbn [get].
  - apply quiet_ret.
  - apply quiet_bind; [apply quiet_lift | auto].
Qed.

Lemma quiet_path_exists P (p : string) : quiet P (path_exists p).
Proof. intros w. reflexivity. Qed.

Lemma quiet_Colors_disable P : quiet P Colors_disable.
Proof. intros w. reflexivity. Qed.

Lemma quiet_load_config P `{Plain P} : quiet P load_config.
Proof.
  intros w. unfold load_config. destruct (fs w CONFIG_FILE) as [content | ].
  - destruct (json_loads content); cbn; [reflexivity | | reflexivity].
    rewrite plain_print. reflexivity.
  - cbn. rewrite plain_print. reflexivity.
Qed.

Lemma quiet_subprocess_run P (cmd : list text) :
  (forall cwd, P (Run cmd cwd) = true) -> quiet P (subprocess_run cmd).
Proof.
  intros E w. unfold subprocess_run. destruct (spawn cmd); cbn; rewrite E; reflexivity.
Qed.

End Quiet.

(** Splits a goal [quiet P m] along the structure of [m]. *)
Ltac quiet_step :=
  lazymatch goal with
  | |- quiet _ (ret _) => apply quiet_ret
  | |- quiet _ (lift _) => apply quiet_lift
  | |- quiet _ (raise _) => apply quiet_lift
  | |- quiet _ (sys_exit _) => apply quiet_lift
  | |- quiet _ (print _) => apply quiet_print; typeclasses eauto
  | |- quiet _ clear_screen => apply quiet_clear_screen; typeclasses eauto
  | |- quiet _ load_config => apply quiet_load_config; typeclasses eauto
  | |- quiet _ (get _ _) => apply quiet_get
  | |- quiet _ (path_exists _) => apply quiet_path_exists
  | |- quiet _ Colors_disable => apply quiet_Colors_disable
  | |- quiet _ (for_each _ _) => apply quiet_for_each; intros ?
  | |- quiet _ (input _) =>
      apply quiet_input; intros [[? | ] | ]; reflexivity
  | |- quiet _ (subprocess_run _) =>
      apply quiet_subprocess_run; intros ?; reflexivity
  | |- quiet _ (bind _ _) => apply quiet_bind; [ | intros ? ]
  | |- quiet _ (if ?b then _ else _) => destruct b
  | |- quiet _ (match ?x with _ => _ end) => destruct x
  | |- quiet _ (let x := _ in _) => cbv zeta
  | |- quiet _ (?f _ _ _ _) => unfold f
  | |- quiet _ (?f _ _ _) => unfold f
  | |- quiet _ (?f _ _) => unfold f
  | |- quiet _ (?f _) => unfold f
  | |- quiet _ ?f => unfold f
  end.

Ltac quiet_tac := repeat quiet_step.

(** ** Guards pass through a quiet prefix *)

Lemma calm_split (T : event -> bool) (l : list event) :
  forallb (calm T) l = true -> forallb no_run l = true /\ existsb T l = false.
Proof.
  induction l as [ | e l IH]; cbn; [auto | ].
  unfold calm at 1. intros E.
  apply andb_true_iff in E as [E1 E2]. apply andb_true_iff in E1 as [E1 E3].
  apply negb_true_iff in E3. destruct (IH E2) as [IH1 IH2].
  rewrite E1, E3, IH1, IH2. auto.
Qed.

Lemma never_none (T : event -> bool) (l : list event) :
  forallb (never T) l = true -> existsb T l = false.
Proof.
  induction l as [ | e l IH]; cbn; [auto | ].
  unfold never at 1. intros E. apply andb_true_iff in E as [E1 E2].
  apply negb_true_iff in E1. rewrite E1, (IH E2). reflexivity.
Qed.

Lemma no_run_In (l : list event) :
  forallb no_run l = true -> forall cmd cwd, ~ In (Run cmd cwd) l.
Proof.
  intros E cmd cwd I. rewrite forallb_forall in E. specialize (E _ I). discriminate.
Qed.

Section Guard.
Context `{Env}.

Lemma guard_bind {A : Type} T c Q (m : M A) (k : A -> M unit) :
  quiet (calm T) m -> (forall a, guard T c Q (k a)) -> guard T c Q (bind m k).
Proof.
  intros Hm Hk w. destruct (calm_split _ _ (Hm w)) as [Hr Ht].
  unfold bind. destruct (out (m w)) as [a | | | ]; cbn [log out];
    try (rewrite Ht; discriminate).
  rewrite existsb_app, Ht. cbn [orb]. intros E.
  destruct (Hk a _ E) as (K1 & K2 & K3).
  rewrite forallb_app, Hr, K1. repeat split; auto using in_or_app.
Qed.

Lemma guard_quiet T c Q (m : M unit) : quiet (never T) m -> guard T c Q m.
Proof. intros Hm w E. rewrite (never_none _ _ (Hm w)) in E. discriminate. Qed.

(** The confirmation gate itself. *)
Lemma guard_confirm (message : string) (c : text) (post : M unit) :
  quiet (never is_confirm) post ->
  guard declined (warning_line c) back_to_caller
    (ok <- confirm_action message ;; if negb ok then print_warning c else post).
Proof.
  intros Hp w. cbv beta delta [confirm_action bind input confirm_prompt ret].
  destruct (stdin w) as [ | [s | ] rest]; cbn; try discriminate.
  destruct (is_yes (lower (strip s))); cbn.
  - intros E. exfalso.
    assert (F : existsb declined (log (post (set_stdin rest w))) = false).
    { specialize (Hp (set_stdin rest w)). revert Hp.
      generalize (log (post (set_stdin rest w))). intros l.
      induction l as [ | e l IH]; cbn; [reflexivity | ].
      intros E'. apply andb_true_iff in E' as [E1 E2]. rewrite (IH E2), orb_false_r.
      unfold never in E1. apply negb_true_iff in E1.
      destruct e as [ | t | [ | [ | | [] ] p] r | ]; cbn in *; try reflexivity;
        discriminate. }
    rewrite F in E. discriminate.
  - intros _. repeat split. right. left. reflexivity.
Qed.

(** A field whose answer is the trigger. *)
Lemma guard_get_input (prompt default shown : string) (bad : string -> bool)
      (c : text) Q (k : string -> M unit) :
  (forall r, answered shown bad
               (Asked (if negb (is_empty default)
                       then [Lit prompt; Lit " ["; Lit default; Lit "]: "]
                       else [Lit prompt; Lit ": "]) (Some (Line r))) = bad r) ->
  (forall x, quiet (never (answered shown bad)) (k x)) ->
  (forall line w, bad line = true ->
     forallb no_run (log (k (entered default line) w)) = true
     /\ In (Print c) (log (k (entered default line) w))
     /\ Q (out (k (entered default line) w))) ->
  guard (answered shown bad) c Q (bind (get_input prompt default) k).
Proof.
  intros Hshown Hk Hbad w. unfold get_input, entered in *.
  destruct (negb (is_empty default));
    cbv beta delta [bind input ret];
    (destruct (stdin w) as [ | [s | ] rest]; cbn [out world log];
     try (cbn; discriminate));
    rewrite app_nil_r;
    repeat match goal with
           | |- context [[?e] ++ ?l] => change ([e] ++ l) with (e :: l)
           end;
    cbn [existsb forallb no_run andb In];
    rewrite Hshown, (never_none _ _ (Hk _ _)), orb_false_r;
    (let T := fresh in
     intros T; destruct (Hbad s (set_stdin rest w) T) as (B1 & B2 & B3);
     repeat split; [exact B1 | right; exact B2 | exact B3]).
Qed.

End Guard.

(** Walks through an operation up to its confirmation. *)
Ltac guard_step :=
  lazymatch goal with
  | |- guard _ _ _ (bind (confirm_action _) _) =>
      apply guard_confirm; quiet_tac
  | |- guard _ _ _ (bind (get_input _ _) _) =>
      first [ apply guard_bind; [solve [quiet_tac] | intros ?]
            | apply guard_get_input; [intros ?; reflexivity | intros ?; quiet_tac | ] ]
  | |- guard _ _ _ (bind _ _) => apply guard_bind; [quiet_tac | intros ?]
  | |- guard _ _ _ (if ?b then _ else _) => destruct b
  | |- guard _ _ _ (match ?x with _ => _ end) => destruct x
  | |- guard _ _ _ _ => apply guard_quiet; quiet_tac
  end.

Section Gate.
Context `{Env}.

Lemma perform_guarded (op : operation) :
  guard declined (warning_line [Lit (cancellation op)]) back_to_caller (perform op).
Proof.
  destruct op; cbn [perform cancellation];
    match goal with |- guard _ _ _ (?f _) => unfold f end; repeat guard_step.
Qed.

(** C1. For each of the twelve deployment and configuration operations,
    on ASCII input: when the operator's answer to the operation's
    confirmation question is anything but [y] or [yes] (blanks around it
    and letter case set aside), the operation starts no backend process,
    prints its cancellation message, and returns to the menu handler that
    called it. *)
Theorem decline_cancels (op : operation) (w : World) (answer : string) :
  ascii_input w = true ->
  In (Asked (confirm_prompt (question op)) (Some (Line answer))) (log (perform op w)) ->
  is_yes (lower (strip answer)) = false ->
  (forall cmd cwd, ~ In (Run cmd cwd) (log (perform op w)))
  /\ In (Print (warning_line [Lit (cancellation op)])) (log (perform op w))
  /\ out (perform op w) = Ret tt.
Proof.
  intros _ I No.
  assert (E : existsb declined (log (perform op w)) = true).
  { apply existsb_exists. eexists. split; [exact I | ].
    cbn. rewrite No. reflexivity. }
  destruct (perform_guarded op w E) as (G1 & G2 & G3).
  repeat split; auto using no_run_In.
Qed.

End Gate.

Lemma decline_cancels_witness :
  (forall cmd cwd,
     ~ In (Run cmd cwd) (log (perform (H := lab 0) ConfigureVds (lab_world ["No"]))))
  /\ In (Print (warning_line [Lit "VDS configuration cancelled."]))
        (log (perform (H := lab 0) ConfigureVds (lab_world ["No"])))
  /\ out (perform (H := lab 0) ConfigureVds (lab_world ["No"])) = Ret tt.
Proof.
  apply (decline_cancels (H := lab 0) ConfigureVds (lab_world ["No"]) "No").
  - reflexivity.
  - vm_compute. repeat (first [left; reflexivity | right]).
  - reflexivity.
Defined.

Section Validation.
Context `{Env}.

Lemma not_mem_get {V : Type} (d : list (string * V)) (k : string) :
  negb (dict_mem k d) = true -> dict_get d k = None.
Proof. unfold dict_mem. destruct (dict_get d k); [discriminate | reflexivity]. Qed.

Lemma check_guarded (c : check) :
  exists shown,
    (forall line, answered shown (rejected c) (Asked (check_prompt c) (Some (Line line)))
                  = rejected c line)
    /\ guard (answered shown (rejected c)) (error_line [Lit (complaint c)]) (check_end c)
         (perform (check_operation c)).
Proof.
  destruct c; cbn [check_operation perform complaint check_end check_prompt].
  - exists "Select template: ". split; [reflexivity | ].
    unfold deploy_vm_from_template. repeat guard_step.
    intros line w Bad. cbn [rejected entered negb is_empty] in *.
    apply andb_true_iff in Bad as [B1 B2]. apply negb_true_iff in B1.
    rewrite B1, (not_mem_get _ _ B2).
    cbv beta delta [bind print_error print emit input ret back_or_left]. cbn.
    destruct (stdin w) as [ | [s | ] rest]; cbn; auto 6.
  - exists "Enter VM Name (e.g., splunk-prod-01): ". split; [reflexivity | ].
    unfold deploy_vm_from_template. repeat guard_step.
    intros line w Bad. cbn [rejected entered negb is_empty] in *. rewrite Bad.
    cbn. unfold back_to_caller. auto.
  - exists "Enter Size [Medium]: ". split; [reflexivity | ].
    unfold deploy_vm_from_template. repeat guard_step.
    intros line w Bad. cbn [rejected] in Bad. rewrite (not_mem_get _ _ Bad).
    cbn. unfold back_to_caller. auto.
  - exists "Enter VM Name (e.g., rhel-web-01): ". split; [reflexivity | ].
    unfold deploy_standard_vm. repeat guard_step.
    intros line w Bad. cbn [rejected entered negb is_empty] in *. rewrite Bad.
    cbn. unfold back_to_caller. auto.
  - exists "Select OS Type [1]: ". split; [reflexivity | ].
    unfold deploy_standard_vm. repeat guard_step.
    intros line w Bad. cbn [rejected] in Bad. rewrite (not_mem_get _ _ Bad).
    cbn. unfold back_to_caller. auto.
  - exists "Enter Size [Small]: ". split; [reflexivity | ].
    unfold deploy_standard_vm. repeat guard_step.
    intros line w Bad. cbn [rejected] in Bad. rewrite (not_mem_get _ _ Bad).
    cbn. unfold back_to_caller. auto.
Qed.

(** C2, as the program has it. In the two VM deployments, on ASCII
    input, a line the operator types at a checked field - an empty VM
    name, a template
    selector that is neither B nor a key of the template catalog, an OS-type
    selector or a size name that is no key of its catalog (the default
    standing in for an empty line) - ends the operation: no backend process
    is started, the field's error message is printed, and the operation
    returns to its caller (after the template complaint it first waits for
    the operator). The IP address and the tag name are not among the
    checked fields. *)
Theorem rejected_field_aborts (c : check) (w : World) (line : string) :
  ascii_input w = true ->
  In (Asked (check_prompt c) (Some (Line line))) (log (perform (check_operation c) w)) ->
  rejected c line = true ->
  (forall cmd cwd, ~ In (Run cmd cwd) (log (perform (check_operation c) w)))
  /\ In (Print (error_line [Lit (complaint c)])) (log (perform (check_operation c) w))
  /\ check_end c (out (perform (check_operation c) w)).
Proof.
  intros _ I Bad. destruct (check_guarded c) as (shown & S & G).
  assert (E : existsb (answered shown (rejected c))
                (log (perform (check_operation c) w)) = true).
  { apply existsb_exists. eexists. split; [exact I | ]. rewrite S. exact Bad. }
  destruct (G w E) as (G1 & G2 & G3).
  repeat split; auto using no_run_In.
Qed.

End Validation.

Lemma rejected_field_aborts_witness :
  (forall cmd cwd,
     ~ In (Run cmd cwd)
          (log (perform (H := lab 0) DeployTemplateVM (lab_world ["1"; "vm01"; "2"]))))
  /\ In (Print (error_line [Lit "Invalid size selection."]))
        (log (perform (H := lab 0) DeployTemplateVM (lab_world ["1"; "vm01"; "2"])))
  /\ out (perform (H := lab 0) DeployTemplateVM (lab_world ["1"; "vm01"; "2"])) = Ret tt.
Proof.
  apply (rejected_field_aborts (H := lab 0) TemplateSize (lab_world ["1"; "vm01"; "2"]) "2").
  - reflexivity.
  - vm_compute. repeat (first [left; reflexivity | right]).
  - reflexivity.
Defined.

(** C2 as stated fails: with the IP address and the tag name both left
    empty, a confirmed template deployment still starts the backend. *)
Lemma empty_ip_and_tag_still_deploy :
  let r := perform (H := lab 0) DeployTemplateVM
             (lab_world ["1"; "vm01"; "Medium"; ""; ""; ""; ""; "y"; ""]) in
  In (Asked [Lit "Enter IP Address (e.g., 192.168.1.100)"; Lit ": "] (Some (Line ""))) (log r)
  /\ In (Asked [Lit "Enter Tag Name (e.g., Production-App)"; Lit ": "] (Some (Line ""))) (log r)
  /\ existsb is_run (log r) = true.
Proof.
  vm_compute. repeat split; repeat (first [left; reflexivity | right]).
Qed.

(** ** Catalog lookups *)

(** C3 as stated fails: the size catalog has no key [2], and a standard
    deployment answered [2] at the size prompt ends with the size error
    before any backend run. *)
Lemma size_selector_2_is_no_key :
  dict_get VM_SIZES "2" = None
  /\ In (Print (error_line [Lit "Invalid size selection."]))
        (log (perform (H := lab 0) DeployStandardVM (lab_world ["web01"; "1"; "2"])))
  /\ existsb is_run
        (log (perform (H := lab 0) DeployStandardVM (lab_world ["web01"; "1"; "2"]))) = false.
Proof.
  vm_compute. repeat split. repeat (first [left; reflexivity | right]).
Qed.

(** C3, as the program has it. The size catalog is keyed by name: the
    name [Medium], its second entry and the default of the template
    deployment, resolves to 4 CPUs, 8 GB of memory and a 100 GB disk; the
    selector [2] resolves to nothing and is a rejected size. *)
Theorem medium_size_spec :
  dict_get VM_SIZES "Medium" = Some (mkSize 4 8 100)
  /\ nth_error VM_SIZES 1 = Some ("Medium", mkSize 4 8 100)
  /\ dict_get VM_SIZES (entered "Medium" "") = Some (mkSize 4 8 100)
  /\ dict_get VM_SIZES "2" = None
  /\ rejected TemplateSize "2" = true
  /\ rejected StandardSize "2" = true.
Proof. repeat split. Qed.


(** ** Running a computation on a known world *)

Section Run.
Context `{Env}.

Lemma run_bind_ret {A B : Type} (m : M A) (k : A -> M B) w a w1 l1 o w2 l2 :
  m w = mkRes (Ret a) w1 l1 -> k a w1 = mkRes o w2 l2 ->
  bind m k w = mkRes o w2 (l1 ++ l2).
Proof. intros E1 E2. unfold bind. rewrite E1. cbn. rewrite E2. reflexivity. Qed.

Lemma run_bind_exit {A B : Type} (m : M A) (k : A -> M B) w c w1 l1 :
  m w = mkRes (Exit c) w1 l1 -> bind m k w = mkRes (Exit c) w1 l1.
Proof. intros E1. unfold bind. rewrite E1. reflexivity. Qed.

Lemma run_bind_raise {A B : Type} (m : M A) (k : A -> M B) w e w1 l1 :
  m w = mkRes (Raise e) w1 l1 -> bind m k w = mkRes (Raise e) w1 l1.
Proof. intros E1. unfold bind. rewrite E1. reflexivity. Qed.

Lemma run_bind_nofuel {A B : Type} (m : M A) (k : A -> M B) w w1 l1 :
  m w = mkRes NoFuel w1 l1 -> bind m k w = mkRes NoFuel w1 l1.
Proof. intros E1. unfold bind. rewrite E1. reflexivity. Qed.

Lemma input_line (prompt : text) (w : World) (s : string) (rest : list key) :
  stdin w = Line s :: rest ->
  input prompt w = mkRes (Ret s) (set_stdin rest w) [Asked prompt (Some (Line s))].
Proof. intros E. unfold input. rewrite E. reflexivity. Qed.

Lemma input_interrupt (prompt : text) (w : World) (rest : list key) :
  stdin w = CtrlC :: rest ->
  input prompt w =
  mkRes (Raise KeyboardInterrupt) (set_stdin rest w) [Asked prompt (Some CtrlC)].
Proof. intros E. unfold input. rewrite E. reflexivity. Qed.

Lemma input_eof (prompt : text) (w : World) :
  stdin w = [] -> input prompt w = mkRes (Raise EOFError) w [Asked prompt None].
Proof. intros E. unfold input. rewrite E. reflexivity. Qed.

Lemma load_config_parsed (w : World) (content : string) (d : json) :
  fs w CONFIG_FILE = Some content -> json_loads content = Parsed d ->
  load_config w = mkRes (Ret d) w [].
Proof. intros E1 E2. unfold load_config. rewrite E1, E2. reflexivity. Qed.

Lemma load_config_missing (w : World) :
  fs w CONFIG_FILE = None ->
  load_config w =
  mkRes (Exit 1) w
    [Print (error_line [Lit "Configuration file not found: "; Lit CONFIG_FILE])].
Proof. intros E1. unfold load_config. rewrite E1. reflexivity. Qed.

Lemma load_config_malformed (w : World) (content msg : string) :
  fs w CONFIG_FILE = Some content -> json_loads content = DecodeError msg ->
  load_config w =
  mkRes (Exit 1) w
    [Print (error_line [Lit "Invalid JSON in configuration file: "; Lit msg])].
Proof. intros E1 E2. unfold load_config. rewrite E1, E2. reflexivity. Qed.

Lemma load_config_failed (w : World) (content : string) (e : exn) :
  fs w CONFIG_FILE = Some content -> json_loads content = Failed e ->
  load_config w = mkRes (Raise e) w [].
Proof. intros E1 E2. unfold load_config. rewrite E1, E2. reflexivity. Qed.

Lemma subprocess_run_started (cmd : list text) (rc : Z) (w : World) :
  spawn cmd = Some rc -> subprocess_run cmd w = mkRes (Ret rc) w [Run cmd SCRIPT_DIR].
Proof. intros E. unfold subprocess_run. rewrite E. reflexivity. Qed.

Lemma except_passes {A : Type} (m handler : M A) (w w' : World) o l :
  m w = mkRes o w' l -> o <> Raise KeyboardInterrupt ->
  except_KeyboardInterrupt m handler w = mkRes o w' l.
Proof.
  intros E N. unfold except_KeyboardInterrupt. rewrite E. cbn.
  destruct o as [a | c | e | ]; try reflexivity.
  destruct e; try reflexivity. destruct N. reflexivity.
Qed.

Lemma subprocess_run_failed (cmd : list text) (w : World) :
  spawn cmd = None ->
  subprocess_run cmd w = mkRes (Raise FileNotFoundError) w [Run cmd SCRIPT_DIR].
Proof. intros E. unfold subprocess_run. rewrite E. reflexivity. Qed.

End Run.

(** Solves [m w = mkRes ?o ?w' ?l] by following [m], reading the operator's
    keys and the tests of the branches from the hypotheses. *)
Ltac run_test :=
  match goal with
  | E : ?b = _ |- (if ?b then _ else _) _ = _ => rewrite E
  | E : ?x = _ |- (match ?x with _ => _ end) _ = _ => rewrite E
  | |- (if ?b then _ else _) _ = _ =>
      let v := eval vm_compute in b in
      lazymatch v with
      | true => change b with true
      | false => change b with false
      end
  | |- (match ?x with _ => _ end) _ = _ =>
      let v := eval vm_compute in x in change x with v
  end; cbv beta iota.

Ltac run :=
  cbv beta iota zeta;
  lazymatch goal with
  | E : ?m ?w = _ |- ?m ?w = _ => exact E
  | |- bind _ _ _ = _ =>
      first [ eapply run_bind_ret; [run | run]
            | eapply run_bind_exit; run
            | eapply run_bind_raise; run
            | eapply run_bind_nofuel; run ]
  | |- input _ _ = _ =>
      first [ eapply input_line; cbn [stdin set_stdin]; first [eassumption | reflexivity]
            | eapply input_interrupt; cbn [stdin set_stdin]; first [eassumption | reflexivity]
            | eapply input_eof; cbn [stdin set_stdin]; first [eassumption | reflexivity] ]
  | |- load_config _ = _ =>
      first [ eapply load_config_parsed; cbn [fs set_stdin]; eassumption
            | eapply load_config_missing; cbn [fs set_stdin]; eassumption
            | eapply load_config_malformed; cbn [fs set_stdin]; eassumption
            | eapply load_config_failed; cbn [fs set_stdin]; eassumption ]
  | |- except_KeyboardInterrupt _ _ _ = _ => eapply except_passes; [run | discriminate]
  | |- while_true (S _) _ _ = _ => cbn [while_true]; run
  | |- subprocess_run _ _ = _ =>
      first [ eapply subprocess_run_started; eassumption
            | eapply subprocess_run_failed; eassumption ]
  | |- ret _ _ = _ => reflexivity
  | |- lift _ _ = _ => reflexivity
  | |- sys_exit _ _ = _ => reflexivity
  | |- raise _ _ = _ => reflexivity
  | |- emit _ _ = _ => reflexivity
  | |- print _ _ = _ => reflexivity
  | |- clear_screen _ = _ => reflexivity
  | |- path_exists _ _ = _ => reflexivity
  | |- Colors_disable _ = _ => reflexivity
  | |- (if _ then _ else _) _ = _ => run_test; run
  | |- (match _ with _ => _ end) _ = _ => run_test; run
  | |- for_each ?xs _ _ = _ =>
      let ys := eval hnf in xs in
      change xs with ys; progress cbn [for_each]; run
  | |- get _ _ _ = _ => cbn [get]; run
  | |- ?f _ _ _ _ _ = _ => unfold f; run
  | |- ?f _ _ _ _ = _ => unfold f; run
  | |- ?f _ _ _ = _ => unfold f; run
  | |- ?f _ _ = _ => unfold f; run
  | |- ?f _ = _ => unfold f; run
  end.

(** ** Reports of the exit status *)

Lemma In_no_run (l : list event) cmd cwd :
  forallb no_run l = true -> In (Run cmd cwd) l -> False.
Proof. intros E I. exact (no_run_In l E cmd cwd I). Qed.

Section Reports.
Context `{Env}.

Lemma reports_quiet (m : M unit) : quiet no_run m -> reports m.
Proof. intros Q w cmd cwd rc I _. destruct (In_no_run _ _ _ (Q w) I). Qed.

Lemma reports_bind {A : Type} (m : M A) (k : A -> M unit) :
  quiet no_run m -> (forall a, reports (k a)) -> reports (bind m k).
Proof.
  intros Q K w cmd cwd rc. unfold bind. specialize (Q w).
  destruct (out (m w)) as [a | | | ]; cbn [log out]; intros I S;
    try (destruct (In_no_run _ _ _ Q I)).
  apply in_app_or in I as [I | I]; [destruct (In_no_run _ _ _ Q I) | ].
  destruct (K a _ _ _ _ I S) as (before & verdict & reply & E1 & E2 & E3 & E4).
  exists (log (m w) ++ before), verdict, reply.
  rewrite E1, app_assoc, forallb_app, Q, E2. auto.
Qed.

(** The tail of an operation: one run, its report, the wait. *)
Lemma reports_run (cmd0 : list text) (intro : text) (success failure : text) :
  reports
    (result <- (print_info intro ;;
                print (rule "─" 50) ;;
                result <- subprocess_run cmd0 ;;
                print (rule "─" 50) ;;
                ret result) ;;
     report result success failure).
Proof.
  intros w cmd cwd rc I S.
  destruct (spawn cmd0) as [rc0 | ] eqn:S0;
    [ destruct (rc0 =? 0)%Z eqn:Z0; destruct (stdin w) as [ | [s | ] rest] eqn:E | ];
    match type of I with
    | In _ (log (?m w)) =>
        let R := fresh "R" in
        eassert (R : m w = mkRes _ _ _) by run;
        rewrite R in *; clear R; cbn [log out app] in *
    end;
    repeat (destruct I as [I | I]; try discriminate I); try contradiction;
    injection I as <- <-; rewrite S in S0; try discriminate S0; injection S0 as <-;
    eexists [_; _], _, _; (split; [reflexivity | ]); (split; [reflexivity | ]);
    (split; [unfold reported; rewrite Z0; eexists; reflexivity | reflexivity]).
Qed.

End Reports.

Ltac reports_step :=
  lazymatch goal with
  | |- reports (bind (run_powershell_command _) _) =>
      unfold run_powershell_command; apply reports_run
  | |- reports (bind (run_powershell _ _) _) =>
      unfold run_powershell; apply reports_run
  | |- reports (bind _ _) => apply reports_bind; [quiet_tac | intros ?]
  | |- reports (if ?b then _ else _) => destruct b
  | |- reports (match ?x with _ => _ end) => destruct x
  | |- reports (let x := _ in _) => cbv zeta
  | |- reports _ => apply reports_quiet; quiet_tac
  end.

Section ReportsAll.
Context `{Env}.

(** C4, as the program has it. In each of the twelve deployment and
    configuration operations, a backend run that ends with an exit status
    is followed at once by one report - a success message for status zero,
    otherwise an error message that ends with the status - and by the wait
    for the operator; it is the only process the operation starts, and the
    operation then returns to its caller when the operator presses Enter
    (Ctrl-C or the end of input raise there; the process never exits). The
    status query is outside this statement: it ignores the exit status. *)
Theorem invocation_reported (op : operation) (w : World)
        (cmd : list text) (cwd : string) (returncode : Z) :
  In (Run cmd cwd) (log (perform op w)) -> spawn cmd = Some returncode ->
  exists before verdict reply,
    log (perform op w) =
      before ++ [Run cmd cwd; Print (rule "─" 50); Print verdict; Asked press_enter reply]
    /\ forallb no_run before = true
    /\ reported returncode verdict
    /\ out (perform op w) = acknowledged reply.
Proof.
  revert w cmd cwd returncode. change (reports (perform op)).
  destruct op; cbn [perform];
    match goal with |- reports (?f _) => unfold f end; repeat reports_step.
Qed.

End ReportsAll.

Lemma invocation_reported_witness :
  exists before verdict reply,
    log (perform (H := lab 7) DeployDatacenter (lab_world ["yes"; ""])) =
      before
      ++ [Run [[Lit "powershell.exe"]; [Lit "-ExecutionPolicy"]; [Lit "Bypass"];
               [Lit "-Command"]; deploy_datacenter_ps_command (H := lab 7)] "C:\ecst";
          Print (rule "─" 50); Print verdict; Asked press_enter reply]
    /\ forallb no_run before = true
    /\ reported 7 verdict
    /\ out (perform (H := lab 7) DeployDatacenter (lab_world ["yes"; ""])) = acknowledged reply.
Proof.
  apply (invocation_reported (H := lab 7) DeployDatacenter (lab_world ["yes"; ""])
           [[Lit "powershell.exe"]; [Lit "-ExecutionPolicy"]; [Lit "Bypass"];
            [Lit "-Command"]; deploy_datacenter_ps_command (H := lab 7)] "C:\ecst" 7).
  - vm_compute. repeat (first [left; reflexivity | right]).
  - reflexivity.
Defined.

(** C4 as stated fails: the status query runs the backend and prints neither
    a success nor an error message, whatever the exit status. *)
Lemma status_query_reports_nothing :
  let r := show_status (H := lab 1) (lab_world [""]) in
  existsb is_run (log r) = true /\ existsb is_report (log r) = false /\ out r = Ret tt.
Proof. vm_compute. repeat split. Qed.

(** ** Start-up and normal quit *)

Section Inert.
Context `{Env}.

Lemma inert_ret {A : Type} (a : A) : inert (ret a).
Proof. intros w. reflexivity. Qed.

Lemma inert_lift {A : Type} (o : outcome A) : inert (lift o).
Proof. intros w. reflexivity. Qed.

Lemma inert_emit (e : event) : inert (emit e).
Proof. intros w. reflexivity. Qed.

Lemma inert_bind {A B : Type} (m : M A) (k : A -> M B) :
  inert m -> (forall a, inert (k a)) -> inert (bind m k).
Proof.
  intros Hm Hk w. unfold bind. specialize (Hm w).
  destruct (out (m w)); cbn [world]; trivial.
  rewrite Hm. apply Hk.
Qed.

Lemma inert_load_config : inert load_config.
Proof.
  intros w. unfold load_config. destruct (fs w CONFIG_FILE) as [content | ];
    [destruct (json_loads content) | ]; reflexivity.
Qed.

Lemma inert_get (path : list string) : forall v, inert (get v path).
Proof.
  induction path as [ | k path IH]; intros v; cbn [get].
  - apply inert_ret.
  - apply inert_bind; [apply inert_lift | auto].
Qed.

Lemma inert_display_main_menu : inert display_main_menu.
Proof.
  unfold display_main_menu, print_header, clear_screen, print.
  repeat first [ apply inert_emit | apply inert_load_config | apply inert_get
               | apply inert_bind; [ | intros ? ] ].
Qed.

(** A main menu that was displayed in full. *)
Lemma display_main_menu_shown (w : World) :
  out (display_main_menu w) = Ret tt ->
  display_main_menu w = mkRes (Ret tt) w (log (display_main_menu w)).
Proof.
  intros E. pose proof (inert_display_main_menu w) as W.
  destruct (display_main_menu w) as [o w' l]. cbn in *. subst. reflexivity.
Qed.

End Inert.

Section Startup.
Context `{Env}.

Lemma startup_prefix (w : World) :
  (if negb (os_name =? "nt") then
     Colors_disable ;;
     print_warning [Lit "This tool is designed for Windows with PowerShell."] ;;
     print_warning [Lit "Some features may not work correctly on other platforms."]
   else ret tt) w
  = mkRes (Ret tt) (after_startup w) platform_warnings.
Proof.
  unfold after_startup, platform_warnings. destruct (negb (os_name =? "nt")); reflexivity.
Qed.

Lemma fs_after_startup (w : World) : fs (after_startup w) = fs w.
Proof. unfold after_startup. destruct (negb (os_name =? "nt")); reflexivity. Qed.

Lemma stdin_after_startup (w : World) : stdin (after_startup w) = stdin w.
Proof. unfold after_startup. destruct (negb (os_name =? "nt")); reflexivity. Qed.

End Startup.


(** ** The menus *)

Section Menus.
Context `{Env}.

Lemma display_shown (m : menu) (w : World) :
  out (display m w) = Ret tt -> display m w = mkRes (Ret tt) w (log (display m w)).
Proof.
  destruct m; cbn [display]; [apply display_main_menu_shown | | | ]; reflexivity.
Qed.

Lemma while_true_continue (n : nat) (body : M ctl) (w w' : World) (l : list event) :
  body w = mkRes (Ret Continue) w' l ->
  while_true (S n) body w =
  mkRes (out (while_true n body w')) (world (while_true n body w'))
        (l ++ log (while_true n body w')).
Proof. intros E. cbn [while_true]. unfold bind. rewrite E. reflexivity. Qed.

Lemma while_true_break (n : nat) (body : M ctl) (w w' : World) (l : list event) :
  body w = mkRes (Ret Break) w' l -> while_true (S n) body w = mkRes (Ret tt) w' (l ++ []).
Proof. intros E. cbn [while_true]. unfold bind. rewrite E. reflexivity. Qed.

(** Turns [existsb (String.eqb c) tokens = false] into one fact per token. *)
Ltac split_tokens Hc :=
  cbn [existsb tokens] in Hc;
  repeat (let T := fresh "T" in apply orb_false_iff in Hc as [T Hc]).

Lemma invalid_token_pass (m : menu) (fuel : nat) (w : World)
      (line ack : string) (rest : list key) :
  stdin w = Line line :: Line ack :: rest ->
  existsb (String.eqb (upper (strip line))) (tokens m) = false ->
  out (display m w) = Ret tt ->
  menu_pass m fuel w =
  mkRes (Ret Continue) (set_stdin rest w) (invalid_pass_log m w line ack).
Proof.
  intros Keys Hc Shown. pose proof (display_shown m w Shown) as D.
  assert (R : exists l, menu_pass m fuel w = mkRes (Ret Continue) (set_stdin rest w) l
                        /\ l = invalid_pass_log m w line ack).
  { destruct m; cbn [display] in D; split_tokens Hc; cbn [menu_pass];
      try assert (X : existsb (String.eqb (upper (strip line))) ["2"; "3"; "4"; "5"; "6"]
                      = false)
        by (cbn [existsb]; rewrite T2, T3, T4, T5, T6; reflexivity);
      (eexists; split;
       [ run | unfold invalid_pass_log; cbn [app display]; rewrite app_nil_r; reflexivity ]). }
  destruct R as (l & R & L). rewrite R, L. reflexivity.
Qed.

Lemma quit_token_pass (fuel : nat) (w : World) (line : string) (rest : list key) :
  stdin w = Line line :: rest -> upper (strip line) = "Q" ->
  out (display MainMenu w) = Ret tt ->
  out (menu_pass MainMenu fuel w) = Exit 0.
Proof.
  intros Keys Quit Shown. pose proof (display_shown _ w Shown) as D. cbn [display] in D.
  assert (R : exists w' l, menu_pass MainMenu fuel w = mkRes (Exit 0) w' l).
  { do 2 eexists. cbn [menu_pass]. eapply except_passes; [ | discriminate].
    unfold main_menu_pass. eapply run_bind_ret; [exact D | ].
    eapply run_bind_ret; [run | ]. cbv beta zeta. rewrite Quit.
    cbv beta iota delta [String.eqb Ascii.eqb Bool.eqb]. run. }
  destruct R as (w' & l & R). rewrite R. reflexivity.
Qed.

Lemma back_token_pass (m : menu) (fuel : nat) (w : World) (line : string) (rest : list key) :
  m <> MainMenu ->
  stdin w = Line line :: rest -> upper (strip line) = "B" ->
  menu_pass m fuel w =
  mkRes (Ret Break) (set_stdin rest w)
        (log (display m w) ++ [Asked [Lit "Select option"; Lit ": "] (Some (Line line))]).
Proof.
  intros Sub Keys Back.
  assert (R : exists l, menu_pass m fuel w = mkRes (Ret Break) (set_stdin rest w) l
                        /\ l = log (display m w)
                               ++ [Asked [Lit "Select option"; Lit ": "] (Some (Line line))]).
  { destruct m; [destruct Sub; reflexivity | | | ]; cbn [menu_pass];
      (eexists; split;
       [ match goal with |- ?f _ _ = _ => unfold f end;
         eapply run_bind_ret; [run | ]; eapply run_bind_ret; [run | ];
         cbv beta zeta; rewrite Back;
         cbv beta iota delta [String.eqb Ascii.eqb Bool.eqb]; run
       | cbn [app display]; rewrite app_nil_r; reflexivity ]). }
  destruct R as (l & R & L). rewrite R, L. reflexivity.
Qed.

(** The handler of a submenu is the loop over its passes. *)
Lemma submenu_handler_loop (m : menu) (fuel : nat) :
  m <> MainMenu -> submenu_handler m fuel = while_true fuel (menu_pass m fuel).
Proof.
  intros Sub. destruct m; [destruct Sub; reflexivity | | | ];
    cbn [submenu_handler menu_pass];
    match goal with |- ?f _ _ = _ => unfold f end; reflexivity.
Qed.

(** Entering a submenu from the main menu: when the handler of the submenu
    returns, the pass of the main menu asks for the main menu to continue. *)
Lemma enter_submenu (m : menu) (fuel : nat) (w : World) (line : string) (rest : list key)
      (w2 : World) (l2 : list event) :
  m <> MainMenu ->
  stdin w = Line line :: rest ->
  upper (strip line) = opening_token m ->
  display_main_menu w = mkRes (Ret tt) w (log (display_main_menu w)) ->
  submenu_handler m fuel (set_stdin rest w) = mkRes (Ret tt) w2 l2 ->
  exists l, main_menu_pass fuel w = mkRes (Ret Continue) w2 l.
Proof.
  intros Sub Keys Open D P.
  destruct m; [destruct Sub; reflexivity | | | ]; cbn [submenu_handler opening_token] in *;
    (eexists; unfold main_menu_pass; eapply run_bind_ret; [exact D | ];
     eapply run_bind_ret; [run | ]; cbv beta zeta; rewrite Open;
     cbv beta iota delta [String.eqb Ascii.eqb Bool.eqb];
     eapply run_bind_ret; [exact P | reflexivity]).
Qed.

(** Entering a submenu from the main menu and leaving it with B. *)
Lemma back_to_main (m : menu) (fuel : nat) (w : World) (line back : string) (rest : list key) :
  m <> MainMenu ->
  stdin w = Line line :: Line back :: rest ->
  upper (strip line) = opening_token m -> upper (strip back) = "B" ->
  out (display MainMenu w) = Ret tt ->
  out (menu_pass MainMenu (S fuel) w) = Ret Continue
  /\ world (menu_pass MainMenu (S fuel) w) = set_stdin rest w.
Proof.
  intros Sub Keys Open Back Shown.
  pose proof (display_shown _ w Shown) as D. cbn [display] in D.
  pose proof (back_token_pass m (S fuel) (set_stdin (Line back :: rest) w) back rest
                Sub eq_refl Back) as P.
  apply (while_true_break fuel) in P.
  rewrite <- (submenu_handler_loop m (S fuel) Sub) in P.
  destruct (enter_submenu m (S fuel) w line (Line back :: rest) _ _ Sub Keys Open D P)
    as (l & R).
  cbn [menu_pass]. rewrite (except_passes _ on_interrupt _ _ _ _ R); [ | discriminate].
  split; reflexivity.
Qed.

(** C9. In each of the four menus, an ASCII choice that is none of the
    menu's tokens, acknowledged with Enter, makes the handler print the
    invalid-option error and go round its loop again: the pass asks for
    the same menu to continue, and the loop goes on with that menu on the
    rest of the input. Q ends the process, with status 0, from the main
    menu only: in a submenu it is no token. B ends the loop of a submenu
    and hands control back to the loop of the main menu, where B is no
    token either. *)
Theorem menu_dispatch (m : menu) (fuel : nat) (w : World) :
  (forall line ack rest,
     stdin w = Line line :: Line ack :: rest ->
     plain_ascii line = true ->
     existsb (String.eqb (upper (strip line))) (tokens m) = false ->
     out (display m w) = Ret tt ->
     menu_pass m fuel w
     = mkRes (Ret Continue) (set_stdin rest w) (invalid_pass_log m w line ack)
     /\ In (Print (error_line [Lit "Invalid option. Please try again."]))
           (log (menu_pass m fuel w))
     /\ forall n,
          while_true (S n) (menu_pass m fuel) w
          = mkRes (out (while_true n (menu_pass m fuel) (set_stdin rest w)))
                  (world (while_true n (menu_pass m fuel) (set_stdin rest w)))
                  (invalid_pass_log m w line ack
                   ++ log (while_true n (menu_pass m fuel) (set_stdin rest w))))
  /\ (forall line rest,
        stdin w = Line line :: rest -> upper (strip line) = "Q" ->
        out (display m w) = Ret tt ->
        if existsb (String.eqb "Q") (tokens m)
        then m = MainMenu /\ out (menu_pass m fuel w) = Exit 0
        else m <> MainMenu /\ existsb (String.eqb (upper (strip line))) (tokens m) = false)
  /\ (forall line rest,
        stdin w = Line line :: rest -> upper (strip line) = "B" ->
        if existsb (String.eqb "B") (tokens m)
        then m <> MainMenu
             /\ out (menu_pass m fuel w) = Ret Break
             /\ (forall n, out (while_true (S n) (menu_pass m fuel) w) = Ret tt
                           /\ world (while_true (S n) (menu_pass m fuel) w) = set_stdin rest w)
        else m = MainMenu /\ existsb (String.eqb (upper (strip line))) (tokens m) = false)
  /\ (forall line back rest,
        m <> MainMenu ->
        stdin w = Line line :: Line back :: rest ->
        upper (strip line) = opening_token m -> upper (strip back) = "B" ->
        out (display MainMenu w) = Ret tt ->
        out (menu_pass MainMenu (S fuel) w) = Ret Continue
        /\ world (menu_pass MainMenu (S fuel) w) = set_stdin rest w).
Proof.
  split; [ | split; [ | split]].
  - intros line ack rest Keys _ Unknown Shown.
    pose proof (invalid_token_pass m fuel w line ack rest Keys Unknown Shown) as P.
    split; [exact P | split].
    + rewrite P. cbn [log]. unfold invalid_pass_log. apply in_or_app. right.
      right. left. reflexivity.
    + intros n. apply while_true_continue. exact P.
  - intros line rest Keys Quit Shown. destruct m; cbn [tokens existsb String.eqb Ascii.eqb Bool.eqb orb];
      [ split; [reflexivity | eapply quit_token_pass; eassumption]
      | split; [discriminate | rewrite Quit; reflexivity] .. ].
  - intros line rest Keys Back. destruct m; cbn [tokens existsb String.eqb Ascii.eqb Bool.eqb orb];
      [ split; [reflexivity | rewrite Back; reflexivity]
      | (split; [discriminate | ];
         match goal with
         | |- out (menu_pass ?m _ _) = _ /\ _ =>
             assert (P : menu_pass m fuel w
                         = mkRes (Ret Break) (set_stdin rest w)
                             (log (display m w)
                              ++ [Asked [Lit "Select option"; Lit ": "] (Some (Line line))]))
               by (apply back_token_pass; [discriminate | exact Keys | exact Back])
         end;
         split; [rewrite P; reflexivity | ];
         intros n; rewrite (while_true_break n _ _ _ _ P); split; reflexivity) .. ].
  - intros line back rest. apply back_to_main.
Qed.

End Menus.

(** ** How a session starts, and how Q ends it *)

Section StartupStatus.
Context `{Env}.

(** Q at the main menu, whenever the menu is shown. *)
Lemma quit_pass (fuel : nat) (w : World) (line : string) (rest : list key) :
  stdin w = Line line :: rest -> upper (strip line) = "Q" ->
  out (display_main_menu w) = Ret tt ->
  menu_pass MainMenu fuel w
  = mkRes (Exit 0) (set_stdin rest w)
      (log (display_main_menu w)
       ++ [Asked [Lit "Select option"; Lit ": "] (Some (Line line));
           Print [];
           Print (info_line [Lit "Thank you for using ECST VMware Automation Tool!"]);
           Print []]).
Proof.
  intros Keys Quit Shown. pose proof (display_main_menu_shown w Shown) as D.
  assert (R : exists w' l, menu_pass MainMenu fuel w = mkRes (Exit 0) w' l
                           /\ w' = set_stdin rest w
                           /\ l = log (display_main_menu w)
                                  ++ [Asked [Lit "Select option"; Lit ": "] (Some (Line line));
                                      Print [];
                                      Print (info_line
                                               [Lit "Thank you for using ECST VMware Automation Tool!"]);
                                      Print []]).
  { do 2 eexists. split; [ | split].
    - cbn [menu_pass]. eapply except_passes; [ | discriminate].
      unfold main_menu_pass. eapply run_bind_ret; [exact D | ].
      eapply run_bind_ret; [run | ]. cbv beta zeta. rewrite Quit.
      cbv beta iota delta [String.eqb Ascii.eqb Bool.eqb]. run.
    - reflexivity.
    - reflexivity. }
  destruct R as (w' & l & R & -> & ->). exact R.
Qed.

(** C5, as the program has it. [main] ends with exit status 1 when the
    configuration file is missing (the error and a hint are all it prints
    after the platform warnings), and when [json.load] rejects the text of
    the file with [JSONDecodeError] (the screen is cleared, the title
    banner and the error are printed, and no line of the menu). A file
    whose reading raises another exception is not reported: the exception
    leaves [main], after the title banner and without an error message.
    [main] ends with exit status 0 when the operator answers the main menu
    with Q, at the first display of the menu and at any later one. *)
Theorem startup_and_quit_status (fuel : nat) (w : World) :
  (fs w CONFIG_FILE = None ->
   out (main fuel w) = Exit 1
   /\ log (main fuel w) =
        platform_warnings
        ++ [Print (error_line [Lit "Configuration file not found: "; Lit CONFIG_FILE]);
            Print (info_line [Lit "Please create a config.json file before running this tool."])])
  /\ (forall content msg,
        fs w CONFIG_FILE = Some content -> json_loads content = DecodeError msg ->
        out (main (S fuel) w) = Exit 1
        /\ log (main (S fuel) w) =
             platform_warnings
             ++ Clear :: banner "ECST VMware Automation Tool"
             ++ [Print (error_line [Lit "Invalid JSON in configuration file: "; Lit msg])]
        /\ existsb is_main_menu_line (log (main (S fuel) w)) = false)
  /\ (forall content e,
        fs w CONFIG_FILE = Some content -> json_loads content = Failed e ->
        e <> KeyboardInterrupt ->
        out (main (S fuel) w) = Raise e
        /\ log (main (S fuel) w)
           = platform_warnings ++ Clear :: banner "ECST VMware Automation Tool"
        /\ existsb is_error (log (main (S fuel) w)) = false)
  /\ (forall line rest,
        stdin w = Line line :: rest -> upper (strip line) = "Q" ->
        out (display_main_menu (after_startup w)) = Ret tt ->
        out (main (S fuel) w) = Exit 0)
  /\ (forall n w' line rest,
        stdin w' = Line line :: rest -> upper (strip line) = "Q" ->
        out (display_main_menu w') = Ret tt ->
        out (while_true (S n) (menu_pass MainMenu fuel) w') = Exit 0
        /\ exists before,
             log (while_true (S n) (menu_pass MainMenu fuel) w')
             = before
               ++ [Print [];
                   Print (info_line [Lit "Thank you for using ECST VMware Automation Tool!"]);
                   Print []]).
Proof.
  split; [ | split; [ | split; [ | split]]].
  - intros Missing.
    assert (R : exists l,
               main fuel w = mkRes (Exit 1) (after_startup w) l
               /\ l = platform_warnings
                      ++ [Print (error_line [Lit "Configuration file not found: ";
                                             Lit CONFIG_FILE]);
                          Print (info_line [Lit "Please create a config.json file before running this tool."])]).
    { eexists. split.
      - unfold main. eapply run_bind_ret; [apply startup_prefix | ].
        eapply run_bind_ret; [reflexivity | ]. cbn [fs]. rewrite fs_after_startup, Missing.
        cbv beta iota delta [negb].
        eapply run_bind_ret; [reflexivity | ]. eapply run_bind_ret; [reflexivity | ].
        reflexivity.
      - reflexivity. }
    destruct R as (l & R & L). rewrite R. split; [reflexivity | exact L].
  - intros content msg Present Malformed.
    assert (R : exists l,
               main (S fuel) w = mkRes (Exit 1) (after_startup w) l
               /\ l = platform_warnings
                      ++ Clear :: banner "ECST VMware Automation Tool"
                      ++ [Print (error_line [Lit "Invalid JSON in configuration file: ";
                                             Lit msg])]).
    { eexists. split.
      - unfold main. eapply run_bind_ret; [apply startup_prefix | ].
        eapply run_bind_ret; [reflexivity | ]. cbn [fs]. rewrite fs_after_startup, Present.
        cbv beta iota delta [negb]. cbn [while_true].
        eapply run_bind_exit. eapply except_passes; [ | discriminate].
        unfold main_menu_pass, display_main_menu.
        eapply run_bind_exit.
        eapply run_bind_ret; [reflexivity | ].
        eapply run_bind_ret; [reflexivity | ].
        eapply run_bind_exit.
        eapply load_config_malformed; [rewrite fs_after_startup; exact Present | exact Malformed].
      - reflexivity. }
    destruct R as (l & R & L). rewrite R. cbn [out log]. subst l. repeat split.
    unfold platform_warnings. destruct (negb (os_name =? "nt")); reflexivity.
  - intros content e Present Fails NotInterrupt.
    assert (R : exists l,
               main (S fuel) w = mkRes (Raise e) (after_startup w) l
               /\ l = platform_warnings ++ Clear :: banner "ECST VMware Automation Tool").
    { eexists. split.
      - unfold main. eapply run_bind_ret; [apply startup_prefix | ].
        eapply run_bind_ret; [reflexivity | ]. cbn [fs]. rewrite fs_after_startup, Present.
        cbv beta iota delta [negb]. cbn [while_true].
        eapply run_bind_raise. eapply except_passes; [ | congruence].
        unfold main_menu_pass, display_main_menu.
        eapply run_bind_raise.
        eapply run_bind_ret; [reflexivity | ].
        eapply run_bind_ret; [reflexivity | ].
        eapply run_bind_raise.
        eapply load_config_failed; [rewrite fs_after_startup; exact Present | exact Fails].
      - reflexivity. }
    destruct R as (l & R & L). rewrite R. cbn [out log]. subst l. repeat split.
    unfold platform_warnings. destruct (negb (os_name =? "nt")); reflexivity.
  - intros line rest Keys Quit Shown.
    pose proof (display_main_menu_shown _ Shown) as D.
    assert (K : stdin (after_startup w) = Line line :: rest)
      by (rewrite stdin_after_startup; exact Keys).
    assert (P : fs w CONFIG_FILE <> None).
    { intros Missing. rewrite <- fs_after_startup in Missing.
      unfold display_main_menu in Shown.
      assert (R : exists l, (clear_screen ;; print_header "ECST VMware Automation Tool" ;;
                             load_config) (after_startup w)
                            = mkRes (Exit 1) (after_startup w) l) by (eexists; run).
      destruct R as [l R]. revert Shown.
      unfold bind at 1. unfold bind at 1 in R. destruct (clear_screen (after_startup w)) as [[] w1 l1];
        cbn [out world log] in *; try discriminate.
      unfold bind at 1. unfold bind at 1 in R.
      destruct (print_header "ECST VMware Automation Tool" w1) as [[] w2 l2];
        cbn [out world log] in *; try discriminate.
      unfold bind at 1. destruct (load_config w2) as [[] w3 l3]; cbn [out world log] in *;
        discriminate. }
    destruct (fs w CONFIG_FILE) as [content | ] eqn:Present; [clear P | destruct P; reflexivity].
    assert (R : exists w' l, main (S fuel) w = mkRes (Exit 0) w' l).
    { do 2 eexists. unfold main. eapply run_bind_ret; [apply startup_prefix | ].
      eapply run_bind_ret; [reflexivity | ]. cbn [fs]. rewrite fs_after_startup, Present.
      cbv beta iota delta [negb]. cbn [while_true].
      eapply run_bind_exit. eapply except_passes; [ | discriminate].
      unfold main_menu_pass.
      eapply run_bind_ret; [exact D | ].
      eapply run_bind_ret; [run | ]. cbv beta zeta. rewrite Quit.
      cbv beta iota delta [String.eqb Ascii.eqb Bool.eqb]. run. }
    destruct R as (w' & l & R). rewrite R. reflexivity.
  - intros n w' line rest Keys Quit Shown.
    pose proof (quit_pass fuel w' line rest Keys Quit Shown) as P.
    cbn [while_true]. unfold bind. rewrite P. cbn [out log]. split; [reflexivity | ].
    exists (log (display_main_menu w')
            ++ [Asked [Lit "Select option"; Lit ": "] (Some (Line line))]).
    rewrite <- List.app_assoc. reflexivity.
Qed.

End StartupStatus.

Lemma startup_and_quit_status_witness :
  out (main (H := lab 0) 0 (mkWorld [] (fun _ => None) true)) = Exit 1
  /\ out (main (H := lab 0) 1
            (mkWorld [] (write_file "C:\ecst\config.json" "not json" (fun _ => None)) true))
     = Exit 1
  /\ out (main (H := lab_ascii) 1 (latin1_world [])) = Raise UnicodeDecodeError
  /\ out (main (H := lab 0) 1 (lab_world [" q "])) = Exit 0
  /\ out (while_true 1 (menu_pass (H := lab 0) MainMenu 2) (lab_world ["Q"])) = Exit 0.
Proof.
  split; [ | split; [ | split; [ | split]]].
  - refine (proj1 (proj1 (startup_and_quit_status (H := lab 0) 0
                            (mkWorld [] (fun _ => None) true)) _)).
    reflexivity.
  - refine (proj1 (proj1 (proj2 (startup_and_quit_status (H := lab 0) 0
                                   (mkWorld [] (write_file "C:\ecst\config.json" "not json"
                                                  (fun _ => None)) true)))
                     "not json" "Expecting value" _ _)).
    + reflexivity.
    + vm_compute. reflexivity.
  - refine (proj1 (proj1 (proj2 (proj2 (startup_and_quit_status (H := lab_ascii) 0
                                          (latin1_world []))))
                     latin1_config UnicodeDecodeError _ _ _)).
    + reflexivity.
    + vm_compute. reflexivity.
    + discriminate.
  - refine (proj1 (proj2 (proj2 (proj2 (startup_and_quit_status (H := lab 0) 0
                                          (lab_world [" q "])))))
              " q " [] _ _ _).
    + reflexivity.
    + vm_compute. reflexivity.
    + vm_compute. reflexivity.
  - refine (proj1 (proj2 (proj2 (proj2 (proj2 (startup_and_quit_status (H := lab 0) 2
                                                 (lab_world [])))))
                     0%nat (lab_world ["Q"]) "Q" [] _ _ _)).
    + reflexivity.
    + reflexivity.
    + vm_compute. reflexivity.
Defined.

(** C5 as stated fails for a file that cannot be read as text: in an
    installation that reads its files as ASCII, a configuration with a
    byte above 127 ends [main] with [UnicodeDecodeError], and no error
    message is printed. *)
Lemma undecodable_config_is_not_reported :
  plain_ascii latin1_config = false
  /\ out (main (H := lab_ascii) 1 (latin1_world [])) = Raise UnicodeDecodeError
  /\ existsb is_error (log (main (H := lab_ascii) 1 (latin1_world []))) = false.
Proof. vm_compute. repeat split. Qed.

(** ** The network parameters and the backend *)

Lemma runs_app (l1 l2 : list event) : runs (l1 ++ l2) = runs l1 ++ runs l2.
Proof. apply filter_app. Qed.

Section Agree.
Context `{Env}.

Lemma agree_refl {A : Type} (r : res A) : agree r r.
Proof. split; reflexivity. Qed.

(** Both runs return from [m], with the same processes started, and agree
    afterwards. *)
Lemma agree_bind {A B : Type} (m : M A) (k1 k2 : A -> M B) w1 w2 a1 a2 w1' w2' l1 l2 :
  m w1 = mkRes (Ret a1) w1' l1 -> m w2 = mkRes (Ret a2) w2' l2 ->
  runs l1 = runs l2 ->
  agree (k1 a1 w1') (k2 a2 w2') ->
  agree (bind m k1 w1) (bind m k2 w2).
Proof.
  intros E1 E2 R [K1 K2]. unfold agree, bind. rewrite E1, E2. cbn [out world log].
  split; [rewrite !runs_app, R, K1; reflexivity | exact K2].
Qed.

(** The same computation on the same world, followed by continuations that
    agree. *)
Lemma agree_same_bind {A B : Type} (m : M A) (k1 k2 : A -> M B) (w : World) :
  (forall a w', agree (k1 a w') (k2 a w')) -> agree (bind m k1 w) (bind m k2 w).
Proof.
  intros K. unfold bind. destruct (out (m w)) as [a | | | ]; try apply agree_refl.
  destruct (K a (world (m w))) as [K1 K2]. unfold agree. cbn [out world log].
  split; [rewrite !runs_app, K1; reflexivity | exact K2].
Qed.

(** Two lines printed, whatever they say, followed by continuations that
    agree. *)
Lemma agree_bind_print {B : Type} (t1 t2 : text) (k1 k2 : unit -> M B) (w : World) :
  (forall w', agree (k1 tt w') (k2 tt w')) ->
  agree (bind (print t1) k1 w) (bind (print t2) k2 w).
Proof.
  intros K. unfold agree, bind, print, emit. cbn [out world log].
  destruct (K w) as [K1 K2]. split; [ | exact K2].
  change (runs (log (k1 tt w)) = runs (log (k2 tt w))). exact K1.
Qed.

End Agree.

(** Evaluates both runs along a path fixed by the hypotheses. *)
Ltac agree_eval :=
  lazymatch goal with
  | |- agree (?m1 ?w1) (?m2 ?w2) =>
      let R1 := fresh "R" in
      let R2 := fresh "R" in
      eassert (R1 : m1 w1 = mkRes _ _ _) by run;
      eassert (R2 : m2 w2 = mkRes _ _ _) by run;
      rewrite R1, R2; split; reflexivity
  end.

(** One step on which both runs return. *)
Ltac agree_step := eapply agree_bind; [run | run | reflexivity | cbv beta zeta].

(** After the last differing key: the two continuations differ in what they
    print only. *)
Ltac agree_tail :=
  repeat lazymatch goal with
         | |- agree ?a ?b =>
             first [ constr_eq a b; apply agree_refl
                   | apply agree_bind_print; intros ?
                   | apply agree_same_bind; intros ? ? ]
         end.

Section Network.
Context `{Env}.

Lemma template_deployment_ignores_network
      (f : files) (c : bool) (k0 k1 k2 : key) (ip mask gw ip' mask' gw' : string)
      (rest : list key) :
  agree
    (deploy_vm_from_template
       (mkWorld (k0 :: k1 :: k2 :: Line ip :: Line mask :: Line gw :: rest) f c))
    (deploy_vm_from_template
       (mkWorld (k0 :: k1 :: k2 :: Line ip' :: Line mask' :: Line gw' :: rest) f c)).
Proof.
  destruct k0 as [s0 | ]; [ | agree_eval].
  destruct (upper (strip s0) =? "B") eqn:B; [agree_eval | ].
  destruct (dict_get VM_TEMPLATES (upper (strip s0))) as [template | ] eqn:T;
    [ | destruct k1; agree_eval].
  destruct k1 as [s1 | ]; [ | agree_eval].
  destruct (is_empty (strip s1)) eqn:N; [agree_eval | ].
  destruct k2 as [s2 | ]; [ | agree_eval].
  destruct (dict_get VM_SIZES (if negb (is_empty (strip s2)) then strip s2 else "Medium"))
    as [size_specs | ] eqn:Z; [ | agree_eval].
  unfold deploy_vm_from_template.
  agree_step. agree_step. rewrite B, T. do 4 agree_step. agree_step. rewrite N.
  agree_step. agree_step. rewrite Z.
  agree_step. agree_step. agree_step.
  cbn [set_stdin stdin fs colors].
  agree_tail.
Qed.

Lemma standard_deployment_ignores_network
      (f : files) (c : bool) (k0 k1 k2 : key) (ip ip' : string) (rest : list key) :
  agree
    (deploy_standard_vm (mkWorld (k0 :: k1 :: k2 :: Line ip :: rest) f c))
    (deploy_standard_vm (mkWorld (k0 :: k1 :: k2 :: Line ip' :: rest) f c)).
Proof.
  destruct k0 as [s0 | ]; [ | agree_eval].
  destruct (is_empty (strip s0)) eqn:N; [agree_eval | ].
  destruct k1 as [s1 | ]; [ | agree_eval].
  destruct (dict_get OS_TYPES (if negb (is_empty (strip s1)) then strip s1 else "1"))
    as [os_type | ] eqn:O; [ | agree_eval].
  destruct k2 as [s2 | ]; [ | agree_eval].
  destruct (dict_get VM_SIZES (if negb (is_empty (strip s2)) then strip s2 else "Small"))
    as [size_specs | ] eqn:Z; [ | agree_eval].
  unfold deploy_standard_vm.
  agree_step. agree_step. rewrite N. agree_step. agree_step. agree_step. rewrite O.
  agree_step. agree_step. rewrite Z. agree_step.
  cbn [set_stdin stdin fs colors].
  agree_tail.
Qed.

(** C10. In both VM deployments the lines typed for the network parameters
    (the IP address and, for the template deployment, the subnet mask and
    the gateway) do not reach the backend: two runs on worlds that differ
    in these lines only start the same processes, with the same command
    lines and scripts, and end alike. *)
Theorem network_parameters_stay_out
        (f : files) (c : bool) (k0 k1 k2 : key) (ip mask gw ip' mask' gw' : string)
        (rest : list key) :
  agree
    (deploy_vm_from_template
       (mkWorld (k0 :: k1 :: k2 :: Line ip :: Line mask :: Line gw :: rest) f c))
    (deploy_vm_from_template
       (mkWorld (k0 :: k1 :: k2 :: Line ip' :: Line mask' :: Line gw' :: rest) f c))
  /\ agree
       (deploy_standard_vm (mkWorld (k0 :: k1 :: k2 :: Line ip :: rest) f c))
       (deploy_standard_vm (mkWorld (k0 :: k1 :: k2 :: Line ip' :: rest) f c)).
Proof.
  split.
  - apply template_deployment_ignores_network.
  - apply standard_deployment_ignores_network.
Qed.

End Network.

(** ** Accepted fields *)

Section Leads.
Context `{Env}.

Lemma leads_bind {A : Type} T U (m : M A) (k : A -> M unit) :
  quiet (never T) m -> (forall a, leads T U (k a)) -> leads T U (bind m k).
Proof.
  intros Hm Hk w. pose proof (never_none _ _ (Hm w)) as Ht.
  unfold bind. destruct (out (m w)) as [a | | | ]; cbn [log];
    try (rewrite Ht; discriminate).
  rewrite !existsb_app, Ht. cbn [orb]. intros E. rewrite (Hk a _ E). apply orb_true_r.
Qed.

Lemma leads_quiet T U (m : M unit) : quiet (never T) m -> leads T U m.
Proof. intros Hm w E. rewrite (never_none _ _ (Hm w)) in E. discriminate. Qed.

Lemma leads_get_input (prompt default shown : string) (good : string -> bool)
      U (k : string -> M unit) :
  (forall r, answered shown good
               (Asked (if negb (is_empty default)
                       then [Lit prompt; Lit " ["; Lit default; Lit "]: "]
                       else [Lit prompt; Lit ": "]) (Some (Line r))) = good r) ->
  (forall x, quiet (never (answered shown good)) (k x)) ->
  (forall line, good line = true -> asks U (k (entered default line))) ->
  leads (answered shown good) U (bind (get_input prompt default) k).
Proof.
  intros Hshown Hk Hgood w. unfold get_input, entered in *.
  destruct (negb (is_empty default));
    cbv beta delta [bind input ret];
    (destruct (stdin w) as [ | [s | ] rest]; cbn [out world log];
     try (cbn; discriminate));
    rewrite app_nil_r;
    repeat match goal with
           | |- context [[?e] ++ ?l] => change ([e] ++ l) with (e :: l)
           end;
    cbn [existsb];
    rewrite Hshown, (never_none _ _ (Hk _ _)), orb_false_r;
    (let T := fresh in
     intros T; rewrite (Hgood s T (set_stdin rest w)); apply orb_true_r).
Qed.

Lemma asks_bind_skip {A B : Type} U (m : M A) (k : A -> M B) :
  returns m -> (forall a, asks U (k a)) -> asks U (bind m k).
Proof.
  intros Hm Hk w. destruct (Hm w) as [a E]. unfold bind. rewrite E. cbn [log].
  rewrite existsb_app, (Hk a). apply orb_true_r.
Qed.

Lemma asks_bind_here {A B : Type} U (m : M A) (k : A -> M B) :
  asks U m -> asks U (bind m k).
Proof.
  intros Hm w. specialize (Hm w). unfold bind.
  destruct (out (m w)); cbn [log]; trivial.
  rewrite existsb_app, Hm. reflexivity.
Qed.

Lemma asks_input U (prompt : text) :
  (forall r, U (Asked prompt r) = true) -> asks U (input prompt).
Proof.
  intros E w. unfold input. destruct (stdin w) as [ | [s | ] rest]; cbn; rewrite E; reflexivity.
Qed.

Lemma returns_ret {A : Type} (a : A) : returns (ret a).
Proof. intros w. exists a. reflexivity. Qed.

Lemma returns_emit (e : event) : returns (emit e).
Proof. intros w. exists tt. reflexivity. Qed.

Lemma returns_bind {A B : Type} (m : M A) (k : A -> M B) :
  returns m -> (forall a, returns (k a)) -> returns (bind m k).
Proof.
  intros Hm Hk w. destruct (Hm w) as [a E]. unfold bind. rewrite E.
  destruct (Hk a (world (m w))) as [b E']. exists b. exact E'.
Qed.

Lemma returns_for_each {A : Type} (xs : list A) (body : A -> M unit) :
  (forall x, returns (body x)) -> returns (for_each xs body).
Proof.
  intros Hb. induction xs as [ | x xs IH]; cbn [for_each].
  - apply returns_ret.
  - apply returns_bind; auto.
Qed.

End Leads.

Ltac returns_tac :=
  repeat lazymatch goal with
         | |- returns (ret _) => apply returns_ret
         | |- returns (emit _) => apply returns_emit
         | |- returns (print _) => apply returns_emit
         | |- returns (for_each _ _) => apply returns_for_each; intros ?
         | |- returns (bind _ _) => apply returns_bind; [ | intros ? ]
         | |- returns (?f _ _) => unfold f
         | |- returns (?f _) => unfold f
         | |- returns ?f => unfold f
         end.

(** Finds the next prompt behind printing. *)
Ltac asks_tac :=
  repeat lazymatch goal with
         | |- asks _ (bind (get_input _ _) _) =>
             apply asks_bind_here; unfold get_input; cbn [negb is_empty];
             apply asks_bind_here; apply asks_input; intros ?; reflexivity
         | |- asks _ (bind _ _) => apply asks_bind_skip; [returns_tac | intros ?]
         end.

Ltac leads_step :=
  lazymatch goal with
  | |- leads _ _ (bind (get_input _ _) _) =>
      first [ apply leads_bind; [solve [quiet_tac] | intros ?]
            | apply leads_get_input; [intros ?; reflexivity | intros ?; quiet_tac | ] ]
  | |- leads _ _ (bind _ _) => apply leads_bind; [quiet_tac | intros ?]
  | |- leads _ _ (if ?b then _ else _) => destruct b
  | |- leads _ _ (match ?x with _ => _ end) => destruct x
  | |- leads _ _ _ => apply leads_quiet; quiet_tac
  end.

Section Accepted.
Context `{Env}.

Lemma mem_get {V : Type} (d : list (string * V)) (k : string) :
  negb (dict_mem k d) = false -> exists v, dict_get d k = Some v.
Proof.
  unfold dict_mem. destruct (dict_get d k) as [v | ]; [eauto | discriminate].
Qed.

Lemma check_leads (c : check) :
  exists shown,
    (forall line, answered shown (accepted c) (Asked (check_prompt c) (Some (Line line)))
                  = accepted c line)
    /\ leads (answered shown (accepted c)) (asked (next_shown c))
         (perform (check_operation c)).
Proof.
  destruct c; cbn [check_operation perform check_prompt next_shown].
  - exists "Select template: ". split; [reflexivity | ].
    unfold deploy_vm_from_template. repeat leads_step.
    intros line Good. unfold accepted in Good. cbn [rejected entered negb is_empty] in *.
    apply andb_true_iff in Good as [G1 G2]. apply negb_true_iff in G2. rewrite G2.
    rewrite G2 in G1. cbn [negb andb] in G1. apply negb_true_iff in G1.
    destruct (mem_get _ _ G1) as [found E]. rewrite E. asks_tac.
  - exists "Enter VM Name (e.g., splunk-prod-01): ". split; [reflexivity | ].
    unfold deploy_vm_from_template. repeat leads_step.
    intros line Good. unfold accepted in Good. cbn [rejected entered negb is_empty] in *.
    rewrite andb_true_r in Good. apply negb_true_iff in Good. rewrite Good. asks_tac.
  - exists "Enter Size [Medium]: ". split; [reflexivity | ].
    unfold deploy_vm_from_template. repeat leads_step.
    intros line Good. unfold accepted in Good. cbn [rejected] in Good.
    rewrite andb_true_r in Good. apply negb_true_iff in Good.
    destruct (mem_get _ _ Good) as [found E]. rewrite E. asks_tac.
  - exists "Enter VM Name (e.g., rhel-web-01): ". split; [reflexivity | ].
    unfold deploy_standard_vm. repeat leads_step.
    intros line Good. unfold accepted in Good. cbn [rejected entered negb is_empty] in *.
    rewrite andb_true_r in Good. apply negb_true_iff in Good. rewrite Good. asks_tac.
  - exists "Select OS Type [1]: ". split; [reflexivity | ].
    unfold deploy_standard_vm. repeat leads_step.
    intros line Good. unfold accepted in Good. cbn [rejected] in Good.
    rewrite andb_true_r in Good. apply negb_true_iff in Good.
    destruct (mem_get _ _ Good) as [found E]. rewrite E. asks_tac.
  - exists "Enter Size [Small]: ". split; [reflexivity | ].
    unfold deploy_standard_vm. repeat leads_step.
    intros line Good. unfold accepted in Good. cbn [rejected] in Good.
    rewrite andb_true_r in Good. apply negb_true_iff in Good.
    destruct (mem_get _ _ Good) as [found E]. rewrite E. asks_tac.
Qed.

(** A line a checked field accepts lets the operation go on to its next
    prompt. *)
Lemma accepted_field_proceeds (c : check) (w : World) (line : string) :
  In (Asked (check_prompt c) (Some (Line line))) (log (perform (check_operation c) w)) ->
  accepted c line = true ->
  existsb (asked (next_shown c)) (log (perform (check_operation c) w)) = true.
Proof.
  intros I Good. destruct (check_leads c) as (shown & S & L).
  apply L. apply existsb_exists. eexists. split; [exact I | ]. rewrite S. exact Good.
Qed.

End Accepted.

(** ** Letter case in the selectors *)

Lemma is_space_upper (c : ascii) : is_space (upper_ascii c) = is_space c.
Proof. destruct c as [[] [] [] [] [] [] [] []]; reflexivity. Qed.

Lemma upper_ascii_idem (c : ascii) : upper_ascii (upper_ascii c) = upper_ascii c.
Proof. destruct c as [[] [] [] [] [] [] [] []]; reflexivity. Qed.

Lemma upper_idem (s : string) : upper (upper s) = upper s.
Proof.
  induction s as [ | c s IH]; [reflexivity | ].
  cbn [upper map_string] in *. rewrite upper_ascii_idem. f_equal. exact IH.
Qed.

Lemma is_empty_upper (s : string) : is_empty (upper s) = is_empty s.
Proof. destruct s; reflexivity. Qed.

Lemma lstrip_upper (s : string) : lstrip (upper s) = upper (lstrip s).
Proof.
  induction s as [ | c s IH]; [reflexivity | ].
  cbn [upper map_string lstrip] in *. rewrite is_space_upper.
  destruct (is_space c); [exact IH | reflexivity].
Qed.

Lemma rstrip_upper (s : string) : rstrip (upper s) = upper (rstrip s).
Proof.
  induction s as [ | c s IH]; [reflexivity | ].
  cbn [upper map_string rstrip] in *. rewrite IH, is_space_upper.
  destruct (rstrip s); cbn [map_string]; [destruct (is_space c) | ]; reflexivity.
Qed.

Lemma strip_upper (s : string) : strip (upper s) = upper (strip s).
Proof. unfold strip. rewrite lstrip_upper, rstrip_upper. reflexivity. Qed.

(** A key of one character that only itself is upper-cased to. *)
Lemma eqb_upper_key (d : ascii) :
  (forall c, Ascii.eqb (upper_ascii c) d = Ascii.eqb c d) ->
  forall s, (upper s =? String d EmptyString) = (s =? String d EmptyString).
Proof.
  intros Hd [ | c [ | c' s]]; cbn [upper map_string String.eqb]; rewrite ?Hd; reflexivity.
Qed.

Lemma digit_key (n : nat) (c : ascii) :
  (n < 10)%nat ->
  Ascii.eqb (upper_ascii c) (ascii_of_nat (48 + n)) = Ascii.eqb c (ascii_of_nat (48 + n)).
Proof.
  intros L. do 10 (destruct n as [ | n]; [destruct c as [[] [] [] [] [] [] [] []]; reflexivity | ]).
  lia.
Qed.

(** The template and OS-type catalogs are keyed by digits, which letter
    case does not touch. *)
Lemma templates_upper (s : string) :
  dict_get VM_TEMPLATES (upper s) = dict_get VM_TEMPLATES s.
Proof.
  unfold VM_TEMPLATES. cbn [dict_get].
  rewrite (eqb_upper_key "1" (fun c => digit_key 1 c ltac:(lia))),
          (eqb_upper_key "2" (fun c => digit_key 2 c ltac:(lia))),
          (eqb_upper_key "3" (fun c => digit_key 3 c ltac:(lia))),
          (eqb_upper_key "4" (fun c => digit_key 4 c ltac:(lia))),
          (eqb_upper_key "5" (fun c => digit_key 5 c ltac:(lia))),
          (eqb_upper_key "6" (fun c => digit_key 6 c ltac:(lia))).
  reflexivity.
Qed.

Lemma os_types_upper (s : string) : dict_get OS_TYPES (upper s) = dict_get OS_TYPES s.
Proof.
  unfold OS_TYPES. cbn [dict_get].
  rewrite (eqb_upper_key "1" (fun c => digit_key 1 c ltac:(lia))),
          (eqb_upper_key "2" (fun c => digit_key 2 c ltac:(lia))),
          (eqb_upper_key "3" (fun c => digit_key 3 c ltac:(lia))),
          (eqb_upper_key "4" (fun c => digit_key 4 c ltac:(lia))),
          (eqb_upper_key "5" (fun c => digit_key 5 c ltac:(lia))).
  reflexivity.
Qed.

Lemma entered_upper (default line : string) :
  upper default = default -> entered default (upper line) = upper (entered default line).
Proof.
  intros D. unfold entered. rewrite strip_upper, is_empty_upper.
  destruct (negb (is_empty default)); [ | reflexivity].
  destruct (negb (is_empty (strip line))); [reflexivity | symmetry; exact D].
Qed.

Lemma size_names (name : string) :
  dict_mem name VM_SIZES = true <-> In name ["Small"; "Medium"; "Large"; "XLarge"].
Proof.
  unfold dict_mem, VM_SIZES. cbn [dict_get In]. split.
  - destruct (name =? "Small") eqn:E1; [apply String.eqb_eq in E1; auto | ].
    destruct (name =? "Medium") eqn:E2; [apply String.eqb_eq in E2; auto | ].
    destruct (name =? "Large") eqn:E3; [apply String.eqb_eq in E3; auto | ].
    destruct (name =? "XLarge") eqn:E4; [apply String.eqb_eq in E4; auto 6 | ].
    discriminate.
  - intros [<- | [<- | [<- | [<- | []]]]]; reflexivity.
Qed.

Lemma template_keys (key : string) :
  dict_mem key VM_TEMPLATES = true <-> In key ["1"; "2"; "3"; "4"; "5"; "6"].
Proof.
  unfold dict_mem, VM_TEMPLATES. cbn [dict_get In]. split.
  - destruct (key =? "1") eqn:E1; [apply String.eqb_eq in E1; auto | ].
    destruct (key =? "2") eqn:E2; [apply String.eqb_eq in E2; auto | ].
    destruct (key =? "3") eqn:E3; [apply String.eqb_eq in E3; auto | ].
    destruct (key =? "4") eqn:E4; [apply String.eqb_eq in E4; auto 6 | ].
    destruct (key =? "5") eqn:E5; [apply String.eqb_eq in E5; auto 7 | ].
    destruct (key =? "6") eqn:E6; [apply String.eqb_eq in E6; auto 8 | ].
    discriminate.
  - intros [<- | [<- | [<- | [<- | [<- | [<- | []]]]]]]; reflexivity.
Qed.

Lemma os_type_keys (key : string) :
  dict_mem key OS_TYPES = true <-> In key ["1"; "2"; "3"; "4"; "5"].
Proof.
  unfold dict_mem, OS_TYPES. cbn [dict_get In]. split.
  - destruct (key =? "1") eqn:E1; [apply String.eqb_eq in E1; auto | ].
    destruct (key =? "2") eqn:E2; [apply String.eqb_eq in E2; auto | ].
    destruct (key =? "3") eqn:E3; [apply String.eqb_eq in E3; auto | ].
    destruct (key =? "4") eqn:E4; [apply String.eqb_eq in E4; auto 6 | ].
    destruct (key =? "5") eqn:E5; [apply String.eqb_eq in E5; auto 7 | ].
    discriminate.
  - intros [<- | [<- | [<- | [<- | [<- | []]]]]]; reflexivity.
Qed.

Section Selectors.
Context `{Env}.

(** B at the template prompt, in either letter case. *)
Lemma template_prompt_back (w : World) (line : string) (rest : list key) :
  stdin w = Line line :: rest -> upper (strip line) = "B" ->
  deploy_vm_from_template w
  = mkRes (Ret tt) (set_stdin rest w)
      (log (display_template_menu w)
       ++ [Asked [Lit "Select template"; Lit ": "] (Some (Line line))]).
Proof.
  intros K B.
  assert (R : exists w' l, deploy_vm_from_template w = mkRes (Ret tt) w' l
                           /\ w' = set_stdin rest w
                           /\ l = log (display_template_menu w)
                                  ++ [Asked [Lit "Select template"; Lit ": "]
                                            (Some (Line line))]).
  { do 2 eexists. split; [ | split].
    - unfold deploy_vm_from_template.
      eapply run_bind_ret; [run | ].
      eapply run_bind_ret; [run | ].
      cbv beta zeta. rewrite B. reflexivity.
    - reflexivity.
    - reflexivity. }
  destruct R as (w' & l & R & -> & ->). exact R.
Qed.


End Selectors.


(** ** The JSON codec: what is written is read back *)

Module PyJsonFacts.
Import PyJson JsonFragment.
Local Open Scope string_scope.

Lemma append_assoc (a b c : string) : (a ++ b) ++ c = a ++ (b ++ c).
Proof. induction a as [ | x a IH]; cbn [append]; [ | rewrite IH]; reflexivity. Qed.

Lemma append_nil_r (a : string) : a ++ EmptyString = a.
Proof. induction a as [ | x a IH]; cbn [append]; [ | rewrite IH]; reflexivity. Qed.

Lemma length_append (a b : string) :
  String.length (a ++ b) = (String.length a + String.length b)%nat.
Proof. induction a as [ | x a IH]; cbn [append String.length plus]; [ | rewrite IH]; reflexivity. Qed.

(** *** Strings *)

Lemma scanstring_escape (c : ascii) (tail : string) :
  scanstring (escape c ++ tail) = cons_char c (scanstring tail).
Proof.
  destruct c as [[] [] [] [] [] [] [] []];
    match goal with
    | |- context [escape ?c] =>
        let e := eval vm_compute in (escape c) in change (escape c) with e
    end; cbn [append]; cbn; reflexivity.
Qed.

Lemma scanstring_escape_string (s rest : string) :
  scanstring (escape_string s ++ String dquote rest) = Some (s, rest).
Proof.
  induction s as [ | c s IH].
  - reflexivity.
  - cbn [escape_string]. rewrite append_assoc, scanstring_escape, IH. reflexivity.
Qed.

Lemma encode_string_read (s rest : string) :
  exists tail, encode_string s ++ rest = String dquote tail
               /\ scanstring tail = Some (s, rest).
Proof.
  exists (escape_string s ++ String dquote rest). split.
  - unfold encode_string. cbn [append]. rewrite append_assoc. reflexivity.
  - apply scanstring_escape_string.
Qed.

(** *** Integers *)

Lemma read_digits_string_of_uint (u : uint) (rest : string) :
  ends_number rest ->
  read_digits (NilEmpty.string_of_uint u ++ rest) = (u, rest).
Proof.
  intros E. induction u as [ | u IH | u IH | u IH | u IH | u IH | u IH | u IH | u IH | u IH | u IH ];
    cbn [NilEmpty.string_of_uint append read_digits];
    try (change (digit_of "0") with (Some D0); change (digit_of "1") with (Some D1);
         change (digit_of "2") with (Some D2); change (digit_of "3") with (Some D3);
         change (digit_of "4") with (Some D4); change (digit_of "5") with (Some D5);
         change (digit_of "6") with (Some D6); change (digit_of "7") with (Some D7);
         change (digit_of "8") with (Some D8); change (digit_of "9") with (Some D9);
         cbv iota beta; rewrite IH; reflexivity).
  destruct rest as [ | c rest]; [reflexivity | ].
  cbn [read_digits]. cbn [ends_number] in E. rewrite E. reflexivity.
Qed.

Lemma to_uint_head (p : positive) :
  Pos.to_uint p <> Nil /\ forall u, Pos.to_uint p <> D0 u.
Proof.
  split; [apply Unsigned.to_uint_nonnil | ].
  intros u E.
  pose proof (DecimalPos.Unsigned.to_of (Pos.to_uint p)) as T.
  rewrite DecimalPos.Unsigned.of_to in T. change (N.to_uint (N.pos p)) with (Pos.to_uint p) in T.
  assert (NZ : nzhead (Pos.to_uint p) <> Nil).
  { intros Z. apply DecimalFacts.unorm_0 in Z. rewrite <- T in Z.
    exact (Unsigned.to_uint_nonzero p Z). }
  rewrite (DecimalFacts.unorm_nzhead _ NZ) in T. rewrite E in T at 1.
  exact (DecimalFacts.nzhead_nonzero _ _ (eq_sym T)).
Qed.

Lemma scan_natural_pos (p : positive) (rest : string) :
  ends_number rest ->
  scan_natural (NilEmpty.string_of_uint (Pos.to_uint p) ++ rest) = Some (N.pos p, rest).
Proof.
  intros E. destruct (to_uint_head p) as [NN NZ].
  pose proof (read_digits_string_of_uint (Pos.to_uint p) rest E) as R.
  pose proof (DecimalPos.Unsigned.of_to p) as O.
  destruct (Pos.to_uint p) as [ | u | u | u | u | u | u | u | u | u | u ];
    [ contradiction | exfalso; exact (NZ u eq_refl) | .. ];
    cbn [NilEmpty.string_of_uint append] in *; unfold scan_natural;
    match goal with
    | |- context [digit_of ?c] =>
        let d := eval vm_compute in (digit_of c) in change (digit_of c) with d
    end; cbv iota;
    match goal with
    | |- context [Ascii.eqb ?c "0"] =>
        let b := eval vm_compute in (Ascii.eqb c "0") in change (Ascii.eqb c "0") with b
    end; cbv iota; rewrite R; unfold N.of_uint; rewrite O; reflexivity.
Qed.

Lemma scan_int_encode_int (n : Z) (rest : string) :
  ends_number rest ->
  scan_int (encode_int n ++ rest) = Some (n, rest).
Proof.
  intros E. destruct n as [ | p | p]; cbn [encode_int append].
  - reflexivity.
  - destruct (to_uint_head p) as [NN NZ].
    pose proof (scan_natural_pos p rest E) as S.
    unfold scan_int.
    destruct (NilEmpty.string_of_uint (Pos.to_uint p) ++ rest) as [ | c s] eqn:T.
    + rewrite S. reflexivity.
    + destruct (Ascii.eqb c "-") eqn:C.
      * apply Ascii.eqb_eq in C. subst c. unfold scan_natural in S.
        change (digit_of "-") with (@None (uint -> uint)) in S. discriminate.
      * assert (G : match c with
                    | "-"%char => match scan_natural s with
                                  | Some (n, r) => Some (Z.opp (Z.of_N n), r)
                                  | None => None
                                  end
                    | _ => match scan_natural (String c s) with
                           | Some (n, r) => Some (Z.of_N n, r)
                           | None => None
                           end
                    end
                    = match scan_natural (String c s) with
                      | Some (n, r) => Some (Z.of_N n, r)
                      | None => None
                      end).
        { destruct c as [[] [] [] [] [] [] [] []]; try reflexivity. discriminate. }
        rewrite G, S. reflexivity.
  - unfold scan_int. rewrite scan_natural_pos by exact E. reflexivity.
Qed.


(** *** Blanks and first characters *)

Lemma skip_ws_newline_indent (level : nat) (s : string) :
  skip_ws (newline_indent level ++ s) = skip_ws s.
Proof.
  unfold newline_indent, nl. cbn [append skip_ws].
  change (is_ws (ascii_of_nat 10)) with true. cbv iota.
  induction level as [ | n IH]; [reflexivity | ].
  cbn [repeat_string append skip_ws]. change (is_ws " ") with true. cbv iota. exact IH.
Qed.

Lemma opens_value_facts (c : ascii) :
  opens_value c = true ->
  is_ws c = false /\ Ascii.eqb c "]" = false /\ Ascii.eqb c "}" = false.
Proof. destruct c as [[] [] [] [] [] [] [] []]; try discriminate; repeat split. Qed.

Lemma string_of_uint_head (u : uint) :
  u <> Nil ->
  exists c tail, NilEmpty.string_of_uint u = String c tail /\ opens_value c = true
                 /\ digit_of c <> None.
Proof.
  destruct u; [congruence | ..]; intros _; cbn [NilEmpty.string_of_uint];
    eexists; eexists; (split; [reflexivity | split; [reflexivity | discriminate]]).
Qed.

Lemma encode_head (level : nat) (v : json) :
  float_free v = true ->
  exists c tail, encode level v = String c tail /\ opens_value c = true.
Proof.
  destruct v as [ | [] | [ | p | p] | bits | s | [ | x xs] | [ | [k x] kvs]];
    cbn [float_free encode encode_int encode_string append]; intros F;
    try discriminate; try (eexists; eexists; split; reflexivity).
  destruct (string_of_uint_head (Pos.to_uint p) (proj1 (to_uint_head p)))
    as (c & tail & E & O & _).
  rewrite E. eauto.
Qed.

Lemma skip_ws_value (c : ascii) (tail : string) :
  opens_value c = true -> skip_ws (String c tail) = String c tail.
Proof.
  intros O. destruct (opens_value_facts c O) as (W & _). cbn [skip_ws]. rewrite W. reflexivity.
Qed.

(** *** Objects of distinct keys *)

Local Open Scope list_scope.

Lemma well_formed_float_free (v : json) : well_formed v = true -> float_free v = true.
Proof.
  revert v. fix IH 1. intros [ | b | n | bits | s | xs | kvs]; cbn [well_formed float_free];
    try reflexivity; try discriminate.
  - induction xs as [ | x xs IHxs]; [reflexivity | ].
    cbn [forallb]. intros W. apply andb_true_iff in W as [W1 W2].
    rewrite (IH x W1). exact (IHxs W2).
  - intros W. apply andb_true_iff in W as [_ W].
    induction kvs as [ | [k x] kvs IHkvs]; [reflexivity | ].
    cbn [forallb snd] in *. apply andb_true_iff in W as [W1 W2].
    rewrite (IH x W1). exact (IHkvs W2).
Qed.

Lemma dict_set_fresh (d : list (string * json)) (k : string) (v : json) :
  existsb (String.eqb k) (map fst d) = false -> dict_set d k v = d ++ [(k, v)].
Proof.
  induction d as [ | [k' v'] d IH]; [reflexivity | ].
  cbn [map fst existsb dict_set app]. intros E. apply orb_false_iff in E as [E1 E2].
  rewrite E1, (IH E2). reflexivity.
Qed.

Lemma existsb_app_false {A : Type} (f : A -> bool) (l1 l2 : list A) :
  existsb f (l1 ++ l2) = false <-> existsb f l1 = false /\ existsb f l2 = false.
Proof. rewrite existsb_app. apply orb_false_iff. Qed.

Lemma distinct_app_cons (l1 : list string) (k : string) (l2 : list string) :
  distinct (l1 ++ k :: l2) = true ->
  existsb (String.eqb k) l1 = false /\ distinct ((l1 ++ [k]) ++ l2) = true.
Proof.
  induction l1 as [ | a l1 IH]; simpl.
  - intros D. split; [reflexivity | exact D].
  - intros D. apply andb_true_iff in D as [D1 D2]. apply negb_true_iff in D1.
    apply existsb_app_false in D1 as [D1 D3]. simpl in D3.
    apply orb_false_iff in D3 as [D3 D4].
    destruct (IH D2) as [I1 I2]. split.
    + apply orb_false_iff. split; [ | exact I1].
      rewrite String.eqb_sym. exact D3.
    + apply andb_true_iff. split; [ | exact I2]. apply negb_true_iff.
      rewrite <- List.app_assoc. simpl. apply existsb_app_false. split; [exact D1 | ].
      simpl. rewrite D3, D4. reflexivity.
Qed.

Lemma dict_of_pairs_distinct (pairs : list (string * json)) :
  distinct (map fst pairs) = true -> dict_of_pairs pairs = pairs.
Proof.
  unfold dict_of_pairs.
  assert (G : forall acc, distinct (map fst (acc ++ pairs)) = true ->
                          fold_left (fun d kv => dict_set d (fst kv) (snd kv)) pairs acc
                          = acc ++ pairs).
  { induction pairs as [ | [k v] pairs IH]; intros acc D.
    - rewrite List.app_nil_r. reflexivity.
    - cbn [fold_left fst snd]. rewrite List.map_app in D. cbn [map fst] in D.
      apply distinct_app_cons in D as [D1 D2].
      rewrite (dict_set_fresh _ _ _ D1), IH.
      + rewrite <- List.app_assoc. reflexivity.
      + rewrite !List.map_app. exact D2. }
  intros D. exact (G [] D).
Qed.

Local Open Scope string_scope.


(** *** One step of the decoder *)

Lemma parse_value_string (fuel : nat) (rest : string) :
  parse_value (S fuel) (String dquote rest)
  = match scanstring rest with
    | Some (str, r) => Some (JStr str, r)
    | None => None
    end.
Proof. reflexivity. Qed.

Lemma parse_value_object (fuel : nat) (rest : string) :
  parse_value (S fuel) (String "{" rest)
  = match skip_ws rest with
    | EmptyString => None
    | String c1 r1 =>
        if Ascii.eqb c1 "}" then Some (JObj [], r1)
        else if Ascii.eqb c1 dquote then
          match parse_members fuel r1 with
          | Some (pairs, r2) => Some (JObj (dict_of_pairs pairs), r2)
          | None => None
          end
        else None
    end.
Proof. reflexivity. Qed.

Lemma parse_value_array (fuel : nat) (rest : string) :
  parse_value (S fuel) (String "[" rest)
  = match skip_ws rest with
    | EmptyString => None
    | String c1 r1 =>
        if Ascii.eqb c1 "]" then Some (JArr [], r1)
        else
          match parse_elements fuel (String c1 r1) with
          | Some (xs, r2) => Some (JArr xs, r2)
          | None => None
          end
    end.
Proof. reflexivity. Qed.

Lemma parse_value_number (fuel : nat) (c : ascii) (rest : string) :
  digit_of c <> None \/ c = "-"%char ->
  parse_value (S fuel) (String c rest)
  = match scan_int (String c rest) with
    | Some (n, r) => Some (JInt n, r)
    | None => None
    end.
Proof.
  intros D.
  destruct c as [[] [] [] [] [] [] [] []];
    try (exfalso; destruct D as [D | D]; [apply D; reflexivity | discriminate D]);
    reflexivity.
Qed.

Lemma parse_elements_S (fuel : nat) (s : string) :
  parse_elements (S fuel) s
  = match parse_value fuel s with
    | None => None
    | Some (v, r) =>
        match skip_ws r with
        | EmptyString => None
        | String c r1 =>
            if Ascii.eqb c "]" then Some ([v], r1)
            else if Ascii.eqb c "," then
              match parse_elements fuel (skip_ws r1) with
              | Some (vs, r2) => Some (v :: vs, r2)
              | None => None
              end
            else None
        end
    end.
Proof. reflexivity. Qed.

Lemma parse_members_S (fuel : nat) (s : string) :
  parse_members (S fuel) s
  = match scanstring s with
    | None => None
    | Some (k, r) =>
        match skip_ws r with
        | EmptyString => None
        | String c r1 =>
            if Ascii.eqb c ":" then
              match parse_value fuel (skip_ws r1) with
              | None => None
              | Some (v, r2) =>
                  match skip_ws r2 with
                  | EmptyString => None
                  | String c2 r3 =>
                      if Ascii.eqb c2 "}" then Some ([(k, v)], r3)
                      else if Ascii.eqb c2 "," then
                        match skip_ws r3 with
                        | EmptyString => None
                        | String c3 r4 =>
                            if Ascii.eqb c3 dquote then
                              match parse_members fuel r4 with
                              | Some (ps, r5) => Some ((k, v) :: ps, r5)
                              | None => None
                              end
                            else None
                        end
                      else None
                  end
              end
            else None
        end
    end.
Proof. reflexivity. Qed.

(** *** Induction on documents *)

Section JsonInd.
Variable P : json -> Prop.
Hypothesis HNull : P JNull.
Hypothesis HBool : forall b, P (JBool b).
Hypothesis HInt : forall n, P (JInt n).
Hypothesis HFloat : forall bits, P (JFloat bits).
Hypothesis HStr : forall s, P (JStr s).
Hypothesis HArr : forall xs, Forall P xs -> P (JArr xs).
Hypothesis HObj : forall kvs, Forall (fun kv => P (snd kv)) kvs -> P (JObj kvs).

Fixpoint json_nested_ind (v : json) : P v :=
  match v with
  | JNull => HNull
  | JBool b => HBool b
  | JInt n => HInt n
  | JFloat bits => HFloat bits
  | JStr s => HStr s
  | JArr xs =>
      HArr xs ((fix all (xs : list json) : Forall P xs :=
                  match xs with
                  | [] => Forall_nil P
                  | x :: xs' => Forall_cons x (json_nested_ind x) (all xs')
                  end) xs)
  | JObj kvs =>
      HObj kvs ((fix all (kvs : list (string * json)) : Forall (fun kv => P (snd kv)) kvs :=
                   match kvs with
                   | [] => Forall_nil _
                   | kv :: kvs' => Forall_cons kv (json_nested_ind (snd kv)) (all kvs')
                   end) kvs)
  end.

End JsonInd.



Ltac flat := repeat first [rewrite append_assoc | progress cbn [append]].

Ltac lengths :=
  repeat first [rewrite length_append | progress cbn [String.length append]]; lia.

(** Decide the tests on the characters that are known. *)
Ltac known b :=
  lazymatch b with
  | true => idtac
  | false => idtac
  end.

Ltac char_tests :=
  repeat (cbn [append skip_ws];
          match goal with
          | |- context [is_ws ?c] =>
              let b := eval vm_compute in (is_ws c) in
              known b; change (is_ws c) with b
          | |- context [Ascii.eqb ?c ?d] =>
              let b := eval vm_compute in (Ascii.eqb c d) in
              known b; change (Ascii.eqb c d) with b
          end; cbv iota).

Lemma skip_ws_encode (level : nat) (v : json) (z : string) :
  float_free v = true -> skip_ws (encode level v ++ z) = encode level v ++ z.
Proof.
  intros F. destruct (encode_head level v F) as (c & tail & E & O).
  rewrite E. cbn [append]. apply skip_ws_value. exact O.
Qed.

Lemma ends_number_items (enc : json -> string) (level : nat) (xs : list json) (rest : string) :
  ends_number (encode_items enc level xs ++ rest).
Proof. destruct xs; reflexivity. Qed.

Lemma ends_number_members (enc : json -> string) (level : nat) (kvs : list (string * json))
  (rest : string) :
  ends_number (encode_members enc level kvs ++ rest).
Proof. destruct kvs as [ | [k x] kvs]; reflexivity. Qed.

Lemma length_items (enc : json -> string) (level : nat) (xs : list json) :
  (1 <= String.length (encode_items enc level xs))%nat.
Proof. destruct xs; cbn; lia. Qed.

Lemma length_members (enc : json -> string) (level : nat) (kvs : list (string * json)) :
  (1 <= String.length (encode_members enc level kvs))%nat.
Proof. destruct kvs as [ | [k x] kvs]; cbn; lia. Qed.

Lemma elements_read_back (level : nat) (xs : list json) :
  Forall reads_back xs -> forallb well_formed xs = true ->
  forall x fuel rest,
    reads_back x -> well_formed x = true ->
    (String.length (encode (S level) x)
     + String.length (encode_items (encode (S level)) level xs) < fuel)%nat ->
    parse_elements fuel
      (encode (S level) x ++ encode_items (encode (S level)) level xs ++ rest)
    = Some (x :: xs, rest).
Proof.
  induction xs as [ | y ys IH]; intros Hxs Wxs x fuel rest Hx Wx L;
    (destruct fuel as [ | fuel]; [lia | ]); rewrite parse_elements_S.
  - rewrite (Hx Wx (S level) fuel _ (ends_number_items _ _ _ _)) by (cbn in L; lia).
    cbn [encode_items]. flat. rewrite skip_ws_newline_indent. reflexivity.
  - inversion Hxs as [ | ? ? Hy Hys]; subst.
    cbn [forallb] in Wxs. apply andb_true_iff in Wxs as [Wy Wys].
    rewrite (Hx Wx (S level) fuel _ (ends_number_items _ _ _ _))
      by (pose proof (length_items (encode (S level)) level (y :: ys)); lia).
    cbn [encode_items] in *. flat. cbn [skip_ws].
    change (is_ws ",") with false. cbv iota.
    change (Ascii.eqb "," "]") with false. change (Ascii.eqb "," ",") with true. cbv iota.
    rewrite skip_ws_newline_indent, skip_ws_encode by (apply well_formed_float_free; exact Wy).
    rewrite (IH Hys Wys y fuel rest Hy Wy); [reflexivity | ].
    revert L. lengths.
Qed.

Lemma members_read_back (level : nat) (kvs : list (string * json)) :
  Forall (fun kv => reads_back (snd kv)) kvs ->
  forallb (fun kv => well_formed (snd kv)) kvs = true ->
  forall k x fuel rest,
    reads_back x -> well_formed x = true ->
    (String.length (encode (S level) x)
     + String.length (encode_members (encode (S level)) level kvs) < fuel)%nat ->
    parse_members fuel
      (escape_string k
       ++ String dquote
            (String ":" (String " "
               (encode (S level) x
                ++ encode_members (encode (S level)) level kvs ++ rest))))
    = Some ((k, x) :: kvs, rest).
Proof.
  induction kvs as [ | [k' y] kvs IH]; intros Hkvs Wkvs k x fuel rest Hx Wx L;
    (destruct fuel as [ | fuel]; [lia | ]); rewrite parse_members_S;
    rewrite scanstring_escape_string; char_tests;
    rewrite skip_ws_encode by (apply well_formed_float_free; exact Wx).
  - rewrite (Hx Wx (S level) fuel _ (ends_number_members _ _ _ _)) by (cbn in L; lia).
    cbn [encode_members]. flat. rewrite skip_ws_newline_indent. reflexivity.
  - inversion Hkvs as [ | ? ? Hy Hys]; subst. cbn [snd] in Hy.
    cbn [forallb snd] in Wkvs. apply andb_true_iff in Wkvs as [Wy Wys].
    rewrite (Hx Wx (S level) fuel _ (ends_number_members _ _ _ _))
      by (pose proof (length_members (encode (S level)) level ((k', y) :: kvs)); lia).
    cbn [encode_members] in *. unfold encode_string in *. flat. char_tests.
    rewrite skip_ws_newline_indent. char_tests. flat.
    rewrite (IH Hys Wys k' y fuel rest Hy Wy); [reflexivity | ].
    revert L. lengths.
Qed.

(** Every document of the fragment is read back from its encoding. *)
Lemma encode_reads_back (v : json) : reads_back v.
Proof.
  induction v as [ | b | n | bits | s | xs IH | kvs IH] using json_nested_ind;
    intros W level fuel rest E L; (destruct fuel as [ | fuel]; [lia | ]).
  - reflexivity.
  - destruct b; reflexivity.
  - assert (F : float_free (JInt n) = true) by reflexivity.
    destruct (encode_head level (JInt n) F) as (c & tail & Ec & O).
    pose proof (scan_int_encode_int n rest E) as S.
    cbn [encode] in *. rewrite Ec in *. cbn [append] in *.
    rewrite parse_value_number, S; [reflexivity | ].
    destruct n as [ | p | p]; cbn [encode_int] in Ec.
    + left. inversion Ec. discriminate.
    + left. destruct (string_of_uint_head (Pos.to_uint p) (proj1 (to_uint_head p)))
        as (c' & tail' & E' & _ & D). rewrite E' in Ec. inversion Ec. subst. exact D.
    + right. inversion Ec. reflexivity.
  - discriminate.
  - cbn [encode]. destruct (encode_string_read s rest) as (tail & T & R).
    rewrite T, parse_value_string, R. reflexivity.
  - destruct xs as [ | x xs]; [reflexivity | ].
    inversion IH as [ | ? ? Hx Hxs]; subst.
    cbn [well_formed forallb] in W. apply andb_true_iff in W as [Wx Wxs].
    cbn [encode] in *. flat. rewrite parse_value_array, skip_ws_newline_indent.
    destruct (encode_head (S level) x (well_formed_float_free x Wx)) as (c & tail & Ec & O).
    destruct (opens_value_facts c O) as (Ows & Oclose & _).
    assert (P : parse_elements fuel
                  (encode (S level) x ++ encode_items (encode (S level)) level xs ++ rest)
                = Some (x :: xs, rest)).
    { apply elements_read_back; auto.
      revert L. lengths. }
    rewrite Ec in *. cbn [append] in *. cbn [skip_ws]. rewrite Ows, Oclose, P. reflexivity.
  - destruct kvs as [ | [k x] kvs]; [reflexivity | ].
    inversion IH as [ | ? ? Hx Hxs]; subst. cbn [snd] in Hx.
    pose proof W as W'.
    cbn [well_formed forallb snd] in W. apply andb_true_iff in W as [D W].
    apply andb_true_iff in W as [Wx Wxs].
    cbn [encode] in *. unfold encode_string in *. flat.
    rewrite parse_value_object, skip_ws_newline_indent. char_tests.
    rewrite (members_read_back level kvs Hxs Wxs k x fuel rest Hx Wx).
    + rewrite (dict_of_pairs_distinct _ D). reflexivity.
    + revert L. lengths.
Qed.

(** [json.loads(json.dumps(v, indent=2)) == v]. *)
Lemma loads_encode (v : json) : well_formed v = true -> loads (encode 0 v) = Parsed v.
Proof.
  intros W. unfold loads.
  rewrite <- (append_nil_r (encode 0 v)) at 2.
  rewrite skip_ws_encode by (apply well_formed_float_free; exact W).
  rewrite (encode_reads_back v W 0 _ EmptyString I) by lia.
  reflexivity.
Qed.


(** *** What the decoder makes is in the fragment *)

Local Open Scope list_scope.

Lemma dict_set_keys (d : list (string * json)) (k : string) (v : json) :
  map fst (dict_set d k v)
  = if existsb (String.eqb k) (map fst d) then map fst d else map fst d ++ [k].
Proof.
  induction d as [ | [k' v'] d IH]; [reflexivity | ].
  simpl. destruct (String.eqb k k') eqn:E; simpl; [reflexivity | ].
  rewrite IH. destruct (existsb (String.eqb k) (map fst d)); reflexivity.
Qed.

Lemma distinct_snoc (l : list string) (k : string) :
  distinct l = true -> existsb (String.eqb k) l = false -> distinct (l ++ [k]) = true.
Proof.
  induction l as [ | a l IH]; simpl; [reflexivity | ].
  intros D F. apply andb_true_iff in D as [D1 D2]. apply orb_false_iff in F as [F1 F2].
  apply andb_true_iff. split; [ | exact (IH D2 F2)].
  apply negb_true_iff. apply negb_true_iff in D1.
  rewrite existsb_app, D1. simpl. rewrite String.eqb_sym, F1. reflexivity.
Qed.

Lemma dict_set_distinct (d : list (string * json)) (k : string) (v : json) :
  distinct (map fst d) = true -> distinct (map fst (dict_set d k v)) = true.
Proof.
  intros D. rewrite dict_set_keys.
  destruct (existsb (String.eqb k) (map fst d)) eqn:E; [exact D | ].
  apply distinct_snoc; assumption.
Qed.

Lemma dict_set_values (d : list (string * json)) (k : string) (v : json) :
  forallb (fun kv => well_formed (snd kv)) d = true -> well_formed v = true ->
  forallb (fun kv => well_formed (snd kv)) (dict_set d k v) = true.
Proof.
  intros W Wv. induction d as [ | [k' v'] d IH]; simpl in *.
  - rewrite Wv. reflexivity.
  - apply andb_true_iff in W as [W1 W2].
    destruct (String.eqb k k'); simpl; [rewrite Wv | rewrite W1, (IH W2)]; auto.
Qed.

Lemma dict_of_pairs_well_formed (pairs : list (string * json)) :
  forallb (fun kv => well_formed (snd kv)) pairs = true ->
  well_formed (JObj (dict_of_pairs pairs)) = true.
Proof.
  unfold dict_of_pairs.
  assert (G : forall acc,
             well_formed (JObj acc) = true ->
             forallb (fun kv => well_formed (snd kv)) pairs = true ->
             well_formed
               (JObj (fold_left (fun d kv => dict_set d (fst kv) (snd kv)) pairs acc)) = true).
  { induction pairs as [ | [k v] pairs IH]; intros acc A W; [exact A | ].
    simpl in W. apply andb_true_iff in W as [W1 W2].
    cbn [fold_left fst snd]. apply IH; [ | exact W2].
    cbn [well_formed] in *. apply andb_true_iff in A as [A1 A2].
    apply andb_true_iff. split.
    - apply dict_set_distinct. exact A1.
    - apply dict_set_values; assumption. }
  apply G. reflexivity.
Qed.

Local Open Scope string_scope.

Lemma parse_value_S (fuel : nat) (s : string) :
  parse_value (S fuel) s
  = match s with
    | EmptyString => None
    | String c rest =>
        if Ascii.eqb c dquote then
          match scanstring rest with
          | Some (str, r) => Some (JStr str, r)
          | None => None
          end
        else if Ascii.eqb c "{" then
          match skip_ws rest with
          | EmptyString => None
          | String c1 r1 =>
              if Ascii.eqb c1 "}" then Some (JObj [], r1)
              else if Ascii.eqb c1 dquote then
                match parse_members fuel r1 with
                | Some (pairs, r2) => Some (JObj (dict_of_pairs pairs), r2)
                | None => None
                end
              else None
          end
        else if Ascii.eqb c "[" then
          match skip_ws rest with
          | EmptyString => None
          | String c1 r1 =>
              if Ascii.eqb c1 "]" then Some (JArr [], r1)
              else
                match parse_elements fuel (String c1 r1) with
                | Some (xs, r2) => Some (JArr xs, r2)
                | None => None
                end
          end
        else if Ascii.eqb c "n" then
          match strip_prefix "ull" rest with
          | Some r => Some (JNull, r)
          | None => None
          end
        else if Ascii.eqb c "t" then
          match strip_prefix "rue" rest with
          | Some r => Some (JBool true, r)
          | None => None
          end
        else if Ascii.eqb c "f" then
          match strip_prefix "alse" rest with
          | Some r => Some (JBool false, r)
          | None => None
          end
        else
          match scan_int s with
          | Some (n, r) => Some (JInt n, r)
          | None => None
          end
    end.
Proof. destruct s; reflexivity. Qed.

Ltac parsed H :=
  repeat match type of H with
         | None = Some _ => discriminate H
         | Some _ = Some _ => inversion H; subst; clear H
         | (if ?b then _ else _) = Some _ => destruct b eqn:?
         | match ?x with _ => _ end = Some _ => destruct x eqn:?
         end.

Lemma parsed_well_formed (fuel : nat) :
  (forall s v r, parse_value fuel s = Some (v, r) -> well_formed v = true)
  /\ (forall s vs r, parse_elements fuel s = Some (vs, r) -> forallb well_formed vs = true)
  /\ (forall s ps r, parse_members fuel s = Some (ps, r) ->
                     forallb (fun kv => well_formed (snd kv)) ps = true).
Proof.
  induction fuel as [ | fuel (IHv & IHe & IHm)].
  - repeat split; intros; discriminate.
  - split; [ | split].
    + intros s v r P. rewrite parse_value_S in P. parsed P; try reflexivity.
      * apply dict_of_pairs_well_formed. eapply IHm. eassumption.
      * cbn [well_formed]. eapply IHe. eassumption.
    + intros s vs r P. rewrite parse_elements_S in P. parsed P; cbn [forallb].
      * erewrite IHv by eassumption. reflexivity.
      * erewrite IHv, IHe by eassumption. reflexivity.
    + intros s ps r P. rewrite parse_members_S in P. parsed P; cbn [forallb snd].
      * erewrite IHv by eassumption. reflexivity.
      * erewrite IHv, IHm by eassumption. reflexivity.
Qed.

Lemma loads_well_formed (text : string) (d : json) :
  loads text = Parsed d -> well_formed d = true.
Proof.
  unfold loads. intros L.
  destruct (parse_value (S (String.length text)) (skip_ws text)) as [[v r] | ] eqn:P;
    [ | discriminate].
  destruct (skip_ws r); [ | discriminate].
  inversion L; subst. exact (proj1 (parsed_well_formed _) _ _ _ P).
Qed.

(** A configuration that was read from a text is written and read again
    as itself. *)
Lemma loads_dumps (text : string) (d : json) :
  loads text = Parsed d ->
  dumps d = Some (encode 0 d) /\ loads (encode 0 d) = Parsed d.
Proof.
  intros L. pose proof (loads_well_formed text d L) as W. split.
  - unfold dumps. rewrite (well_formed_float_free d W). reflexivity.
  - apply loads_encode. exact W.
Qed.

End PyJsonFacts.

(** ** Saving what was loaded *)

Section RoundTrip.
Context `{Env}.

Lemma config_file_written (content : string) (f : files) :
  write_file CONFIG_FILE content f CONFIG_FILE = Some content.
Proof. unfold write_file. rewrite String.eqb_refl. reflexivity. Qed.


End RoundTrip.


Lemma menu_dispatch_witness :
  In (Print (error_line [Lit "Invalid option. Please try again."]))
     (log (menu_pass (H := lab 0) VmMenu 3 (lab_world ["x"; ""])))
  /\ out (menu_pass (H := lab 0) MainMenu 3 (lab_world ["q"])) = Exit 0
  /\ out (menu_pass (H := lab 0) VmMenu 3 (lab_world [" b"])) = Ret Break
  /\ out (menu_pass (H := lab 0) MainMenu 4 (lab_world ["6"; "b"])) = Ret Continue.
Proof.
  split; [ | split; [ | split]].
  - refine (proj1 (proj2 (proj1 (menu_dispatch (H := lab 0) VmMenu 3 (lab_world ["x"; ""]))
                            "x" EmptyString [] _ _ _ _))).
    + reflexivity.
    + reflexivity.
    + reflexivity.
    + vm_compute. reflexivity.
  - refine (proj2 (proj1 (proj2 (menu_dispatch (H := lab 0) MainMenu 3 (lab_world ["q"])))
                     "q" [] _ _ _)).
    + reflexivity.
    + reflexivity.
    + vm_compute. reflexivity.
  - refine (proj1 (proj2 (proj1 (proj2 (proj2 (menu_dispatch (H := lab 0) VmMenu 3
                                                 (lab_world [" b"]))))
                            " b" [] _ _))).
    + reflexivity.
    + reflexivity.
  - refine (proj1 (proj2 (proj2 (proj2 (menu_dispatch (H := lab 0) VmMenu 3
                                          (lab_world ["6"; "b"]))))
                     "6" "b" [] _ _ _ _ _)).
    + discriminate.
    + reflexivity.
    + reflexivity.
    + reflexivity.
    + vm_compute. reflexivity.
Defined.

Section Laws.
Context `{Env}.
Context (R : law) `{Lawful R}.

Lemma obeys_ret {A : Type} (a : A) : obeys R (ret a).
Proof. intros w. apply law_idle. Qed.

Lemma obeys_raise {A : Type} (e : exn) : obeys R (@raise A e).
Proof. intros w. apply law_raise. Qed.

Lemma obeys_lift_getitem (v : json) (k : string) : obeys R (lift (py_getitem v k)).
Proof.
  intros w. unfold lift, py_getitem. cbn [out world log].
  destruct v; try apply law_raise.
  destruct (dict_get kvs k); [apply law_idle | apply law_raise].
Qed.

Lemma obeys_lift_len (v : json) : obeys R (lift (py_len v)).
Proof.
  intros w. unfold lift, py_len. cbn [out world log].
  destruct v; first [apply law_raise | apply law_idle].
Qed.

Lemma obeys_lift_join (sep : string) (v : json) : obeys R (lift (py_join sep v)).
Proof.
  intros w. unfold lift, py_join, py_iter. cbn [out world log].
  destruct v; try apply law_raise;
    match goal with
    | |- context [all_strings ?xs] => destruct (all_strings xs)
    end; first [apply law_raise | apply law_idle].
Qed.

Lemma obeys_lift_iter (v : json) : obeys R (lift (py_iter v)).
Proof.
  intros w. unfold lift, py_iter. cbn [out world log].
  destruct v; first [apply law_raise | apply law_idle].
Qed.

Lemma obeys_print (t : text) : obeys R (print t).
Proof. intros w. apply law_print. Qed.

Lemma obeys_clear_screen : obeys R clear_screen.
Proof. intros w. apply law_clear. Qed.

Lemma obeys_input (prompt : text) : obeys R (input prompt).
Proof.
  intros w. unfold input. destruct (stdin w) as [ | [s | ] rest] eqn:E; cbn [out world log ending_of].
  - apply law_eof. exact E.
  - apply law_line. exact E.
  - apply law_interrupt. exact E.
Qed.

Lemma obeys_path_exists (p : string) : obeys R (path_exists p).
Proof. intros w. apply law_idle. Qed.

Lemma obeys_Colors_disable : obeys R Colors_disable.
Proof. intros w. apply law_colors. Qed.

Lemma obeys_bind {A B : Type} (m : M A) (k : A -> M B) :
  obeys R m -> (forall a, obeys R (k a)) -> obeys R (bind m k).
Proof.
  intros Hm Hk w. specialize (Hm w). unfold bind.
  destruct (out (m w)) as [a | c | e | ]; cbn [out world log ending_of] in *; try exact Hm.
  eapply law_seq; [exact Hm | apply Hk].
Qed.

Lemma obeys_for_each {A : Type} (xs : list A) (body : A -> M unit) :
  (forall x, obeys R (body x)) -> obeys R (for_each xs body).
Proof.
  intros Hb. induction xs as [ | x xs IH]; cbn [for_each].
  - apply obeys_ret.
  - apply obeys_bind; auto.
Qed.

Lemma obeys_get (path : list string) : forall v, obeys R (get v path).
Proof.
  induction path as [ | k path IH]; intros v; cbn [get].
  - apply obeys_ret.
  - apply obeys_bind; [apply obeys_lift_getitem | auto].
Qed.

Lemma obeys_subprocess_run `{!Spawning R} (cmd : list text) : obeys R (subprocess_run cmd).
Proof.
  intros w. unfold subprocess_run. destruct (spawn cmd); cbn [out world log ending_of].
  - apply law_started.
  - apply law_not_started.
Qed.

Lemma obeys_sys_exit `{!Exitable R} {A : Type} (c : Z) : obeys R (@sys_exit A c).
Proof. intros w. apply law_exit. Qed.

Lemma obeys_load_config `{!Exitable R} : obeys R load_config.
Proof.
  intros w. unfold load_config.
  destruct (fs w CONFIG_FILE) as [content | ].
  - destruct (json_loads content).
    + apply obeys_ret.
    + apply obeys_bind; [apply obeys_print | intros _; apply obeys_sys_exit].
    + apply obeys_raise.
  - apply obeys_bind; [apply obeys_print | intros _; apply obeys_sys_exit].
Qed.

Lemma obeys_except `{!Catching R} {A : Type} (m handler : M A) :
  obeys R m -> obeys R handler -> obeys R (except_KeyboardInterrupt m handler).
Proof.
  intros Hm Hh w. specialize (Hm w). unfold except_KeyboardInterrupt.
  destruct (out (m w)) as [a | c | [ | | k | | | | ] | ] eqn:E; try (rewrite E; exact Hm).
  cbn [out world log ending_of] in *.
  eapply law_caught; [exact Hm | apply Hh].
Qed.

Lemma obeys_while_true `{!Patient R} (fuel : nat) (body : M ctl) :
  obeys R body -> obeys R (while_true fuel body).
Proof.
  intros Hb. induction fuel as [ | n IH]; cbn [while_true].
  - intros w. apply law_starved.
  - apply obeys_bind; [exact Hb | ]. intros [ | ]; [exact IH | apply obeys_ret].
Qed.

End Laws.

(** Splits a goal [obeys R m] along the structure of [m]. *)
Ltac law_step :=
  lazymatch goal with
  | |- obeys _ (ret _) => apply obeys_ret; typeclasses eauto
  | |- obeys _ (raise _) => apply obeys_raise; typeclasses eauto
  | |- obeys _ (lift (py_getitem _ _)) => apply obeys_lift_getitem; typeclasses eauto
  | |- obeys _ (lift (py_len _)) => apply obeys_lift_len; typeclasses eauto
  | |- obeys _ (lift (py_join _ _)) => apply obeys_lift_join; typeclasses eauto
  | |- obeys _ (lift (py_iter _)) => apply obeys_lift_iter; typeclasses eauto
  | |- obeys _ (sys_exit _) => apply obeys_sys_exit; typeclasses eauto
  | |- obeys _ (print _) => apply obeys_print; typeclasses eauto
  | |- obeys _ clear_screen => apply obeys_clear_screen; typeclasses eauto
  | |- obeys _ load_config => apply obeys_load_config; typeclasses eauto
  | |- obeys _ (get _ _) => apply obeys_get; typeclasses eauto
  | |- obeys _ (path_exists _) => apply obeys_path_exists; typeclasses eauto
  | |- obeys _ Colors_disable => apply obeys_Colors_disable; typeclasses eauto
  | |- obeys _ (input _) => apply obeys_input; typeclasses eauto
  | |- obeys _ (subprocess_run _) => apply obeys_subprocess_run; typeclasses eauto
  | |- obeys _ (for_each _ _) => apply obeys_for_each; [typeclasses eauto | intros ?]
  | |- obeys _ (while_true _ _) =>
      apply obeys_while_true; [typeclasses eauto | typeclasses eauto | ]
  | |- obeys _ (except_KeyboardInterrupt _ _) =>
      apply obeys_except; [typeclasses eauto .. | | ]
  | |- obeys _ (bind _ _) => apply obeys_bind; [typeclasses eauto | | intros ? ]
  | |- obeys _ (if ?b then _ else _) => destruct b
  | |- obeys _ (match ?x with _ => _ end) => destruct x
  | |- obeys _ (let x := _ in _) => cbv zeta
  | |- obeys _ (?f _ _ _ _ _ _) => unfold f
  | |- obeys _ (?f _ _ _ _ _) => unfold f
  | |- obeys _ (?f _ _ _ _) => unfold f
  | |- obeys _ (?f _ _ _) => unfold f
  | |- obeys _ (?f _ _) => unfold f
  | |- obeys _ (?f _) => unfold f
  | |- obeys _ ?f => unfold f
  end.

Ltac law_tac := repeat law_step.

(** *** The input and the files *)

Lemma taken_app (l1 l2 : list event) : taken (l1 ++ l2) = taken l1 ++ taken l2.
Proof.
  induction l1 as [ | e l1 IH]; [reflexivity | ].
  destruct e as [ | t | p [k | ] | cmd cwd]; cbn [List.app taken]; rewrite IH; reflexivity.
Qed.

#[export] Instance Lawful_frame : Lawful frame.
Proof.
  split; unfold frame; cbn [taken List.app fs stdin set_stdin set_colors]; intros; auto.
  destruct H as [F1 S1], H0 as [F2 S2]. split; [congruence | ].
  rewrite taken_app, <- app_assoc, <- S2. exact S1.
Qed.

#[export] Instance Catching_frame : Catching frame.
Proof.
  intros w w1 w2 l1 l2 o [F1 S1] [F2 S2]. unfold frame. split; [congruence | ].
  rewrite taken_app, <- app_assoc, <- S2. exact S1.
Qed.

#[export] Instance Spawning_frame : Spawning frame.
Proof. split; unfold frame; cbn; auto. Qed.

#[export] Instance Exitable_frame : Exitable frame.
Proof. intros w c. unfold frame. cbn. auto. Qed.

#[export] Instance Patient_frame : Patient frame.
Proof. intros w. unfold frame. cbn. auto. Qed.

Section Frame.
Context `{Env}.

Lemma main_frame (fuel : nat) : obeys frame (main fuel).
Proof. law_tac. Qed.

End Frame.

(** *** Passes and fuel *)

#[export] Instance Lawful_lively (n : nat) : Lawful (lively n).
Proof.
  split; unfold lively; cbn [stdin set_stdin set_colors]; intros;
    try (split; [lia | intros _; discriminate]).
  - rewrite H. cbn [List.length]. split; [lia | intros _; discriminate].
  - rewrite H. cbn [List.length]. split; [lia | intros _; discriminate].
  - destruct H as [L1 _], H0 as [L2 N2]. split; [lia | ]. intros L. apply N2. lia.
Qed.

#[export] Instance Catching_lively (n : nat) : Catching (lively n).
Proof.
  intros w w1 w2 l1 l2 o [L1 _] [L2 N2]. unfold lively. split; [lia | ].
  intros L. apply N2. lia.
Qed.

#[export] Instance Spawning_lively (n : nat) : Spawning (lively n).
Proof. split; unfold lively; intros; (split; [lia | intros _; discriminate]). Qed.

#[export] Instance Exitable_lively (n : nat) : Exitable (lively n).
Proof. intros w c. unfold lively. split; [lia | intros _; discriminate]. Qed.

#[export] Instance Patient_lively_0 : Patient (lively 0).
Proof. intros w. unfold lively. split; lia. Qed.

Section Passes.
Context `{Env}.

Lemma consuming_input (prompt : text) : consuming (input prompt).
Proof.
  intros w a. unfold input. destruct (stdin w) as [ | [s | ] rest]; cbn; try discriminate.
  intros _. lia.
Qed.

Lemma consuming_bind_l {A B : Type} (m : M A) (k : A -> M B) :
  consuming m -> (forall a, obeys (lively 0) (k a)) -> consuming (bind m k).
Proof.
  intros Hm Hk w b. unfold bind. specialize (Hm w).
  destruct (out (m w)) as [a | | | ]; cbn [out world]; try discriminate.
  intros _. specialize (Hm a eq_refl). destruct (Hk a (world (m w))) as [L _]. lia.
Qed.

Lemma consuming_bind_r {A B : Type} (m : M A) (k : A -> M B) :
  obeys (lively 0) m -> (forall a, consuming (k a)) -> consuming (bind m k).
Proof.
  intros Hm Hk w b. unfold bind. destruct (Hm w) as [L _].
  destruct (out (m w)) as [a | | | ]; cbn [out world]; try discriminate.
  intros E. specialize (Hk a (world (m w)) b E). lia.
Qed.

Lemma consuming_get_input (prompt default : string) : consuming (get_input prompt default).
Proof.
  unfold get_input. destruct (negb (is_empty default));
    (apply consuming_bind_l; [apply consuming_input | intros a; law_tac]).
Qed.

Lemma consuming_confirm_action (message : string) : consuming (confirm_action message).
Proof.
  unfold confirm_action. apply consuming_bind_l; [apply consuming_input | intros a; law_tac].
Qed.

Lemma consuming_except {A : Type} (m handler : M A) :
  consuming m -> obeys (lively 0) m -> consuming handler ->
  consuming (except_KeyboardInterrupt m handler).
Proof.
  intros Hm Sm Hh w a. unfold except_KeyboardInterrupt. specialize (Hm w).
  destruct (Sm w) as [L _].
  destruct (out (m w)) as [x | c | [ | | k | | | | ] | ] eqn:E; try (rewrite E; discriminate).
  - rewrite E. intros E'. exact (Hm _ E').
  - cbn [out world]. intros E'. specialize (Hh _ _ E'). lia.
Qed.

(** A loop whose passes each read a key does not run out of passes while
    it has more passes than there are keys to come. *)
Lemma lively_while_true (fuel : nat) (body : M ctl) :
  obeys (lively fuel) body -> consuming body ->
  obeys (lively fuel) (while_true fuel body).
Proof.
  intros Hb Cb.
  assert (G : forall k, (k <= fuel)%nat -> forall w,
             (List.length (stdin (world (while_true k body w))) <= List.length (stdin w))%nat
             /\ ((List.length (stdin w) < k)%nat ->
                 ending_of (out (while_true k body w)) <> Starved)).
  { induction k as [ | k IH]; intros Lk w.
    - cbn. split; lia.
    - cbn [while_true]. unfold bind. destruct (Hb w) as [L N]. specialize (Cb w).
      destruct (out (body w)) as [[ | ] | c | e | ] eqn:E; cbn [out world ending_of] in *.
      + specialize (Cb _ eq_refl). destruct (IH ltac:(lia) (world (body w))) as [L' N'].
        split; [lia | ]. intros Lw. apply N'. lia.
      + unfold ret. cbn [out world]. split; [lia | discriminate].
      + split; [lia | discriminate].
      + split; [lia | discriminate].
      + split; [lia | ]. intros Lw. exfalso. apply N; [lia | reflexivity]. }
  intros w. apply G. lia.
Qed.

End Passes.

Ltac consuming_step :=
  lazymatch goal with
  | |- consuming (input _) => apply consuming_input
  | |- consuming (get_input _ _) => apply consuming_get_input
  | |- consuming (confirm_action _) => apply consuming_confirm_action
  | |- consuming (bind (get_input _ _) _) =>
      apply consuming_bind_l; [apply consuming_get_input | intros ?; law_tac]
  | |- consuming (bind (confirm_action _) _) =>
      apply consuming_bind_l; [apply consuming_confirm_action | intros ?; law_tac]
  | |- consuming (except_KeyboardInterrupt _ _) =>
      apply consuming_except; [ | law_tac | ]
  | |- consuming (bind _ _) => apply consuming_bind_r; [law_tac | intros ?]
  | |- consuming (?f _ _) => unfold f
  | |- consuming (?f _) => unfold f
  | |- consuming ?f => unfold f
  end.

Ltac consuming_tac := repeat consuming_step.

Ltac lively_step :=
  lazymatch goal with
  | |- obeys (lively _) (while_true _ _) =>
      apply lively_while_true; [ | consuming_tac]
  | |- _ => law_step
  end.

Ltac lively_tac := repeat lively_step.

Section Termination.
Context `{Env}.

Lemma main_lively (fuel : nat) : obeys (lively fuel) (main fuel).
Proof. lively_tac. Qed.

End Termination.

(** *** What the loops return *)

Section Yields.
Context `{Env}.

Lemma yields_ret {A : Type} (P : A -> Prop) (a : A) : P a -> yields P (ret a).
Proof. intros Pa w b E. inversion E. subst. exact Pa. Qed.

Lemma yields_sys_exit {A : Type} (P : A -> Prop) (c : Z) : yields P (sys_exit c).
Proof. intros w b E. discriminate. Qed.

Lemma yields_bind {A B : Type} (P : B -> Prop) (m : M A) (k : A -> M B) :
  (forall a, yields P (k a)) -> yields P (bind m k).
Proof.
  intros Hk w b. unfold bind.
  destruct (out (m w)) as [a | | | ]; cbn [out]; try discriminate.
  apply Hk.
Qed.

Lemma yields_except {A : Type} (P : A -> Prop) (m handler : M A) :
  yields P m -> yields P handler -> yields P (except_KeyboardInterrupt m handler).
Proof.
  intros Hm Hh w a. unfold except_KeyboardInterrupt. specialize (Hm w).
  destruct (out (m w)) as [x | c | [ | | k | | | | ] | ] eqn:E; try (rewrite E; discriminate).
  - rewrite E. intros E'. inversion E'. subst. apply Hm. reflexivity.
  - cbn [out]. apply Hh.
Qed.

(** A loop without [break] does not return. *)
Lemma yields_while_true (fuel : nat) (body : M ctl) :
  yields (fun c => c = Continue) body -> yields (fun _ => False) (while_true fuel body).
Proof.
  intros Hb. induction fuel as [ | n IH]; cbn [while_true].
  - intros w a E. discriminate.
  - intros w a. unfold bind. specialize (Hb w).
    destruct (out (body w)) as [c | | | ]; cbn [out]; try discriminate.
    rewrite (Hb c eq_refl). apply IH.
Qed.

End Yields.

Ltac yields_step :=
  lazymatch goal with
  | |- yields _ (ret _) => apply yields_ret; reflexivity
  | |- yields _ (sys_exit _) => apply yields_sys_exit
  | |- yields _ (while_true _ _) => apply yields_while_true
  | |- yields _ (except_KeyboardInterrupt _ _) => apply yields_except
  | |- yields _ (bind _ _) => apply yields_bind; intros ?
  | |- yields _ (if ?b then _ else _) => destruct b
  | |- yields _ (match ?x with _ => _ end) => destruct x
  | |- yields _ (let x := _ in _) => cbv zeta
  | |- yields _ (?f _ _) => unfold f
  | |- yields _ (?f _) => unfold f
  | |- yields _ ?f => unfold f
  end.

Ltac yields_tac := repeat yields_step.

(** *** Last words *)

Section Parting.
Context `{Env}.

Lemma last_words_app (c : Z) (l0 l : list event) : last_words c l -> last_words c (l0 ++ l).
Proof.
  intros (before & tail & E & F). exists (l0 ++ before), tail.
  rewrite E, app_assoc. auto.
Qed.

#[export] Instance Lawful_parting : Lawful parting.
Proof.
  split; unfold parting; intros; try discriminate.
  apply last_words_app. auto.
Qed.

#[export] Instance Catching_parting : Catching parting.
Proof. intros w w1 w2 l1 l2 o _ P c E. apply last_words_app. auto. Qed.

#[export] Instance Spawning_parting : Spawning parting.
Proof. split; unfold parting; intros; discriminate. Qed.

#[export] Instance Patient_parting : Patient parting.
Proof. intros w c E. discriminate. Qed.

Lemma parting_load_config : obeys parting load_config.
Proof.
  intros w c. unfold load_config.
  destruct (fs w CONFIG_FILE) as [content | ].
  - destruct (json_loads content) as [d | msg | e]; cbn; [discriminate | | discriminate].
    intros E. inversion E. subst. exists [], [Print (error_line [Lit "Invalid JSON in configuration file: "; Lit msg])].
    split; [reflexivity | ]. left. split; [reflexivity | ]. right. right. eauto.
  - cbn. intros E. inversion E. subst.
    exists [], [Print (error_line [Lit "Configuration file not found: "; Lit CONFIG_FILE])].
    split; [reflexivity | ]. left. split; [reflexivity | ]. left. reflexivity.
Qed.

Lemma parting_no_config :
  obeys parting
    (print_error [Lit "Configuration file not found: "; Lit CONFIG_FILE] ;;
     print_info [Lit "Please create a config.json file before running this tool."] ;;
     @sys_exit unit 1).
Proof.
  intros w c. cbn. intros E. inversion E. subst.
  eexists [], _. split; [reflexivity | ]. left. split; [reflexivity | ]. right. left. reflexivity.
Qed.

Lemma parting_quit :
  obeys parting
    (print [] ;;
     print_info [Lit "Thank you for using ECST VMware Automation Tool!"] ;;
     print [] ;;
     @sys_exit ctl 0).
Proof.
  intros w c. cbn. intros E. inversion E. subst.
  eexists [], _. split; [reflexivity | ]. right. split; [reflexivity | ]. left. reflexivity.
Qed.

Lemma parting_on_interrupt : obeys parting on_interrupt.
Proof.
  intros w c. unfold on_interrupt, confirm_action.
  cbv beta delta [bind print print_warning emit input ret sys_exit lift]. cbn.
  destruct (stdin w) as [ | [s | ] rest]; cbn; try discriminate.
  destruct (is_yes (lower (strip s))) eqn:Y; cbn; [ | discriminate].
  intros E. inversion E. subst.
  eexists [], _. split; [reflexivity | ]. right. split; [reflexivity | ]. right.
  exists s. split; [exact Y | reflexivity].
Qed.

End Parting.

Ltac parting_step :=
  lazymatch goal with
  | |- obeys parting load_config => apply parting_load_config
  | |- obeys parting on_interrupt => apply parting_on_interrupt
  | |- obeys parting (bind (print_error _) (fun _ => bind (print_info _) (fun _ => sys_exit _))) =>
      apply parting_no_config
  | |- obeys parting
         (bind (print _) (fun _ => bind (print_info _) (fun _ => bind (print _) (fun _ => sys_exit _)))) =>
      apply parting_quit
  | |- _ => law_step
  end.

Ltac parting_tac := repeat parting_step.

(** *** The processes started *)

Section Processes.
Context `{Env}.

#[export] Instance Plain_powershell_if_run : Plain powershell_if_run.
Proof. split; reflexivity. Qed.

Lemma quiet_while_true P (fuel : nat) (body : M ctl) :
  quiet P body -> quiet P (while_true fuel body).
Proof.
  intros Hb. induction fuel as [ | n IH]; cbn [while_true].
  - apply quiet_lift.
  - apply quiet_bind; [exact Hb | ]. intros [ | ]; [exact IH | apply quiet_ret].
Qed.

Lemma quiet_except {A : Type} P (m handler : M A) :
  quiet P m -> quiet P handler -> quiet P (except_KeyboardInterrupt m handler).
Proof.
  intros Hm Hh w. unfold except_KeyboardInterrupt. specialize (Hm w).
  destruct (out (m w)) as [x | c | [ | | k | | | | ] | ]; try exact Hm.
  cbn [log]. rewrite forallb_app, Hm. apply Hh.
Qed.

Lemma quiet_powershell (cmd : list text) :
  (forall cwd, powershell_if_run (Run cmd cwd) = String.eqb cwd SCRIPT_DIR) ->
  quiet powershell_if_run (subprocess_run cmd).
Proof.
  intros E w. unfold subprocess_run.
  destruct (spawn cmd); cbn [log forallb]; rewrite E, String.eqb_refl; reflexivity.
Qed.

End Processes.

Ltac process_step :=
  lazymatch goal with
  | |- quiet _ (while_true _ _) => apply quiet_while_true
  | |- quiet _ (except_KeyboardInterrupt _ _) => apply quiet_except
  | |- quiet powershell_if_run (subprocess_run _) =>
      apply quiet_powershell; intros ?; reflexivity
  | |- quiet _ (input _) => apply quiet_input; intros ?; reflexivity
  | |- _ => quiet_step
  end.

Ltac process_tac := repeat process_step.

Section WholeRuns.
Context `{Env}.

Lemma main_parting (fuel : nat) : obeys parting (main fuel).
Proof. parting_tac. Qed.

Lemma main_yields (fuel : nat) : yields (fun _ => False) (main fuel).
Proof. yields_tac. Qed.

Lemma main_powershell_if_run (fuel : nat) : quiet powershell_if_run (main fuel).
Proof. process_tac. Qed.

End WholeRuns.

(** *** Ctrl-C *)

#[export] Instance Lawful_interrupting : Lawful interrupting.
Proof.
  split; unfold interrupting; intros.
  - destruct H.
  - destruct H.
  - destruct H as [X | []]; discriminate X.
  - destruct H as [X | []]; discriminate X.
  - destruct H0 as [X | []]; discriminate X.
  - destruct H0 as [X | []]. inversion X. subst.
    split; [reflexivity | exists []; reflexivity].
  - destruct H0 as [X | []]; discriminate X.
  - destruct H.
  - apply in_app_or in H1 as [I | I].
    + destruct (H p I) as [X _]. discriminate X.
    + destruct (H0 p I) as (E & before & L). split; [exact E | ].
      exists (l1 ++ before). rewrite L, app_assoc. reflexivity.
Qed.

#[export] Instance Spawning_interrupting : Spawning interrupting.
Proof. split; unfold interrupting; intros; destruct H as [X | []]; discriminate X. Qed.

#[export] Instance Exitable_interrupting : Exitable interrupting.
Proof. intros w c p []. Qed.

#[export] Instance Patient_interrupting : Patient interrupting.
Proof. intros w p []. Qed.

Section Interrupting.
Context `{Env}.

(** Ctrl-C at any prompt of a pass of the main menu - the menu's own, a
    submenu's, an operation's - ends the pass with [KeyboardInterrupt]. *)
Lemma pass_interrupting (fuel : nat) : obeys interrupting (main_menu_pass fuel).
Proof. law_tac. Qed.

End Interrupting.

Section Sessions.
Context `{Env}.

(** X1. A session of the console writes no file: whatever the operator
    types and however the session ends, every path holds after [main] what
    it held before; [config.json] is only ever read. *)
Theorem session_writes_no_file (fuel : nat) (w : World) (path : string) :
  fs (world (main fuel w)) path = fs w path.
Proof. destruct (main_frame fuel w) as [F _]. rewrite F. reflexivity. Qed.

(** X3. Every call of [subprocess.run] a session makes starts
    [powershell.exe -ExecutionPolicy Bypass] with [-File] or [-Command] and
    at least one more argument, in the directory of the script. (The
    screen is cleared through [os.system], which is no such call.) *)
Theorem session_starts_only_powershell (fuel : nat) (w : World) :
  forallb powershell_call (runs (log (main fuel w))) = true.
Proof.
  pose proof (main_powershell_if_run fuel w) as Q.
  induction (log (main fuel w)) as [ | e l IH]; [reflexivity | ].
  cbn [forallb] in Q. apply andb_true_iff in Q as [Q1 Q2].
  unfold runs. cbn [filter]. unfold is_run at 1. unfold powershell_if_run in Q1.
  destruct (no_run e); cbn [negb]; [exact (IH Q2) | ].
  cbn [forallb orb] in *. rewrite Q1. exact (IH Q2).
Qed.

(** X4. [main] has no normal return: a session ends with [sys.exit], with
    an exception that [main] does not catch, or (in the model) with the
    passes of a loop used up. *)
Theorem session_never_returns (fuel : nat) (w : World) :
  (exists c, out (main fuel w) = Exit c)
  \/ (exists e, out (main fuel w) = Raise e)
  \/ out (main fuel w) = NoFuel.
Proof.
  pose proof (main_yields fuel w) as Y.
  destruct (out (main fuel w)) as [a | c | e | ]; eauto.
  destruct (Y a eq_refl).
Qed.

(** X5. When a session on ASCII input ends with [sys.exit], the status
    is 0 or 1 and the last events say why: status 1 comes right after the
    error that the configuration file is missing or is not JSON; status 0
    comes right after the farewell of Q, or after the operator answered yes
    to the question that follows Ctrl-C. (A session that ends with an
    exception no handler catches is not among these.) *)
Theorem session_exit_status (fuel : nat) (w : World) (c : Z) :
  ascii_input w = true ->
  out (main fuel w) = Exit c ->
  (c = 0%Z \/ c = 1%Z) /\ last_words c (log (main fuel w)).
Proof.
  intros _ E. pose proof (main_parting fuel w c) as P. rewrite E in P.
  specialize (P eq_refl). split; [ | exact P].
  destruct P as (before & tail & _ & [[C _] | [C _]]); auto.
Qed.

(** X6. The loops of the console read a key on every pass, so a session
    comes to an end on every finite input: with more passes allowed than
    there are keys, [main] ends with an exit or an exception (the end of
    input raises [EOFError]) and not with its passes used up. *)
Theorem session_ends (fuel : nat) (w : World) :
  (List.length (stdin w) < fuel)%nat ->
  (exists c, out (main fuel w) = Exit c) \/ (exists e, out (main fuel w) = Raise e).
Proof.
  intros L. destruct (main_lively fuel w) as [_ N]. specialize (N L).
  pose proof (main_yields fuel w) as Y.
  destruct (out (main fuel w)) as [a | c | e | ]; eauto.
  - destruct (Y a eq_refl).
  - destruct N. reflexivity.
Qed.

End Sessions.

(** ** Ctrl-C and the end of input *)

Section Interrupts.
Context `{Env}.

Lemma on_interrupt_result (w1 : World) : on_interrupt w1 = after_interrupt w1 [].
Proof.
  unfold after_interrupt, interrupted. cbn [List.app].
  destruct (stdin w1) as [ | [s | ] rest] eqn:K.
  - assert (R : exists o w' l, on_interrupt w1 = mkRes o w' l
                               /\ o = Raise EOFError /\ w' = w1
                               /\ l = [Print []; Print (warning_line [Lit "Operation cancelled by user."]);
                                       Asked (confirm_prompt "Do you want to exit?") None]).
    { do 3 eexists. split; [run | repeat split]. }
    destruct R as (o & w' & l & R & -> & -> & ->). exact R.
  - destruct (is_yes (lower (strip s))) eqn:Y.
    + assert (R : exists o w' l, on_interrupt w1 = mkRes o w' l
                                 /\ o = Exit 0 /\ w' = set_stdin rest w1
                                 /\ l = [Print []; Print (warning_line [Lit "Operation cancelled by user."]);
                                         Asked (confirm_prompt "Do you want to exit?") (Some (Line s))]).
      { do 3 eexists. split; [run | repeat split]. }
      destruct R as (o & w' & l & R & -> & -> & ->). exact R.
    + assert (R : exists o w' l, on_interrupt w1 = mkRes o w' l
                                 /\ o = Ret Continue /\ w' = set_stdin rest w1
                                 /\ l = [Print []; Print (warning_line [Lit "Operation cancelled by user."]);
                                         Asked (confirm_prompt "Do you want to exit?") (Some (Line s))]).
      { do 3 eexists. split; [run | repeat split]. }
      destruct R as (o & w' & l & R & -> & -> & ->). exact R.
  - assert (R : exists o w' l, on_interrupt w1 = mkRes o w' l
                               /\ o = Raise KeyboardInterrupt /\ w' = set_stdin rest w1
                               /\ l = [Print []; Print (warning_line [Lit "Operation cancelled by user."]);
                                       Asked (confirm_prompt "Do you want to exit?") (Some CtrlC)]).
    { do 3 eexists. split; [run | repeat split]. }
    destruct R as (o & w' & l & R & -> & -> & ->). exact R.
Qed.

Lemma interrupt_handled (fuel : nat) (w w1 : World) (l1 : list event) :
  main_menu_pass fuel w = mkRes (Raise KeyboardInterrupt) w1 l1 ->
  menu_pass MainMenu fuel w = after_interrupt w1 l1.
Proof.
  intros E. cbn [menu_pass]. unfold except_KeyboardInterrupt. rewrite E. cbn [out world log].
  rewrite on_interrupt_result. unfold after_interrupt, interrupted.
  destruct (stdin w1) as [ | [s | ] rest]; reflexivity.
Qed.

End Interrupts.

Section Lookups.
Context `{Env}.

Lemma get_as_lookup (path : list string) : forall v w, get v path w = mkRes (lookup v path) w [].
Proof.
  induction path as [ | k path IH]; intros v w; cbn [get lookup]; [reflexivity | ].
  unfold bind, lift. cbn [out world log].
  destruct (py_getitem v k) as [x | c | e | ]; try reflexivity.
  rewrite IH. reflexivity.
Qed.

Lemma lookup_outcome (path : list string) :
  forall v, (exists x, lookup v path = Ret x) \/ (exists e, lookup v path = Raise e).
Proof.
  induction path as [ | k path IH]; intros v; cbn [lookup]; [eauto | ].
  unfold py_getitem. destruct v; eauto.
  destruct (dict_get kvs k); eauto.
Qed.

Lemma get_found (v x : json) (path : list string) (w : World) :
  lookup v path = Ret x -> get v path w = mkRes (Ret x) w [].
Proof. intros E. rewrite get_as_lookup, E. reflexivity. Qed.

Lemma get_failed (v : json) (e : exn) (path : list string) (w : World) :
  lookup v path = Raise e -> get v path w = mkRes (Raise e) w [].
Proof. intros E. rewrite get_as_lookup, E. reflexivity. Qed.

Lemma confirm_action_line (message : string) (w : World) (s : string) (rest : list key) :
  stdin w = Line s :: rest ->
  confirm_action message w
  = mkRes (Ret (is_yes (lower (strip s)))) (set_stdin rest w)
          [Asked (confirm_prompt message) (Some (Line s))].
Proof. intros K. unfold confirm_action, bind, input, ret. rewrite K. reflexivity. Qed.

Lemma confirm_action_yes (message : string) (w : World) (s : string) (rest : list key) :
  stdin w = Line s :: rest -> is_yes (lower (strip s)) = true ->
  confirm_action message w
  = mkRes (Ret true) (set_stdin rest w) [Asked (confirm_prompt message) (Some (Line s))].
Proof. intros K Y. rewrite (confirm_action_line _ _ _ _ K), Y. reflexivity. Qed.

Lemma confirm_action_no (message : string) (w : World) (s : string) (rest : list key) :
  stdin w = Line s :: rest -> is_yes (lower (strip s)) = false ->
  confirm_action message w
  = mkRes (Ret false) (set_stdin rest w) [Asked (confirm_prompt message) (Some (Line s))].
Proof. intros K Y. rewrite (confirm_action_line _ _ _ _ K), Y. reflexivity. Qed.

(** The prompt [get_input] passes to [input]. *)
Lemma get_input_line (prompt default : string) (w : World) (line : string) (rest : list key) :
  stdin w = Line line :: rest ->
  get_input prompt default w
  = mkRes (Ret (entered default line)) (set_stdin rest w)
          [Asked (if negb (is_empty default)
                  then [Lit prompt; Lit " ["; Lit default; Lit "]: "]
                  else [Lit prompt; Lit ": "]) (Some (Line line))].
Proof.
  intros K. unfold get_input, entered.
  destruct (negb (is_empty default)); unfold bind, input, ret; rewrite K; reflexivity.
Qed.

End Lookups.

(** [run], with the lookups read from the hypotheses. *)
Ltac walk :=
  cbv beta iota zeta;
  lazymatch goal with
  | E : ?m ?w = _ |- ?m ?w = _ => exact E
  | |- bind _ _ _ = _ =>
      first [ eapply run_bind_ret; [walk | walk]
            | eapply run_bind_exit; walk
            | eapply run_bind_raise; walk
            | eapply run_bind_nofuel; walk ]
  | |- get _ _ _ = _ =>
      first [ eapply get_found; eassumption | eapply get_failed; eassumption ]
  | |- confirm_action _ _ = _ =>
      first [ eapply confirm_action_yes;
              [cbn [stdin set_stdin]; first [eassumption | reflexivity] | eassumption]
            | eapply confirm_action_no;
              [cbn [stdin set_stdin]; first [eassumption | reflexivity] | eassumption]
            | unfold confirm_action; walk ]
  | |- get_input _ _ _ = _ =>
      first [ eapply get_input_line; cbn [stdin set_stdin]; first [eassumption | reflexivity]
            | unfold get_input; walk ]
  | |- input _ _ = _ =>
      first [ eapply input_line; cbn [stdin set_stdin]; first [eassumption | reflexivity]
            | eapply input_interrupt; cbn [stdin set_stdin]; first [eassumption | reflexivity]
            | eapply input_eof; cbn [stdin set_stdin]; first [eassumption | reflexivity] ]
  | |- load_config _ = _ =>
      first [ eapply load_config_parsed; cbn [fs set_stdin]; eassumption
            | eapply load_config_missing; cbn [fs set_stdin]; eassumption
            | eapply load_config_malformed; cbn [fs set_stdin]; eassumption
            | eapply load_config_failed; cbn [fs set_stdin]; eassumption ]
  | |- except_KeyboardInterrupt _ _ _ = _ => eapply except_passes; [walk | discriminate]
  | |- while_true (S _) _ _ = _ => cbn [while_true]; walk
  | |- subprocess_run _ _ = _ =>
      first [ eapply subprocess_run_started; eassumption
            | eapply subprocess_run_failed; eassumption ]
  | |- ret _ _ = _ => reflexivity
  | |- lift _ _ = _ => reflexivity
  | |- sys_exit _ _ = _ => reflexivity
  | |- raise _ _ = _ => reflexivity
  | |- emit _ _ = _ => reflexivity
  | |- print _ _ = _ => reflexivity
  | |- clear_screen _ = _ => reflexivity
  | |- path_exists _ _ = _ => reflexivity
  | |- Colors_disable _ = _ => reflexivity
  | |- (if _ then _ else _) _ = _ => run_test; walk
  | |- (match _ with _ => _ end) _ = _ => run_test; walk
  | |- for_each ?xs _ _ = _ =>
      let ys := eval hnf in xs in
      change xs with ys; progress cbn [for_each]; walk
  | |- ?f _ _ _ _ _ = _ => unfold f; walk
  | |- ?f _ _ _ _ = _ => unfold f; walk
  | |- ?f _ _ _ = _ => unfold f; walk
  | |- ?f _ _ = _ => unfold f; walk
  | |- ?f _ = _ => unfold f; walk
  end.

Section MainMenuFields.
Context `{Env}.

Lemma display_main_menu_outcome (w : World) (config : json) :
  load_config w = mkRes (Ret config) w [] ->
  out (display_main_menu w)
  = match first_failure config main_menu_fields with
    | Some e => Raise e
    | None => Ret tt
    end
  /\ world (display_main_menu w) = w
  /\ forallb (fun e => negb (is_prompt e) && no_run e) (log (display_main_menu w)) = true
  /\ (first_failure config main_menu_fields <> None ->
      existsb is_main_menu_line (log (display_main_menu w)) = false).
Proof.
  intros L. unfold main_menu_fields. cbn [first_failure].
  destruct (lookup_outcome ["environment"; "name"] config) as [[v1 E1] | [e1 E1]];
    rewrite E1;
    [ destruct (lookup_outcome ["vcenter"; "server"] config) as [[v2 E2] | [e2 E2]];
      rewrite E2;
      [ destruct (lookup_outcome ["datacenter"; "name"] config) as [[v3 E3] | [e3 E3]];
        rewrite E3;
        [ destruct (lookup_outcome ["cluster"; "name"] config) as [[v4 E4] | [e4 E4]];
          rewrite E4 | ] | ] | ];
    match goal with
    | |- out _ = ?o /\ _ =>
        let R := fresh "R" in
        eassert (R : display_main_menu w = mkRes _ _ _) by walk;
        rewrite R; cbn [out world log]
    end;
    (split; [reflexivity | split; [reflexivity | split; [reflexivity | ]]]);
    first [ intros N; exfalso; apply N; reflexivity | intros _; reflexivity ].
Qed.

Lemma load_config_loaded (w : World) (a : json) :
  out (load_config w) = Ret a -> load_config w = mkRes (Ret a) w [].
Proof.
  unfold load_config. destruct (fs w CONFIG_FILE) as [content | ]; [ | discriminate].
  destruct (json_loads content); [ | discriminate | discriminate].
  cbn. intros E. inversion E. reflexivity.
Qed.

End MainMenuFields.

Section MainLoop.
Context `{Env}.

Lemma res_eta {A : Type} (r : res A) : r = mkRes (out r) (world r) (log r).
Proof. destruct r; reflexivity. Qed.

(** With a configuration file in place, [main] is its loop, run after the
    platform check. *)
Lemma main_loop (fuel : nat) (w : World) (content : string) :
  fs w CONFIG_FILE = Some content ->
  main fuel w
  = mkRes (out (while_true fuel (menu_pass MainMenu fuel) (after_startup w)))
          (world (while_true fuel (menu_pass MainMenu fuel) (after_startup w)))
          (platform_warnings
           ++ log (while_true fuel (menu_pass MainMenu fuel) (after_startup w))).
Proof.
  intros F.
  assert (R : exists o w' l,
             main fuel w = mkRes o w' l
             /\ o = out (while_true fuel (menu_pass MainMenu fuel) (after_startup w))
             /\ w' = world (while_true fuel (menu_pass MainMenu fuel) (after_startup w))
             /\ l = platform_warnings
                    ++ log (while_true fuel (menu_pass MainMenu fuel) (after_startup w))).
  { do 3 eexists. split.
    - unfold main. eapply run_bind_ret; [apply startup_prefix | ].
      eapply run_bind_ret; [reflexivity | ]. cbn [fs]. rewrite fs_after_startup, F.
      cbv beta iota delta [negb]. apply res_eta.
    - cbn [menu_pass List.app]. repeat split. }
  destruct R as (o & w' & l & R & -> & -> & ->). exact R.
Qed.

Lemma loop_stops (n : nat) (body : M ctl) (w w' : World) (l : list event) (o : outcome ctl)
      (o' : outcome unit) :
  body w = mkRes o w' l ->
  match o with
  | Ret _ => False
  | Exit c => o' = Exit c
  | Raise e => o' = Raise e
  | NoFuel => o' = NoFuel
  end ->
  while_true (S n) body w = mkRes o' w' l.
Proof.
  intros E O. cbn [while_true]. unfold bind. rewrite E. cbn [out world log].
  destruct o; [destruct O | | | ]; subst; reflexivity.
Qed.

Lemma lookup_raises (path : list string) :
  forall v e, lookup v path = Raise e -> e <> KeyboardInterrupt.
Proof.
  induction path as [ | k path IH]; intros v e; cbn [lookup]; [discriminate | ].
  unfold py_getitem. destruct v; try (intros E; inversion E; discriminate).
  destruct (dict_get kvs k); [apply IH | intros E; inversion E; discriminate].
Qed.

Lemma first_failure_raises (v : json) (paths : list (list string)) (e : exn) :
  first_failure v paths = Some e -> e <> KeyboardInterrupt.
Proof.
  induction paths as [ | p paths IH]; cbn [first_failure]; [discriminate | ].
  destruct (lookup v p) as [x | c | e' | ] eqn:E; auto.
  intros S. inversion S. subst. exact (lookup_raises _ _ _ E).
Qed.

Lemma config_after_startup (w : World) (content : string) (config : json) :
  fs w CONFIG_FILE = Some content -> json_loads content = Parsed config ->
  load_config (after_startup w) = mkRes (Ret config) (after_startup w) [].
Proof.
  intros F P. apply (load_config_parsed _ content); [rewrite fs_after_startup; exact F | exact P].
Qed.

Lemma display_result (w : World) :
  display_main_menu w
  = mkRes (out (display_main_menu w)) (world (display_main_menu w))
          (log (display_main_menu w)).
Proof. destruct (display_main_menu w); reflexivity. Qed.

(** X7. A configuration that parses but lacks one of the four fields of
    the main menu's heading (or holds something that cannot be subscripted
    on the way to it) ends the session at once: [main] lets the
    [KeyError] or [TypeError] of the first failing lookup escape, having
    shown no entry of the menu, asked nothing and made no call of
    [subprocess.run] (the screen has been cleared and the title printed). *)
Theorem missing_field_ends_session (fuel : nat) (w : World) (content : string)
        (config : json) (e : exn) :
  fs w CONFIG_FILE = Some content -> json_loads content = Parsed config ->
  first_failure config main_menu_fields = Some e ->
  out (main (S fuel) w) = Raise e
  /\ existsb is_main_menu_line (log (main (S fuel) w)) = false
  /\ existsb is_prompt (log (main (S fuel) w)) = false
  /\ forallb no_run (log (main (S fuel) w)) = true.
Proof.
  intros F P X.
  pose proof (config_after_startup w content config F P) as L.
  destruct (display_main_menu_outcome _ _ L) as (O & W & Q & M).
  rewrite X in O. specialize (M ltac:(congruence)).
  assert (Pass : menu_pass MainMenu (S fuel) (after_startup w)
                 = mkRes (Raise e) (after_startup w) (log (display_main_menu (after_startup w)))).
  { cbn [menu_pass]. apply except_passes.
    - unfold main_menu_pass. apply run_bind_raise.
      rewrite (display_result (after_startup w)), O, W. reflexivity.
    - intros E. inversion E. exact (first_failure_raises _ _ _ X H1). }
  rewrite (main_loop _ _ _ F), (loop_stops _ _ _ _ _ _ (Raise e) Pass eq_refl).
  cbn [out world log].
  assert (PW : forallb (fun e => negb (is_prompt e) && no_run e) platform_warnings = true
               /\ existsb is_main_menu_line platform_warnings = false).
  { unfold platform_warnings. destruct (negb (os_name =? "nt")); split; reflexivity. }
  destruct PW as [PW1 PW2].
  split; [reflexivity | split; [ | split]].
  - rewrite existsb_app, PW2, M. reflexivity.
  - rewrite existsb_app.
    assert (G : forall l, forallb (fun e => negb (is_prompt e) && no_run e) l = true ->
                          existsb is_prompt l = false).
    { induction l as [ | x l IH]; cbn; [reflexivity | ].
      intros A. apply andb_true_iff in A as [A1 A2]. apply andb_true_iff in A1 as [A1 _].
      apply negb_true_iff in A1. rewrite A1, (IH A2). reflexivity. }
    rewrite (G _ PW1), (G _ Q). reflexivity.
  - rewrite forallb_app.
    assert (G : forall l, forallb (fun e => negb (is_prompt e) && no_run e) l = true ->
                          forallb no_run l = true).
    { induction l as [ | x l IH]; cbn; [reflexivity | ].
      intros A. apply andb_true_iff in A as [A1 A2]. apply andb_true_iff in A1 as [_ A1].
      rewrite A1, (IH A2). reflexivity. }
    rewrite (G _ PW1), (G _ Q). reflexivity.
Qed.

(** X8. [main] catches [KeyboardInterrupt] and nothing else: when the
    input ends at the prompt of the main menu, the [EOFError] of [input]
    ends the session, right after that prompt. *)
Theorem end_of_input_ends_session (fuel : nat) (w : World) (content : string)
        (config : json) :
  fs w CONFIG_FILE = Some content -> json_loads content = Parsed config ->
  first_failure config main_menu_fields = None ->
  stdin w = [] ->
  out (main (S fuel) w) = Raise EOFError
  /\ log (main (S fuel) w)
     = platform_warnings ++ log (display_main_menu (after_startup w))
       ++ [Asked [Lit "Select option"; Lit ": "] None].
Proof.
  intros F P X K.
  pose proof (config_after_startup w content config F P) as L.
  destruct (display_main_menu_outcome _ _ L) as (O & W & _ & _).
  rewrite X in O.
  pose proof (display_result (after_startup w)) as D. rewrite O, W in D.
  assert (K' : stdin (after_startup w) = []) by (rewrite stdin_after_startup; exact K).
  assert (Pass : exists l, menu_pass MainMenu (S fuel) (after_startup w)
                           = mkRes (Raise EOFError) (after_startup w) l
                           /\ l = log (display_main_menu (after_startup w))
                                  ++ [Asked [Lit "Select option"; Lit ": "] None]).
  { eexists. split.
    - cbn [menu_pass]. apply except_passes; [ | discriminate].
      unfold main_menu_pass. eapply run_bind_ret; [exact D | ].
      eapply run_bind_raise. walk.
    - reflexivity. }
  destruct Pass as (l & Pass & ->).
  rewrite (main_loop _ _ _ F), (loop_stops _ _ _ _ _ _ (Raise EOFError) Pass eq_refl).
  split; reflexivity.
Qed.

End MainLoop.

Section InterruptedSessions.
Context `{Env}.

(** Ctrl-C at the prompt of a submenu comes up to the pass of the main
    menu that opened the submenu. *)
Lemma submenu_interrupted (m : menu) (fuel : nat) (w : World) (line : string)
      (rest : list key) :
  m <> MainMenu ->
  stdin w = Line line :: CtrlC :: rest ->
  upper (strip line) = opening_token m ->
  out (display_main_menu w) = Ret tt ->
  exists l, main_menu_pass (S fuel) w = mkRes (Raise KeyboardInterrupt) (set_stdin rest w) l.
Proof.
  intros Sub Keys Open Shown. pose proof (display_main_menu_shown w Shown) as D.
  assert (R : exists w' l,
             main_menu_pass (S fuel) w = mkRes (Raise KeyboardInterrupt) w' l
             /\ w' = set_stdin rest w).
  { destruct m; [destruct Sub; reflexivity | | | ]; cbn [opening_token] in Open;
      (do 2 eexists; split;
       [ unfold main_menu_pass; eapply run_bind_ret; [exact D | ];
         eapply run_bind_ret; [run | ]; cbv beta zeta; rewrite Open;
         cbv beta iota delta [String.eqb Ascii.eqb Bool.eqb];
         eapply run_bind_raise;
         match goal with |- ?f _ _ _ = _ => unfold f end;
         cbn [while_true]; eapply run_bind_raise;
         match goal with |- ?f _ _ = _ => unfold f end;
         eapply run_bind_ret; [run | ]; eapply run_bind_raise; run
       | reflexivity ]). }
  destruct R as (w' & l & R & ->). eauto.
Qed.

(** X9. Ctrl-C at any prompt of a pass of the main loop - the main
    menu's, a submenu's, an operation's - is the last event of the pass and
    ends it with [KeyboardInterrupt], which the handler of [main] catches:
    it prints the warning and asks whether to exit. The next key decides:
    on an ASCII line, a yes exits with status 0 and any other line goes on
    with the main loop; a second Ctrl-C, or the end of input, is not
    caught and ends the pass with that exception. *)
Theorem interrupt_asks_to_exit (fuel : nat) (w : World) (p : text) :
  ascii_input w = true ->
  In (Asked p (Some CtrlC)) (log (main_menu_pass fuel w)) ->
  exists w1 l1,
    main_menu_pass fuel w = mkRes (Raise KeyboardInterrupt) w1 l1
    /\ (exists before, l1 = before ++ [Asked p (Some CtrlC)])
    /\ (forall s rest,
          stdin w1 = Line s :: rest -> plain_ascii s = true ->
          menu_pass MainMenu fuel w
          = mkRes (if is_yes (lower (strip s)) then Exit 0 else Ret Continue)
                  (set_stdin rest w1) (interrupted l1 (Some (Line s)))
          /\ (is_yes (lower (strip s)) = false ->
              forall n,
                out (while_true (S n) (menu_pass MainMenu fuel) w)
                = out (while_true n (menu_pass MainMenu fuel) (set_stdin rest w1))))
    /\ (forall rest,
          stdin w1 = CtrlC :: rest ->
          out (menu_pass MainMenu fuel w) = Raise KeyboardInterrupt)
    /\ (stdin w1 = [] -> out (menu_pass MainMenu fuel w) = Raise EOFError).
Proof.
  intros _ I. destruct (pass_interrupting fuel w p I) as (E & L).
  assert (O : out (main_menu_pass fuel w) = Raise KeyboardInterrupt).
  { destruct (out (main_menu_pass fuel w)); cbn [ending_of] in E;
      try discriminate E. inversion E. reflexivity. }
  exists (world (main_menu_pass fuel w)), (log (main_menu_pass fuel w)).
  assert (P : main_menu_pass fuel w
              = mkRes (Raise KeyboardInterrupt) (world (main_menu_pass fuel w))
                  (log (main_menu_pass fuel w)))
    by (rewrite <- O; apply res_eta).
  pose proof (interrupt_handled fuel w _ _ P) as Q. unfold after_interrupt in Q.
  split; [exact P | split; [exact L | split; [ | split]]].
  - intros s rest K _. rewrite K in Q. split; [exact Q | ].
    intros No n. cbn [while_true]. unfold bind. rewrite Q. cbn [out world log].
    rewrite No. reflexivity.
  - intros rest K. rewrite K in Q. rewrite Q. reflexivity.
  - intros K. rewrite K in Q. rewrite Q. reflexivity.
Qed.

(** X10. Ctrl-C at the prompt of a submenu does not return to that
    submenu: the exception unwinds the submenu's loop, and after an ASCII
    line that is not a yes the session goes on with the loop of the main
    menu; after a yes it exits with status 0. *)
Theorem interrupt_leaves_submenu (m : menu) (fuel : nat) (w : World)
        (line answer : string) (rest : list key) :
  m <> MainMenu ->
  stdin w = Line line :: CtrlC :: Line answer :: rest ->
  plain_ascii answer = true ->
  upper (strip line) = opening_token m ->
  out (display_main_menu w) = Ret tt ->
  out (menu_pass MainMenu (S fuel) w)
  = (if is_yes (lower (strip answer)) then Exit 0 else Ret Continue)
  /\ world (menu_pass MainMenu (S fuel) w) = set_stdin rest w
  /\ In (Print (warning_line [Lit "Operation cancelled by user."]))
        (log (menu_pass MainMenu (S fuel) w))
  /\ (is_yes (lower (strip answer)) = false ->
      forall n,
        out (while_true (S n) (menu_pass MainMenu (S fuel)) w)
        = out (while_true n (menu_pass MainMenu (S fuel)) (set_stdin rest w))).
Proof.
  intros Sub Keys _ Open Shown.
  destruct (submenu_interrupted m fuel w line (Line answer :: rest) Sub Keys Open Shown)
    as (l & P).
  pose proof (interrupt_handled _ _ _ _ P) as Q.
  unfold after_interrupt in Q. cbn [stdin set_stdin] in Q.
  assert (W : set_stdin rest (set_stdin (Line answer :: rest) w) = set_stdin rest w)
    by reflexivity.
  rewrite W in Q.
  split; [rewrite Q; reflexivity | split; [rewrite Q; reflexivity | split]].
  - rewrite Q. cbn [log]. unfold interrupted. apply in_or_app. right. right. left. reflexivity.
  - intros No n. cbn [while_true]. unfold bind. rewrite Q. cbn [out world log].
    rewrite No. reflexivity.
Qed.

End InterruptedSessions.

#[export] Instance Lawful_under (Pre : files -> Prop) : Lawful (under Pre).
Proof.
  split; unfold under; cbn [fs set_stdin set_colors forallb no_run andb]; intros; auto.
  destruct (H H1) as [N1 F1]. rewrite <- F1 in H1. destruct (H0 H1) as [N2 F2].
  rewrite forallb_app, N1, N2. split; [reflexivity | congruence].
Qed.

#[export] Instance Exitable_under (Pre : files -> Prop) : Exitable (under Pre).
Proof. intros w c. unfold under. auto. Qed.

#[export] Instance Trigger_confirmed : Trigger confirmed.
Proof. split; reflexivity. Qed.

Section Needs.
Context `{Env}.

(** A script that is not there is not run. *)
Lemma under_path_exists (Pre : files -> Prop) (p : string) (k : bool -> M unit) :
  (forall f, Pre f -> f p = None) ->
  obeys (under Pre) (k false) ->
  obeys (under Pre) (bind (path_exists p) k).
Proof.
  intros Hp Hk w. unfold bind, path_exists. cbn [out world log List.app].
  intros P. rewrite (Hp _ P). apply Hk. exact P.
Qed.

(** A configuration that cannot be loaded ends the operation there. *)
Lemma under_load_config {A : Type} (k : json -> M A) :
  obeys (under unreadable) (bind load_config k).
Proof.
  intros w. unfold bind, load_config, under, unreadable.
  destruct (fs w CONFIG_FILE) as [content | ].
  - destruct (json_loads content); cbn; [intros [] | auto | auto].
  - cbn. auto.
Qed.

End Needs.

Ltac needs_step :=
  lazymatch goal with
  | |- obeys (under unreadable) (bind load_config _) => apply under_load_config
  | |- obeys (under (fun f => f ?p = None)) (bind (path_exists ?p) _) =>
      apply under_path_exists; [intros ? ?; assumption | cbv beta; cbn [negb]]
  | |- _ => law_step
  end.

Ltac needs_tac := repeat needs_step.

Section NeedsOfOperations.
Context `{Env}.

Lemma unreadable_starts_nothing (op : operation) :
  op <> ConfigureAll -> obeys (under unreadable) (perform op).
Proof.
  intros N. destruct op; try (destruct N; reflexivity); cbn [perform]; needs_tac.
Qed.

Lemma unreadable_stops_status : obeys (under unreadable) show_status.
Proof. needs_tac. Qed.

Lemma missing_script_starts_nothing (op : operation) (p : string) :
  checked_script op = Some p -> obeys (under (fun f => f p = None)) (perform op).
Proof.
  destruct op; try discriminate; cbn [checked_script perform]; intros E; inversion E; subst;
    needs_tac.
Qed.

Lemma guard_where_bind {A : Type} Pre T c Q (m : M A) (k : A -> M unit) :
  quiet (calm T) m -> (forall w, Pre w -> Pre (world (m w))) ->
  (forall a, guard_where Pre T c Q (k a)) ->
  guard_where Pre T c Q (bind m k).
Proof.
  intros Hm Hp Hk w P. destruct (calm_split _ _ (Hm w)) as [Hr Ht].
  specialize (Hp w P).
  unfold bind. destruct (out (m w)) as [a | | | ]; cbn [log out];
    try (rewrite Ht; discriminate).
  rewrite existsb_app, Ht. cbn [orb]. intros E.
  destruct (Hk a _ Hp E) as (K1 & K2 & K3).
  rewrite forallb_app, Hr, K1. repeat split; auto using in_or_app.
Qed.

Lemma guard_where_script (p message : string) (c : text) (post : M unit) :
  guard_where (fun w => fs w p = None) confirmed
    (error_line [Lit "Script not found: "; Lit p]) back_to_caller
    (ok <- confirm_action message ;;
     if negb ok then print_warning c
     else
       found <- path_exists p ;;
       if negb found then print_error [Lit "Script not found: "; Lit p] else post).
Proof.
  intros w P. cbv beta delta [confirm_action bind input confirm_prompt ret path_exists]. cbn.
  destruct (stdin w) as [ | [s | ] rest]; cbn; try discriminate.
  destruct (is_yes (lower (strip s))); cbn; [ | discriminate].
  rewrite P. cbn. intros _. repeat split. right. left. reflexivity.
Qed.

Lemma frame_keeps_absent {A : Type} (m : M A) (p : string) :
  obeys frame m -> forall w, fs w p = None -> fs (world (m w)) p = None.
Proof. intros F w E. destruct (F w) as [F1 _]. rewrite F1. exact E. Qed.

End NeedsOfOperations.

Ltac script_step :=
  lazymatch goal with
  | |- guard_where _ _ _ _ (bind (confirm_action _) _) => apply guard_where_script
  | |- guard_where _ _ _ _ (bind _ _) =>
      apply guard_where_bind;
      [quiet_tac | apply frame_keeps_absent; law_tac | intros ?]
  end.

Section Scripts.
Context `{Env}.

Lemma missing_script_guarded (op : operation) (p : string) :
  checked_script op = Some p ->
  guard_where (fun w => fs w p = None) confirmed
    (error_line [Lit "Script not found: "; Lit p]) back_to_caller (perform op).
Proof.
  destruct op; try discriminate; cbn [checked_script perform]; intros E; inversion E; subst;
    match goal with |- guard_where _ _ _ _ (?f _) => unfold f end; repeat script_step.
Qed.

(** X11. [deploy_vcenter] and [deploy_infrastructure] look for their
    script before they run it. When the script file is not there, the
    operation starts no process whatever the operator answers; after a yes
    to the confirmation it prints that the script was not found and
    returns to the menu (without waiting for Enter). *)
Theorem missing_script_is_reported (op : operation) (p : string) (w : World) :
  checked_script op = Some p -> fs w p = None ->
  forallb no_run (log (perform op w)) = true
  /\ (forall s,
        In (Asked (confirm_prompt (question op)) (Some (Line s))) (log (perform op w)) ->
        is_yes (lower (strip s)) = true ->
        In (Print (error_line [Lit "Script not found: "; Lit p])) (log (perform op w))
        /\ out (perform op w) = Ret tt).
Proof.
  intros S F. split.
  - exact (proj1 (missing_script_starts_nothing op p S w F)).
  - intros s I Y.
    assert (E : existsb confirmed (log (perform op w)) = true).
    { apply existsb_exists. eexists. split; [exact I | ]. cbn. exact Y. }
    destruct (missing_script_guarded op p S w F E) as (_ & G2 & G3). auto.
Qed.

(** X12. No operation but [configure_all] calls [subprocess.run] while
    the configuration file cannot be loaded (it is missing, its text is
    not JSON, or reading it raises), and neither does the status query.
    The nine operations that load the configuration first end there,
    before any prompt: with exit status 1 after the error message of
    [load_config], or with the exception [load_config] does not catch. *)
Theorem unreadable_config_starts_nothing (op : operation) (w : World) :
  op <> ConfigureAll -> unreadable (fs w) ->
  forallb no_run (log (perform op w)) = true
  /\ forallb no_run (log (show_status w)) = true
  /\ (loads_first op = true ->
      ending_of (out (perform op w)) = load_failure (fs w)
      /\ existsb is_prompt (log (perform op w)) = false).
Proof.
  intros N U. split; [ | split].
  - exact (proj1 (unreadable_starts_nothing op N w U)).
  - exact (proj1 (unreadable_stops_status w U)).
  - intros L. unfold unreadable in U. unfold load_failure.
    destruct (fs w CONFIG_FILE) as [content | ] eqn:F;
      [destruct (json_loads content) as [d | msg | e] eqn:P; [destruct U | | ] | ].
    + assert (R : exists l, perform op w = mkRes (Exit 1) w l
                            /\ existsb is_prompt l = false).
      { destruct op; try discriminate; cbn [perform];
          (eexists; split; [run | reflexivity]). }
      destruct R as (l & R & Rl). rewrite R. split; [reflexivity | exact Rl].
    + assert (R : exists l, perform op w = mkRes (Raise e) w l
                            /\ existsb is_prompt l = false).
      { destruct op; try discriminate; cbn [perform];
          (eexists; split; [run | reflexivity]). }
      destruct R as (l & R & Rl). rewrite R. split; [reflexivity | exact Rl].
    + assert (R : exists l, perform op w = mkRes (Exit 1) w l
                            /\ existsb is_prompt l = false).
      { destruct op; try discriminate; cbn [perform];
          (eexists; split; [run | reflexivity]). }
      destruct R as (l & R & Rl). rewrite R. split; [reflexivity | exact Rl].
Qed.

End Scripts.

Section ConfigureAll.
Context `{Env}.

(** X13. [configure_all] neither loads the configuration nor looks for
    its script: once the operator has answered yes, it starts
    [Deploy-Infrastructure.ps1] with [-ConfigPath] and [-SkipVCSA $true],
    once, whatever files there are. *)
Theorem configure_all_runs_unchecked (w : World) (s : string) (rest : list key) :
  stdin w = Line s :: rest -> is_yes (lower (strip s)) = true ->
  runs (log (configure_all w)) = [Run configure_all_command SCRIPT_DIR].
Proof.
  intros K Y.
  assert (K0 : stdin (set_stdin rest w) = rest) by reflexivity.
  destruct (spawn configure_all_command) as [rc | ] eqn:S.
  - destruct (rc =? 0)%Z eqn:Z;
      destruct rest as [ | [a | ] rest'];
      match goal with
      | |- runs (log ?r) = _ =>
          let R := fresh "R" in
          eassert (R : r = mkRes _ _ _) by (unfold configure_all_command in S; walk);
          rewrite R
      end; reflexivity.
  - match goal with
    | |- runs (log ?r) = _ =>
        let R := fresh "R" in
        eassert (R : r = mkRes _ _ _) by (unfold configure_all_command in S; walk);
        rewrite R
    end; reflexivity.
Qed.

End ConfigureAll.

(** *** [strip] *)

Lemma lstrip_blank (s : string) : blank s = true -> lstrip s = EmptyString.
Proof.
  induction s as [ | c s IH]; cbn [blank lstrip]; [reflexivity | ].
  intros B. apply andb_true_iff in B as [B1 B2]. rewrite B1. exact (IH B2).
Qed.

Lemma rstrip_blank (s : string) : blank s = true -> rstrip s = EmptyString.
Proof.
  induction s as [ | c s IH]; cbn [blank rstrip]; [reflexivity | ].
  intros B. apply andb_true_iff in B as [B1 B2]. rewrite (IH B2), B1. reflexivity.
Qed.

Lemma lstrip_split (s : string) :
  exists pre, s = (pre ++ lstrip s)%string /\ blank pre = true.
Proof.
  induction s as [ | c s (pre & E & B)]; cbn [lstrip].
  - exists EmptyString. split; reflexivity.
  - destruct (is_space c) eqn:C.
    + exists (String c pre). cbn [append blank]. rewrite <- E, C, B. split; reflexivity.
    + exists EmptyString. split; reflexivity.
Qed.

Lemma rstrip_split (s : string) :
  exists post, s = (rstrip s ++ post)%string /\ blank post = true.
Proof.
  induction s as [ | c s (post & E & B)]; cbn [rstrip].
  - exists EmptyString. split; reflexivity.
  - destruct (rstrip s) as [ | d r] eqn:R.
    + destruct (is_space c) eqn:C.
      * exists (String c s). cbn [append blank]. rewrite C. split; [reflexivity | ].
        cbn [append] in E. rewrite E. exact B.
      * exists post. cbn [append] in *. subst s. split; [reflexivity | exact B].
    + exists post. cbn [append] in *. rewrite <- E. split; [reflexivity | exact B].
Qed.

Lemma strip_split (s : string) :
  exists pre post,
    s = (pre ++ strip s ++ post)%string /\ blank pre = true /\ blank post = true.
Proof.
  destruct (lstrip_split s) as (pre & E1 & B1).
  destruct (rstrip_split (lstrip s)) as (post & E2 & B2).
  exists pre, post. unfold strip. rewrite <- E2. auto.
Qed.

Lemma lstrip_app_blank (pre s : string) :
  blank pre = true -> lstrip (pre ++ s) = lstrip s.
Proof.
  induction pre as [ | c pre IH]; cbn [blank append lstrip]; [reflexivity | ].
  intros B. apply andb_true_iff in B as [B1 B2]. rewrite B1. exact (IH B2).
Qed.

Lemma rstrip_app_blank (s post : string) :
  blank post = true -> rstrip (s ++ post) = rstrip s.
Proof.
  intros B. induction s as [ | c s IH]; cbn [append rstrip].
  - apply rstrip_blank. exact B.
  - rewrite IH. reflexivity.
Qed.

Lemma strip_app_blank (pre s post : string) :
  blank pre = true -> blank post = true -> strip (pre ++ s ++ post) = strip s.
Proof.
  intros B1 B2. unfold strip. rewrite (lstrip_app_blank _ _ B1).
  induction s as [ | c s IH]; cbn [append lstrip].
  - rewrite (lstrip_blank _ B2). reflexivity.
  - destruct (is_space c); [exact IH | ].
    change (String c (s ++ post)) with (String c s ++ post)%string.
    apply rstrip_app_blank. exact B2.
Qed.

Lemma strip_blank_iff (s : string) : strip s = EmptyString <-> blank s = true.
Proof.
  split.
  - intros E. destruct (strip_split s) as (pre & post & S & B1 & B2).
    rewrite E in S. cbn [append] in S. rewrite S. clear S E.
    induction pre as [ | c pre IH]; cbn [append blank] in *; [exact B2 | ].
    apply andb_true_iff in B1 as [C B1]. rewrite C, (IH B1). reflexivity.
  - intros B. unfold strip. rewrite (lstrip_blank _ B). reflexivity.
Qed.

Lemma strip_idempotent (s : string) : strip (strip s) = strip s.
Proof.
  destruct (strip_split s) as (pre & post & S & B1 & B2).
  rewrite S at 2. rewrite (strip_app_blank _ _ _ B1 B2). reflexivity.
Qed.

(** *** Letter case of the answer *)

Lemma lower_ascii_y (c : ascii) : lower_ascii c = "y"%char -> c = "y"%char \/ c = "Y"%char.
Proof. destruct c as [[] [] [] [] [] [] [] []]; cbv; intros E; try discriminate; auto. Qed.

Lemma lower_ascii_e (c : ascii) : lower_ascii c = "e"%char -> c = "e"%char \/ c = "E"%char.
Proof. destruct c as [[] [] [] [] [] [] [] []]; cbv; intros E; try discriminate; auto. Qed.

Lemma lower_ascii_s (c : ascii) : lower_ascii c = "s"%char -> c = "s"%char \/ c = "S"%char.
Proof. destruct c as [[] [] [] [] [] [] [] []]; cbv; intros E; try discriminate; auto. Qed.

Lemma is_yes_lower (core : string) :
  is_yes (lower core) = true <-> In core yes_words.
Proof.
  split.
  - unfold is_yes. intros Y. apply orb_true_iff in Y as [Y | Y]; apply String.eqb_eq in Y.
    + destruct core as [ | a [ | b core]]; cbn in Y; try discriminate.
      inversion Y as [Ya]. destruct (lower_ascii_y a Ya) as [-> | ->]; cbn; auto.
    + destruct core as [ | a [ | b [ | c [ | d core]]]]; cbn in Y; try discriminate.
      inversion Y as [[Ya Yb Yc]].
      destruct (lower_ascii_y a Ya) as [-> | ->];
        destruct (lower_ascii_e b Yb) as [-> | ->];
        destruct (lower_ascii_s c Yc) as [-> | ->]; cbn; auto 12.
  - unfold yes_words. cbn [In].
    intros [<- | [<- | [<- | [<- | [<- | [<- | [<- | [<- | [<- | [<- | []]]]]]]]]]];
      reflexivity.
Qed.

Lemma yes_words_trimmed (core : string) : In core yes_words -> strip core = core.
Proof.
  unfold yes_words. cbn [In].
  intros [<- | [<- | [<- | [<- | [<- | [<- | [<- | [<- | [<- | [<- | []]]]]]]]]]];
    reflexivity.
Qed.

Section Typing.
Context `{Env}.

(** X14. [confirm_action] reads as yes exactly the lines that are one of
    y and yes, in any letter case, with any blanks before and after; every
    other line, the empty one included, is a no. (Stated for ASCII lines,
    where the model of [strip] and [lower] is Python's.) *)
Theorem confirm_action_accepts (message : string) (w : World) (raw : string)
        (rest : list key) :
  stdin w = Line raw :: rest -> plain_ascii raw = true ->
  (out (confirm_action message w) = Ret true
   <-> exists pre core post,
         raw = (pre ++ core ++ post)%string
         /\ blank pre = true /\ blank post = true /\ In core yes_words)
  /\ (out (confirm_action message w) = Ret true \/ out (confirm_action message w) = Ret false)
  /\ stdin (world (confirm_action message w)) = rest.
Proof.
  intros K _. rewrite (confirm_action_line _ _ _ _ K). cbn [out world stdin set_stdin].
  split; [ | split; [destruct (is_yes (lower (strip raw))); auto | reflexivity]].
  split.
  - intros E. assert (Y : is_yes (lower (strip raw)) = true) by congruence.
    apply is_yes_lower in Y.
    destruct (strip_split raw) as (pre & post & S & B1 & B2).
    exists pre, (strip raw), post. repeat split; assumption.
  - intros (pre & core & post & -> & B1 & B2 & I).
    rewrite (strip_app_blank _ _ _ B1 B2), (yes_words_trimmed _ I).
    apply is_yes_lower in I. rewrite I. reflexivity.
Qed.

(** X15. [get_input] returns the typed line without the blanks around
    it. A line of blanks only (the empty line included) gives the default,
    which is the empty string when the call names none; any other line
    gives a non-empty value with no blank at either end, the default
    notwithstanding. One key is read. (Stated for ASCII lines.) *)
Theorem get_input_strips (prompt default : string) (w : World) (line : string)
        (rest : list key) :
  stdin w = Line line :: rest -> plain_ascii line = true ->
  exists v,
    out (get_input prompt default w) = Ret v
    /\ stdin (world (get_input prompt default w)) = rest
    /\ (blank line = true -> v = default)
    /\ (blank line = false ->
        v <> EmptyString /\ strip v = v
        /\ exists pre post,
             line = (pre ++ v ++ post)%string /\ blank pre = true /\ blank post = true).
Proof.
  intros K _. rewrite (get_input_line _ _ _ _ _ K). cbn [out world stdin set_stdin].
  exists (entered default line). split; [reflexivity | split; [reflexivity | ]].
  unfold entered. split.
  - intros B. apply strip_blank_iff in B. rewrite B.
    destruct default; reflexivity.
  - intros B.
    assert (N : strip line <> EmptyString).
    { intros E. apply strip_blank_iff in E. rewrite E in B. discriminate. }
    assert (V : (if negb (is_empty default)
                 then if negb (is_empty (strip line)) then strip line else default
                 else strip line) = strip line).
    { destruct (negb (is_empty default)); [ | reflexivity].
      destruct (strip line); [destruct N; reflexivity | reflexivity]. }
    rewrite V. split; [exact N | split; [apply strip_idempotent | apply strip_split]].
Qed.

End Typing.

Section FailedStart.
Context `{Env}.

Lemma stops_quiet (m : M unit) : quiet no_run m -> stops_at_failed_start m.
Proof. intros Q w cmd cwd I _. destruct (In_no_run _ _ _ (Q w) I). Qed.

Lemma stops_bind {A : Type} (m : M A) (k : A -> M unit) :
  quiet no_run m -> (forall a, stops_at_failed_start (k a)) ->
  stops_at_failed_start (bind m k).
Proof.
  intros Q K w cmd cwd. unfold bind. specialize (Q w).
  destruct (out (m w)) as [a | | | ]; cbn [log out]; intros I S;
    try (destruct (In_no_run _ _ _ Q I)).
  apply in_app_or in I as [I | I]; [destruct (In_no_run _ _ _ Q I) | ].
  destruct (K a _ _ _ I S) as (before & E1 & E2 & E3).
  exists (log (m w) ++ before).
  rewrite E1, app_assoc, forallb_app, Q, E2. auto.
Qed.

Lemma stops_run (cmd0 : list text) (intro : text) (k : Z -> M unit) :
  (forall rc, quiet no_run (k rc)) ->
  stops_at_failed_start
    (result <- (print_info intro ;;
                print (rule "─" 50) ;;
                result <- subprocess_run cmd0 ;;
                print (rule "─" 50) ;;
                ret result) ;;
     k result).
Proof.
  intros Qk w cmd cwd I S.
  destruct (spawn cmd0) as [rc0 | ] eqn:S0.
  - exfalso.
    assert (R : exists l, (print_info intro ;; print (rule "─" 50) ;;
                           result <- subprocess_run cmd0 ;; print (rule "─" 50) ;; ret result) w
                          = mkRes (Ret rc0) w l
                          /\ l = [Print (info_line intro); Print (rule "─" 50);
                                  Run cmd0 SCRIPT_DIR; Print (rule "─" 50)]).
    { eexists. split; [run | reflexivity]. }
    destruct R as (l & R & ->). unfold bind at 1 in I. rewrite R in I. cbn [out world log] in I.
    apply in_app_or in I as [I | I].
    + repeat (destruct I as [I | I]; try discriminate I); try contradiction.
      injection I as <- <-. congruence.
    + exact (In_no_run _ _ _ (Qk rc0 w) I).
  - assert (R : exists l, (print_info intro ;; print (rule "─" 50) ;;
                           result <- subprocess_run cmd0 ;; print (rule "─" 50) ;; ret result) w
                          = mkRes (Raise FileNotFoundError) w l
                          /\ l = [Print (info_line intro); Print (rule "─" 50);
                                  Run cmd0 SCRIPT_DIR]).
    { eexists. split; [run | reflexivity]. }
    destruct R as (l & R & ->).
    pose proof (run_bind_raise _ (fun result => k result) _ _ _ _ R) as F. rewrite F in *. cbn [out world log] in *.
    repeat (destruct I as [I | I]; try discriminate I); try contradiction.
    injection I as <- <-.
    exists [Print (info_line intro); Print (rule "─" 50)]. repeat split.
Qed.

Lemma quiet_report (rc : Z) (success failure : text) :
  quiet no_run (report rc success failure).
Proof. quiet_tac. Qed.

End FailedStart.

Ltac stops_step :=
  lazymatch goal with
  | |- stops_at_failed_start (bind (run_powershell_command _) _) =>
      unfold run_powershell_command; apply stops_run; intros ?; quiet_tac
  | |- stops_at_failed_start (bind (run_powershell _ _) _) =>
      unfold run_powershell; apply stops_run; intros ?; quiet_tac
  | |- stops_at_failed_start (bind _ _) => apply stops_bind; [quiet_tac | intros ?]
  | |- stops_at_failed_start (if ?b then _ else _) => destruct b
  | |- stops_at_failed_start (match ?x with _ => _ end) => destruct x
  | |- stops_at_failed_start (let x := _ in _) => cbv zeta
  | |- stops_at_failed_start _ => apply stops_quiet; quiet_tac
  end.

Section FailedStartAll.
Context `{Env}.

Lemma operations_stop (op : operation) : stops_at_failed_start (perform op).
Proof.
  destruct op; cbn [perform];
    match goal with |- stops_at_failed_start (?f _) => unfold f end; repeat stops_step.
Qed.

Lemma show_status_stops : stops_at_failed_start show_status.
Proof. unfold show_status. repeat stops_step. Qed.

(** X16. When [powershell.exe] cannot be started, the
    [FileNotFoundError] of [subprocess.run] is not handled: the operation
    (or the status query) ends with it right after the attempt, with no
    report and no wait for Enter, and the loop of [main], which catches
    [KeyboardInterrupt] only, ends with it too. *)
Theorem failed_start_is_not_handled (w : World) (cmd : list text) (cwd : string) :
  spawn cmd = None ->
  (forall op,
     In (Run cmd cwd) (log (perform op w)) ->
     out (perform op w) = Raise FileNotFoundError
     /\ exists before, log (perform op w) = before ++ [Run cmd cwd]
                       /\ forallb no_run before = true)
  /\ (In (Run cmd cwd) (log (show_status w)) ->
      out (show_status w) = Raise FileNotFoundError)
  /\ (forall fuel n w' l,
        main_menu_pass fuel w = mkRes (Raise FileNotFoundError) w' l ->
        while_true (S n) (menu_pass MainMenu fuel) w = mkRes (Raise FileNotFoundError) w' l).
Proof.
  intros S. split; [ | split].
  - intros op I. destruct (operations_stop op w cmd cwd I S) as (before & E1 & E2 & E3).
    split; [exact E3 | eauto].
  - intros I. destruct (show_status_stops w cmd cwd I S) as (before & E1 & E2 & E3). exact E3.
  - intros fuel n w' l P. apply (loop_stops _ _ _ _ _ (Raise FileNotFoundError)); [ | reflexivity].
    cbn [menu_pass]. apply except_passes; [exact P | discriminate].
Qed.

End FailedStartAll.

Section ConfigurationManagement.
Context `{Env}.

(** X17. [view_configuration] loads the configuration, prints it as the
    library's encoder writes it with an indent of two, waits for Enter and
    returns; the files are left as they were. *)
Theorem view_configuration_shows (w : World) (content : string) (d : json)
        (shown s : string) (rest : list key) :
  fs w CONFIG_FILE = Some content -> json_loads content = Parsed d ->
  json_dumps d = Some shown ->
  stdin w = Line s :: rest ->
  view_configuration w
  = mkRes (Ret tt) (set_stdin rest w)
          (banner "Current Configuration"
           ++ [Print [Lit shown]; Asked press_enter (Some (Line s))]).
Proof.
  intros F P D K.
  assert (R : exists l, view_configuration w = mkRes (Ret tt) (set_stdin rest w) l
                        /\ l = banner "Current Configuration"
                               ++ [Print [Lit shown];
                                   Asked press_enter (Some (Line s))]).
  { eexists. split; [walk | reflexivity]. }
  destruct R as (l & R & ->). exact R.
Qed.

Lemma config_management_quiet (fuel : nat) :
  quiet no_run (handle_config_management_menu fuel).
Proof. process_tac. Qed.

Lemma config_management_frame (fuel : nat) :
  obeys frame (handle_config_management_menu fuel).
Proof. law_tac. Qed.

(** X18. The configuration-management menu only reads: its handler
    makes no call of [subprocess.run] and writes no file, whatever is
    typed (it clears the screen before each display of the menu); the
    edit options 2 to 6 print that editing is not implemented, wait for
    Enter and show the menu again. *)
Theorem configuration_management_reads_only (fuel : nat) (w : World) :
  forallb no_run (log (handle_config_management_menu fuel w)) = true
  /\ fs (world (handle_config_management_menu fuel w)) = fs w
  /\ (forall line ack rest,
        stdin w = Line line :: Line ack :: rest ->
        existsb (String.eqb (upper (strip line))) ["2"; "3"; "4"; "5"; "6"] = true ->
        config_management_menu_pass w
        = mkRes (Ret Continue) (set_stdin rest w)
            (log (display_config_management_menu w)
             ++ [Asked [Lit "Select option"; Lit ": "] (Some (Line line));
                 Print (warning_line [Lit "Configuration editing is not yet implemented."]);
                 Print (info_line [Lit "Please edit config.json directly for now."]);
                 Asked press_enter (Some (Line ack))])).
Proof.
  split; [apply config_management_quiet | split; [apply config_management_frame | ]].
  intros line ack rest K E.
  assert (C : entered "" line = strip line) by reflexivity.
  assert (T1 : (upper (strip line) =? "1") = false
               /\ (upper (strip line) =? "7") = false
               /\ (upper (strip line) =? "B") = false).
  { cbn [existsb] in E.
    repeat (apply orb_true_iff in E as [E | E]); try discriminate E;
      apply String.eqb_eq in E; rewrite E; repeat split. }
  destruct T1 as (T1 & T7 & TB).
  assert (R : exists w' l, config_management_menu_pass w = mkRes (Ret Continue) w' l
                        /\ w' = set_stdin rest w
                        /\ l = log (display_config_management_menu w)
                               ++ [Asked [Lit "Select option"; Lit ": "] (Some (Line line));
                                   Print (warning_line
                                            [Lit "Configuration editing is not yet implemented."]);
                                   Print (info_line
                                            [Lit "Please edit config.json directly for now."]);
                                   Asked press_enter (Some (Line ack))]).
  { do 2 eexists. split; [ | split].
    - unfold config_management_menu_pass.
      eapply run_bind_ret; [run | ].
      eapply run_bind_ret; [eapply get_input_line; exact K | ].
      cbv beta zeta. rewrite C, T1, T7, TB, E. walk.
    - reflexivity.
    - first [reflexivity | cbn [List.app]; rewrite ?app_nil_r; reflexivity]. }
  destruct R as (w' & l & R & -> & ->). exact R.
Qed.

End ConfigurationManagement.

Section TemplateMenu.
Context `{Env}.

(** X19. B (or b, blanks around it set aside) at the template prompt
    leaves [deploy_vm_from_template] at once: it returns to the VM menu
    having printed nothing after the prompt, without the wait for Enter
    that follows an invalid selection. *)
Theorem template_back_returns (w : World) (line : string) (rest : list key) :
  stdin w = Line line :: rest -> upper (strip line) = "B" ->
  deploy_vm_from_template w
  = mkRes (Ret tt) (set_stdin rest w)
      (log (display_template_menu w)
       ++ [Asked [Lit "Select template"; Lit ": "] (Some (Line line))]).
Proof.
  intros K B.
  assert (C : entered "" line = strip line) by reflexivity.
  assert (R : exists w' l, deploy_vm_from_template w = mkRes (Ret tt) w' l
                        /\ w' = set_stdin rest w
                        /\ l = log (display_template_menu w)
                               ++ [Asked [Lit "Select template"; Lit ": "] (Some (Line line))]).
  { do 2 eexists. split; [ | split].
    - unfold deploy_vm_from_template.
      eapply run_bind_ret; [run | ].
      eapply run_bind_ret; [eapply get_input_line; exact K | ].
      cbv beta zeta. rewrite C, B. reflexivity.
    - reflexivity.
    - first [reflexivity | cbn [List.app]; rewrite ?app_nil_r; reflexivity]. }
  destruct R as (w' & l & R & -> & ->). exact R.
Qed.

End TemplateMenu.

Lemma within_here (part t after : text) : t = part ++ after -> within part t.
Proof. intros E. exists [], after. exact E. Qed.

Lemma within_later (part t : text) (x : piece) : within part t -> within part (x :: t).
Proof. intros (before & after & E). exists (x :: before), after. rewrite E. reflexivity. Qed.

(** Finds [part] in a text that is written out. *)
Ltac find_within :=
  repeat first [ eapply within_here; cbn [List.app]; reflexivity | apply within_later ].

Section Deployments.
Context `{Env}.

(** The events of a confirmed run, by how the backend and the operator
    go on: one process, whatever follows. *)
Lemma one_inline_run (script : text) (success failure : text) (w : World) :
  runs (log ((result <- run_powershell_command script ;; report result success failure) w))
  = [Run (inline_command script) SCRIPT_DIR].
Proof.
  unfold inline_command.
  destruct (spawn [[Lit "powershell.exe"]; [Lit "-ExecutionPolicy"]; [Lit "Bypass"];
                   [Lit "-Command"]; script]) as [rc | ] eqn:S.
  - destruct (rc =? 0)%Z eqn:Z; destruct (stdin w) as [ | [a | ] rest'] eqn:K;
      match goal with
      | |- runs (log ?r) = _ =>
          let R := fresh "R" in eassert (R : r = mkRes _ _ _) by walk; rewrite R
      end; reflexivity.
  - match goal with
    | |- runs (log ?r) = _ =>
        let R := fresh "R" in eassert (R : r = mkRes _ _ _) by walk; rewrite R
    end; reflexivity.
Qed.

Lemma runs_after {A : Type} (m : M A) (k : A -> M unit) (w w1 : World) (a : A)
      (l1 : list event) :
  m w = mkRes (Ret a) w1 l1 -> forallb no_run l1 = true ->
  runs (log (bind m k w)) = runs (log (k a w1)).
Proof.
  intros E Q. unfold bind. rewrite E. cbn [out world log].
  rewrite runs_app.
  assert (N : runs l1 = []).
  { clear E. induction l1 as [ | e l IH]; [reflexivity | ].
    cbn [forallb] in Q. apply andb_true_iff in Q as [Q1 Q2].
    unfold runs in *. cbn [filter]. unfold is_run at 1. rewrite Q1. cbn [negb]. exact (IH Q2). }
  rewrite N. reflexivity.
Qed.

(** X20. On ASCII input, a standard deployment with a name, an OS type
    and a size that pass the checks, confirmed with yes, on a
    configuration that names the vCenter server and the cluster, starts
    the backend once: with the inline script in which the VM name and the
    tag are the typed lines without the blanks around them, placed between
    quotes as they are, and the guest id, CPU count, memory and disk size
    are those of the catalog entries chosen. *)
Theorem standard_deployment_runs (w : World) (name os size ip tag answer : string)
        (rest : list key) (content : string) (config server cluster_name : json)
        (os_type : OsType) (size_specs : Size) :
  ascii_input w = true ->
  stdin w = Line name :: Line os :: Line size :: Line ip :: Line tag :: Line answer :: rest ->
  is_empty (strip name) = false ->
  dict_get OS_TYPES (entered "1" os) = Some os_type ->
  dict_get VM_SIZES (entered "Small" size) = Some size_specs ->
  is_yes (lower (strip answer)) = true ->
  fs w CONFIG_FILE = Some content -> json_loads content = Parsed config ->
  lookup config ["vcenter"; "server"] = Ret server ->
  lookup config ["cluster"; "name"] = Ret cluster_name ->
  exists script,
    runs (log (deploy_standard_vm w)) = [Run (inline_command script) SCRIPT_DIR]
    /\ script = deploy_standard_vm_ps_command server cluster_name os_type
                  (strip name) (strip tag) size_specs
    /\ within [Lit "    $vm = New-VM -Name '"; Lit (strip name); Lit "' `"] script
    /\ within [Lit "        -GuestId '"; Lit (ot_guest_id os_type); Lit "' `"] script
    /\ within [Lit "        -NumCpu "; Fmt (JInt (cpu size_specs)); Lit " `"] script
    /\ within [Lit "        -MemoryGB "; Fmt (JInt (memory_gb size_specs)); Lit " `"] script
    /\ within [Lit "        -DiskGB "; Fmt (JInt (disk_gb size_specs)); Lit " `"] script
    /\ within [Lit "    $tag = Get-Tag -Name '"; Lit (strip tag);
               Lit "' -ErrorAction SilentlyContinue"] script
    /\ within [Lit "    Connect-VIServer -Server '"; Fmt server; Lit "' -Credential $cred"]
              script
    /\ within [Lit "    $cluster = Get-Cluster -Name '"; Fmt cluster_name;
               Lit "' -ErrorAction Stop"] script.
Proof.
  intros _ K Name Os Size Yes F P Server Cluster.
  assert (N : entered "" name = strip name) by reflexivity.
  assert (T : entered "" tag = strip tag) by reflexivity.
  eexists. split; [ | split; [reflexivity | ]].
  - unfold deploy_standard_vm.
    repeat first [ erewrite runs_after; [ | walk | reflexivity]
                 | rewrite N, Name | rewrite Os | rewrite Size | progress cbn [negb] ].
    rewrite T. apply one_inline_run.
  - unfold deploy_standard_vm_ps_command. repeat split; find_within.
Qed.

(** X21. On ASCII input, a template deployment with a selector, a name
    and a size that pass the checks, confirmed with yes, starts the
    backend once: with the inline script that clones the template of the
    chosen catalog entry under the typed name, sets the CPU count and the
    memory of the chosen size and looks up the typed tag. The disk size of
    the chosen size is not part of the script: two sizes that agree on CPU
    count and memory give the same script. *)
Theorem template_deployment_runs (w : World)
        (choice name size ip mask gateway tag answer : string)
        (rest : list key) (content : string) (config server cluster_name : json)
        (template : Template) (size_specs : Size) :
  ascii_input w = true ->
  stdin w = Line choice :: Line name :: Line size :: Line ip :: Line mask
            :: Line gateway :: Line tag :: Line answer :: rest ->
  (upper (strip choice) =? "B") = false ->
  dict_get VM_TEMPLATES (upper (strip choice)) = Some template ->
  is_empty (strip name) = false ->
  dict_get VM_SIZES (entered "Medium" size) = Some size_specs ->
  is_yes (lower (strip answer)) = true ->
  fs w CONFIG_FILE = Some content -> json_loads content = Parsed config ->
  lookup config ["vcenter"; "server"] = Ret server ->
  lookup config ["cluster"; "name"] = Ret cluster_name ->
  exists script,
    runs (log (deploy_vm_from_template w)) = [Run (inline_command script) SCRIPT_DIR]
    /\ script = deploy_vm_from_template_ps_command server cluster_name template
                  (strip name) (strip tag) size_specs
    /\ within [Lit "    $template = Get-Template -Name '"; Lit (tpl_template template);
               Lit "' -ErrorAction Stop"] script
    /\ within [Lit "    $vm = New-VM -Name '"; Lit (strip name); Lit "' `"] script
    /\ within [Lit "        -NumCpu "; Fmt (JInt (cpu size_specs)); Lit " `"] script
    /\ within [Lit "        -MemoryGB "; Fmt (JInt (memory_gb size_specs)); Lit " `"] script
    /\ within [Lit "    $tag = Get-Tag -Name '"; Lit (strip tag);
               Lit "' -ErrorAction SilentlyContinue"] script
    /\ (forall other,
          cpu other = cpu size_specs -> memory_gb other = memory_gb size_specs ->
          deploy_vm_from_template_ps_command server cluster_name template
            (strip name) (strip tag) other = script).
Proof.
  intros _ K Back Tpl Name Size Yes F P Server Cluster.
  assert (C : entered "" choice = strip choice) by reflexivity.
  assert (N : entered "" name = strip name) by reflexivity.
  assert (T : entered "" tag = strip tag) by reflexivity.
  eexists. split; [ | split; [reflexivity | ]].
  - unfold deploy_vm_from_template.
    repeat first [ erewrite runs_after; [ | walk | reflexivity]
                 | rewrite C, Back, Tpl | rewrite N, Name | rewrite Size
                 | progress cbn [negb] ].
    rewrite T. apply one_inline_run.
  - unfold deploy_vm_from_template_ps_command.
    repeat split; try find_within.
    intros other E1 E2. rewrite E1, E2. reflexivity.
Qed.

(** What [m] printed and asked stays in front of what follows it. *)
Lemma log_after {A B : Type} (m : M A) (k : A -> M B) (w w1 : World) (a : A)
      (l1 : list event) :
  m w = mkRes (Ret a) w1 l1 -> log (bind m k w) = l1 ++ log (k a w1).
Proof. intros E. unfold bind. rewrite E. reflexivity. Qed.

(** C8. The template selector [1] (blanks around it set aside) resolves
    to the catalog entry whose template is [template-splunk-enterprise]:
    [deploy_vm_from_template] shows that name once the selector is typed,
    and on ASCII input a deployment that goes through (a name, a size of
    the catalog, a yes, a configuration that names the vCenter server and
    the cluster) starts the backend once, with a script that asks
    [Get-Template] for [template-splunk-enterprise]. *)
Theorem template_1_resolves (w : World) (choice : string) (others : list key) :
  stdin w = Line choice :: others -> upper (strip choice) = "1" ->
  dict_get VM_TEMPLATES (upper (strip choice))
  = Some (mkTemplate "Splunk" "template-splunk-enterprise" "Splunk Enterprise Server")
  /\ In (Print [Lit "Template Name:     "; Lit "template-splunk-enterprise"])
        (log (deploy_vm_from_template w))
  /\ (forall name size ip mask gateway tag answer rest content config server cluster_name
             size_specs,
        ascii_input w = true ->
        others = Line name :: Line size :: Line ip :: Line mask :: Line gateway
                 :: Line tag :: Line answer :: rest ->
        is_empty (strip name) = false ->
        dict_get VM_SIZES (entered "Medium" size) = Some size_specs ->
        is_yes (lower (strip answer)) = true ->
        fs w CONFIG_FILE = Some content -> json_loads content = Parsed config ->
        lookup config ["vcenter"; "server"] = Ret server ->
        lookup config ["cluster"; "name"] = Ret cluster_name ->
        exists script,
          runs (log (deploy_vm_from_template w)) = [Run (inline_command script) SCRIPT_DIR]
          /\ within [Lit "    $template = Get-Template -Name '";
                     Lit "template-splunk-enterprise"; Lit "' -ErrorAction Stop"] script).
Proof.
  intros K One.
  assert (C : entered "" choice = strip choice) by reflexivity.
  split; [rewrite One; reflexivity | split].
  - unfold deploy_vm_from_template.
    erewrite log_after; [ | walk]. apply in_or_app. right.
    erewrite log_after; [ | eapply get_input_line; exact K]. apply in_or_app. right.
    cbv beta zeta. rewrite C, One.
    cbv beta iota delta [String.eqb Ascii.eqb Bool.eqb dict_get VM_TEMPLATES tpl_template
                         tpl_name].
    erewrite log_after; [ | walk]. apply in_or_app. right.
    erewrite log_after; [ | walk]. apply in_or_app. right.
    erewrite log_after; [ | walk]. apply in_or_app. left. left. reflexivity.
  - intros name size ip mask gateway tag answer rest content config server cluster_name
           size_specs _ Others Name Size Yes F P Server Cluster.
    rewrite Others in K.
    assert (N : entered "" name = strip name) by reflexivity.
    assert (T : entered "" tag = strip tag) by reflexivity.
    assert (Back : (upper (strip choice) =? "B") = false) by (rewrite One; reflexivity).
    assert (Tpl : dict_get VM_TEMPLATES (upper (strip choice))
                  = Some (mkTemplate "Splunk" "template-splunk-enterprise"
                            "Splunk Enterprise Server")) by (rewrite One; reflexivity).
    eexists. split.
    + unfold deploy_vm_from_template.
      repeat first [ erewrite runs_after; [ | walk | reflexivity]
                   | rewrite C, Back, Tpl | rewrite N, Name | rewrite Size
                   | progress cbn [negb] ].
      rewrite T. apply one_inline_run.
    + unfold deploy_vm_from_template_ps_command. cbn [tpl_template]. find_within.
Qed.

End Deployments.

(** ** The properties at work in the lab *)

Lemma session_exit_status_witness :
  last_words (H := lab 0) 0 (log (main (H := lab 0) 1 (lab_world ["q"]))).
Proof.
  refine (proj2 (session_exit_status (H := lab 0) 1 (lab_world ["q"]) 0 _ _)).
  - reflexivity.
  - vm_compute. reflexivity.
Defined.

Lemma session_ends_witness :
  (exists c, out (main (H := lab 0) 2 (lab_world ["x"])) = Exit c)
  \/ (exists e, out (main (H := lab 0) 2 (lab_world ["x"])) = Raise e).
Proof.
  refine (session_ends (H := lab 0) 2 (lab_world ["x"]) _).
  cbn. lia.
Defined.

Lemma interrupt_asks_to_exit_witness :
  out (menu_pass (H := lab 0) MainMenu 1 (lab_keys [Line "6"; CtrlC; Line "no"]))
  = Ret Continue.
Proof.
  destruct (interrupt_asks_to_exit (H := lab 0) 1 (lab_keys [Line "6"; CtrlC; Line "no"])
              [Lit "Select option"; Lit ": "] eq_refl)
    as (w1 & l1 & E & _ & Answer & _).
  - vm_compute. repeat (first [left; reflexivity | right]).
  - assert (W1 : w1 = world (main_menu_pass (H := lab 0) 1
                               (lab_keys [Line "6"; CtrlC; Line "no"])))
      by (rewrite E; reflexivity).
    assert (K : stdin w1 = [Line "no"]) by (rewrite W1; vm_compute; reflexivity).
    destruct (Answer "no" [] K eq_refl) as [P _]. rewrite P. reflexivity.
Defined.

Lemma interrupt_leaves_submenu_witness :
  out (menu_pass (H := lab 0) MainMenu 1 (lab_keys [Line "5"; CtrlC; Line "y"])) = Exit 0.
Proof.
  refine (proj1 (interrupt_leaves_submenu (H := lab 0) ConfigureMenu 0
                   (lab_keys [Line "5"; CtrlC; Line "y"]) "5" "y" [] _ _ _ _ _)).
  - discriminate.
  - reflexivity.
  - reflexivity.
  - reflexivity.
  - vm_compute. reflexivity.
Defined.

Lemma end_of_input_ends_session_witness :
  out (main (H := lab 0) 1 (lab_world [])) = Raise EOFError.
Proof.
  refine (proj1 (end_of_input_ends_session (H := lab 0) 0 (lab_world [])
                   (PyJson.encode 0 lab_config) lab_config _ _ _ _)).
  - vm_compute. reflexivity.
  - vm_compute. reflexivity.
  - vm_compute. reflexivity.
  - reflexivity.
Defined.

Lemma missing_field_ends_session_witness :
  out (main (H := lab 0) 1 bare_world) = Raise (KeyError "environment").
Proof.
  refine (proj1 (missing_field_ends_session (H := lab 0) 0 bare_world "{}" (JObj [])
                   (KeyError "environment") _ _ _)).
  - vm_compute. reflexivity.
  - vm_compute. reflexivity.
  - vm_compute. reflexivity.
Defined.

Lemma missing_script_is_reported_witness :
  forallb no_run (log (perform (H := lab 0) DeployVCSA (scriptless_world ["y"]))) = true.
Proof.
  refine (proj1 (missing_script_is_reported (H := lab 0) DeployVCSA
                   "C:\ecst\Deploy-VCSA.ps1" (scriptless_world ["y"]) _ _)).
  - vm_compute. reflexivity.
  - vm_compute. reflexivity.
Defined.

Lemma unreadable_config_starts_nothing_witness :
  ending_of (out (perform (H := lab 0) DeployCluster (empty_world ["y"]))) = Exited 1.
Proof.
  refine (proj1 (proj2 (proj2 (unreadable_config_starts_nothing (H := lab 0) DeployCluster
                                 (empty_world ["y"]) _ _)) _)).
  - discriminate.
  - vm_compute. exact I.
  - reflexivity.
Defined.

Lemma configure_all_runs_unchecked_witness :
  runs (log (configure_all (H := lab 0) (empty_world ["y"])))
  = [Run (configure_all_command (H := lab 0)) "C:\ecst"].
Proof.
  refine (configure_all_runs_unchecked (H := lab 0) (empty_world ["y"]) "y" [] _ _).
  - reflexivity.
  - reflexivity.
Defined.

Lemma confirm_action_accepts_witness :
  out (confirm_action "Create this VM?" (lab_world ["  YeS "])) = Ret true.
Proof.
  refine (proj2 (proj1 (confirm_action_accepts "Create this VM?"
                          (lab_world ["  YeS "]) "  YeS " [] _ _)) _).
  - reflexivity.
  - reflexivity.
  - exists "  ", "YeS", " ". repeat split. cbn. auto 10.
Defined.

Lemma get_input_strips_witness :
  exists v,
    out (get_input "Enter Size" "Medium" (lab_world ["  Large "])) = Ret v
    /\ v = "Large".
Proof.
  destruct (get_input_strips "Enter Size" "Medium" (lab_world ["  Large "])
              "  Large " [] eq_refl eq_refl) as (v & E & _).
  exists v. split; [exact E | ].
  vm_compute in E. congruence.
Defined.

Lemma failed_start_is_not_handled_witness :
  out (perform (H := stranded) DeployDatacenter (stranded_world ["y"]))
  = Raise FileNotFoundError.
Proof.
  refine (proj1 (proj1 (failed_start_is_not_handled (H := stranded) (stranded_world ["y"])
                          (inline_command (deploy_datacenter_ps_command (H := stranded)))
                          "/opt/ecst" _) DeployDatacenter _)).
  - reflexivity.
  - vm_compute. repeat (first [left; reflexivity | right]).
Defined.

Lemma view_configuration_shows_witness :
  out (view_configuration (H := lab 0) (lab_world [""])) = Ret tt.
Proof.
  refine (f_equal out
            (view_configuration_shows (H := lab 0) (lab_world [""])
               (PyJson.encode 0 lab_config) lab_config (PyJson.encode 0 lab_config)
               "" [] _ _ _ _)).
  - reflexivity.
  - vm_compute. reflexivity.
  - vm_compute. reflexivity.
  - reflexivity.
Defined.

Lemma configuration_management_reads_only_witness :
  out (config_management_menu_pass (H := lab 0) (lab_world ["3"; ""])) = Ret Continue.
Proof.
  refine (f_equal out
            (proj2 (proj2 (configuration_management_reads_only (H := lab 0) 1
                             (lab_world ["3"; ""])))
               "3" "" [] _ _)).
  - reflexivity.
  - reflexivity.
Defined.

Lemma template_back_returns_witness :
  out (deploy_vm_from_template (H := lab 0) (lab_world [" b "])) = Ret tt.
Proof.
  refine (f_equal out
            (template_back_returns (H := lab 0) (lab_world [" b "]) " b " [] _ _)).
  - reflexivity.
  - reflexivity.
Defined.

Lemma standard_deployment_runs_witness :
  exists script,
    runs (log (deploy_standard_vm (H := lab 0)
                 (lab_world ["web01"; "2"; "Small"; "10.0.0.5"; "Web"; "y"; ""])))
    = [Run (inline_command script) "C:\ecst"].
Proof.
  destruct (standard_deployment_runs (H := lab 0)
              (lab_world ["web01"; "2"; "Small"; "10.0.0.5"; "Web"; "y"; ""])
              "web01" "2" "Small" "10.0.0.5" "Web" "y" [Line ""]
              (PyJson.encode 0 lab_config) lab_config (JStr "vcsa.lab.local") (JStr "CL1")
              (mkOsType "Ubuntu" "ubuntu64Guest" "Ubuntu Linux") (mkSize 2 4 50))
    as (script & R & _).
  - reflexivity.
  - reflexivity.
  - reflexivity.
  - reflexivity.
  - reflexivity.
  - reflexivity.
  - vm_compute. reflexivity.
  - vm_compute. reflexivity.
  - reflexivity.
  - reflexivity.
  - exists script. exact R.
Defined.

Lemma template_deployment_runs_witness :
  exists script,
    runs (log (deploy_vm_from_template (H := lab 0)
                 (lab_world ["5"; "rhel01"; ""; "10.0.0.6"; ""; ""; "Prod"; "yes"; ""])))
    = [Run (inline_command script) "C:\ecst"].
Proof.
  destruct (template_deployment_runs (H := lab 0)
              (lab_world ["5"; "rhel01"; ""; "10.0.0.6"; ""; ""; "Prod"; "yes"; ""])
              "5" "rhel01" "" "10.0.0.6" "" "" "Prod" "yes" [Line ""]
              (PyJson.encode 0 lab_config) lab_config (JStr "vcsa.lab.local") (JStr "CL1")
              (mkTemplate "RHEL 9" "template-rhel9" "Red Hat Enterprise Linux 9")
              (mkSize 4 8 100))
    as (script & R & _).
  - reflexivity.
  - reflexivity.
  - reflexivity.
  - reflexivity.
  - reflexivity.
  - reflexivity.
  - reflexivity.
  - vm_compute. reflexivity.
  - vm_compute. reflexivity.
  - reflexivity.
  - reflexivity.
  - exists script. exact R.
Defined.

Lemma template_1_resolves_witness :
  In (Print [Lit "Template Name:     "; Lit "template-splunk-enterprise"])
     (log (deploy_vm_from_template (H := lab 0) (lab_world [" 1 "])))
  /\ exists script,
       runs (log (deploy_vm_from_template (H := lab 0)
                    (lab_world ["1"; "splunk01"; ""; "10.0.0.7"; ""; ""; "Prod"; "y"; ""])))
       = [Run (inline_command script) "C:\ecst"].
Proof.
  split.
  - refine (proj1 (proj2 (template_1_resolves (H := lab 0) (lab_world [" 1 "]) " 1 " [] _ _))).
    + reflexivity.
    + reflexivity.
  - destruct (proj2 (proj2 (template_1_resolves (H := lab 0)
                              (lab_world ["1"; "splunk01"; ""; "10.0.0.7"; ""; ""; "Prod";
                                          "y"; ""])
                              "1" _ eq_refl eq_refl))
                "splunk01" "" "10.0.0.7" "" "" "Prod" "y" [Line ""]
                (PyJson.encode 0 lab_config) lab_config (JStr "vcsa.lab.local") (JStr "CL1")
                (mkSize 4 8 100))
      as (script & R & _).
    + reflexivity.
    + reflexivity.
    + reflexivity.
    + reflexivity.
    + reflexivity.
    + vm_compute. reflexivity.
    + vm_compute. reflexivity.
    + reflexivity.
    + reflexivity.
    + exists script. exact R.
Defined.
